(** * lndmanage: the fee setter ([lndmanage/lib/fee_setting.py])

    A shallow embedding of [FeeSetter.new_fee_policy] and of the four
    change-factor methods it calls, followed by the properties of the
    fee-policy decision logic.

    Conventions of the embedding.
    - Python [int] values (counts, base fees in msat, capacity, cltv, the
      look-back window in days) are [Z].
    - Python [float] values (fee rates, unbalancedness, flow, forwarded
      amounts, change factors) are exact rationals [Q] in the modules
      [Py] and [FeeSetter]: every arithmetic operation is the exact one,
      and [round(x, 6)] rounds the exact value half-to-even.  Comparisons
      are the numeric ones ([==] of Python is [Qeq_bool]); there is no NaN
      and no infinity.  This is the arithmetic the floats of the code
      approximate; it is used for the ranges, the mode rules and the
      structure of the run.
    - Where the result depends on how a float product is rounded or
      truncated (the fee rate [round(fee_rate * weighted_change, 6)], the
      base fee [int(max(min_base_fee_msat, base_fee_msat *
      factor_base_fee))]), the exact value can differ from the value the
      code computes by a millionth or by one msat.  The module
      [Binary64] embeds the body of the loop a second time, over IEEE 754
      binary64 floats, and these two results are stated and proved
      there.
    - A raised exception ends the run: fallible code returns [result].
    - Dictionaries are [gmap]s, except the channel snapshot, which is the
      list [channels.items()] in iteration order, since the loop writes the
      output dictionary in that order.
    - The [logger.debug] line with the parsable per-channel statistics is
      kept as a record of its fields; the [logger.info] lines are dropped. *)

From Stdlib Require Import ZArith QArith Qround Qminmax Qabs Lqa Lia.
From Stdlib Require Import Floats.
From stdpp Require Import gmap strings list fin_maps.

Local Open Scope Q_scope.

(** ** Exceptions *)

Inductive exn : Type :=
| KeyError (key : string)
| ZeroDivisionError.

Inductive result (A : Type) : Type :=
| Ok (a : A)
| Raise (e : exn).
Arguments Ok {A} a.
Arguments Raise {A} e.

#[global] Instance result_ret : MRet result := @Ok.
#[global] Instance result_bind : MBind result := fun A B f m =>
  match m with
  | Ok a => f a
  | Raise e => Raise e
  end.
#[global] Instance result_fmap : FMap result := fun A B f m =>
  match m with
  | Ok a => Ok (f a)
  | Raise e => Raise e
  end.

(** ** The Python built-ins the module uses *)

Module Py.

Definition lt (a b : Q) : bool := negb (Qle_bool b a).
Definition gt (a b : Q) : bool := lt b a.
Definition le (a b : Q) : bool := Qle_bool a b.
Definition eq (a b : Q) : bool := Qeq_bool a b.

(** [max(a, b)]: the first argument is kept unless the second is
    strictly larger. *)
Definition max (a b : Q) : Q := if gt b a then b else a.

(** [min(a, b)]: the first argument is kept unless the second is
    strictly smaller. *)
Definition min (a b : Q) : Q := if lt b a then b else a.

(** [int(x)]: truncation towards zero. *)
Definition int (x : Q) : Z := Z.quot (Qnum x) (Zpos (Qden x)).

(** Nearest integer, ties to the even one. *)
Definition round_half_even (x : Q) : Z :=
  let f := Qfloor x in
  match Qcompare (x - inject_Z f) (1 # 2) with
  | Lt => f
  | Gt => (f + 1)%Z
  | Eq => if Z.even f then f else (f + 1)%Z
  end.

(** [round(x, ndigits)] for [ndigits >= 0]. *)
Definition round (x : Q) (ndigits : Z) : Q :=
  inject_Z (round_half_even (x * inject_Z (10 ^ ndigits)))
  / inject_Z (10 ^ ndigits).

(** [a / b] with a divisor that may be zero.  The module's other
    divisions have a non-zero literal (or a sum of positive literals) as
    divisor and are written with [/]. *)
Definition div (a b : Q) : result Q :=
  if eq b 0 then Raise ZeroDivisionError else Ok (a / b).

End Py.

(** ** Data *)

(** [channel_data]: one value of the dictionary [node.get_all_channels()]. *)
Module Channel.
Record t : Type := {
  unbalancedness : Q;
  capacity : Z;
  channel_point : string
}.
End Channel.

(** [channel_stats]: one value of the dictionary
    [forwarding_analyzer.get_forwarding_statistics_channels()]. *)
Module Stats.
Record t : Type := {
  flow_direction : Q;
  fees_total : Z;
  total_forwarding_in : Q;
  total_forwarding_out : Q;
  number_forwardings : Z;
  number_forwardings_out : Z
}.
End Stats.

(** A fee policy, as read from [self.channel_fee_policies] and as written
    to the returned dictionary. *)
Module Policy.
Record t : Type := {
  base_fee_msat : Z;
  fee_rate : Q;
  cltv : Z
}.
End Policy.

(** The fields of the [logger.debug] line "stats: ..." (the time stamp
    apart), in the order they are printed. *)
Module StatsLine.
Record t : Type := {
  channel_id : Z;
  total_forwarding_in : Q;
  total_forwarding_out : Q;
  ub : Q;
  flow : Q;
  fees_sat : Q;
  capacity : Z;
  factor_demand : Q;
  factor_unbalancedness : Q;
  factor_flow : Q;
  weighted_change : Q;
  fee_rate : Q;
  fee_rate_new : Q;
  number_forwardings : Z;
  number_forwardings_out : Z;
  factor_base_fee : Q;
  base_fee_msat : Z;
  base_fee_msat_new : Z
}.
End StatsLine.

(** ** The module's constants *)

(** fee_lock_rate is used to disable forwardings of a channel via fees *)
Definition FEE_LOCK_RATE : Q := 0.025000.
(** threshold_ub_open is the value of unbalancedness below which the channel
    goes into full open mode if no forwardings where happening *)
Definition THRESHOLD_UB_OPEN : Q := -0.5.
(** threshold_ub_close is the value of unbalancedness above which the
    channel goes into closed mode *)
Definition THRESHOLD_UB_CLOSE : Q := 0.95.

(** ** class FeeSetter *)

Module FeeSetter.

(** The attributes of [self] that [new_fee_policy] reads: those set by
    [__init__] and by [set_fees]. *)
Record t : Type := {
  channel_fee_policies : gmap string Policy.t;
  time_interval_days : Z;
  min_base_fee_msat : Z;
  max_base_fee_msat : Z;
  min_fee_rate : Q;
  max_fee_rate : Q;
  init : bool;
  cltv : Z
}.

(** [factor_unbalancedness(ub)] *)
Definition factor_unbalancedness (ub : Q) : Q :=
  (* maximal change *)
  let c_max := 0.5 in
  (* give unbalancedness a more refined weight *)
  let rescale := 0.5 in
  let c := 1 + ub * rescale in
  (* limit the change *)
  if Py.gt c 1 then Py.min c (1 + c_max) else Py.max c (1 - c_max).

(** [factor_flow(flow)] *)
Definition factor_flow (flow : Q) : Q :=
  let c_max := 0.5 in
  let rescale := 0.5 in
  let c := 1 + flow * rescale in
  (* limit the change *)
  if Py.gt c 1 then Py.min c (1 + c_max) else Py.max c (1 - c_max).

(** [self.factor_demand_fee_rate(amount_out)] *)
Definition factor_demand_fee_rate (self : t) (amount_out : Q) : result Q :=
  rate ← Py.div amount_out (inject_Z (time_interval_days self));
  let c_min := 0.25 in  (* change by 25% downwards *)
  let c_max := 1.00 in  (* change by 100% upwards *)
  (* target rate is fixed 500000 sat per week *)
  let rate_target := 500000 / 7 in
  let c := c_min * (rate / rate_target - 1) + 1 in
  mret (Py.min c (1 + c_max)).

(** [self.factor_demand_base_fee(num_fwd_out)] *)
Definition factor_demand_base_fee (self : t) (num_fwd_out : Z) : result Q :=
  let c_min := 0.25 in  (* change by 25% downwards *)
  let c_max := 1.00 in  (* change by 100% upwards *)
  let num_fwd_target := 5 / 7 in
  q ← Py.div (inject_Z num_fwd_out) (inject_Z (time_interval_days self));
  let c := c_min * (q / num_fwd_target - 1) + 1 in
  mret (Py.min c (1 + c_max)).

(** Lines 146-163 of [new_fee_policy]: the weighted change. *)
Definition weighted_change
    (factor_demand factor_unbalancedness factor_flow total_forwarding : Q)
    : Q :=
  (* we want to give the demand the highest weight of the three
     indicators *)
  let wgt_demand := 1.3 in
  let wgt_ub := 1.0 in
  let wgt_flow := 0.6 in
  (* in the case where no forwarding was done, ignore the flow factor *)
  let wgt_flow := if Py.eq total_forwarding 0 then 0 else wgt_flow in
  (* calculate weighted change *)
  (wgt_ub * factor_unbalancedness
   + wgt_flow * factor_flow
   + wgt_demand * factor_demand)
  / (wgt_ub + wgt_flow + wgt_demand).

(** Lines 173-209 of [new_fee_policy]: the new fee rate. *)
Definition fee_rate_new (self : t)
    (fee_rate ub total_forwarding_out weighted_change : Q) : Q :=
  (* if we initialize the fee optimization, we want to start with
     reasonable starting values *)
  if init self then
    if Py.lt weighted_change 1 then min_fee_rate self
    else max_fee_rate self / 2
  else
    (* round down to 6 digits, as this is the expected data for the api *)
    let fee_rate_new := Py.round (fee_rate * weighted_change) 6 in
    (* if the fee rate is too low, cap it, as we don't want to
       necessarily have too low fees, limit also from top *)
    let fee_rate_new :=
      Py.min (Py.max (min_fee_rate self) fee_rate_new) (max_fee_rate self) in
    (* THRESHOLD MODES *)
    (* LOW UNBALANCEDNESS *)
    let fee_rate_new :=
      if Py.le fee_rate (min_fee_rate self)
         && Py.lt ub THRESHOLD_UB_OPEN
         && Py.eq total_forwarding_out 0
      then 0                                   (* Open mode. *)
      else if Py.eq fee_rate 0
              && Py.gt total_forwarding_out 0
              && Py.gt ub THRESHOLD_UB_OPEN
      then min_fee_rate self                   (* Leaving open mode. *)
      else fee_rate_new in
    (* HIGH UNBALANCEDNESS *)
    if Py.gt ub THRESHOLD_UB_CLOSE && Py.eq total_forwarding_out 0
    then FEE_LOCK_RATE                         (* Fee locked mode. *)
    else if Py.eq fee_rate FEE_LOCK_RATE && Py.lt ub THRESHOLD_UB_CLOSE
    then max_fee_rate self / 2                 (* Leaving fee locked mode. *)
    else fee_rate_new.

(** Lines 217-224 of [new_fee_policy]: the new base fee. *)
Definition base_fee_msat_new (self : t)
    (base_fee_msat : Z) (factor_base_fee : Q) : Z :=
  let base_fee_msat_new := inject_Z base_fee_msat * factor_base_fee in
  if init self then
    if Py.lt factor_base_fee 1 then min_base_fee_msat self
    else max_base_fee_msat self
  else
    Py.int (Py.max (inject_Z (min_base_fee_msat self)) base_fee_msat_new).

(** The body of the [for] loop of [new_fee_policy] (lines 107-245), for
    one item of [channels.items()]: the policy stored under
    [channel_data['channel_point']], and the debug line. *)
Definition new_fee_policy_channel (self : t)
    (channels_forwarding_stats : gmap Z Stats.t)
    (channel_id : Z) (channel_data : Channel.t)
    : result (Policy.t * StatsLine.t) :=
  let channel_stats := channels_forwarding_stats !! channel_id in
  let '(flow, fees_sat, total_forwarding_in, total_forwarding_out,
        total_forwarding, number_forwardings, number_forwardings_out) :=
    match channel_stats with
    | None => (0, 0, 0, 0, 0, 0%Z, 0%Z)
    | Some channel_stats =>
        let total_forwarding_in := Stats.total_forwarding_in channel_stats in
        let total_forwarding_out :=
          Stats.total_forwarding_out channel_stats in
        (Stats.flow_direction channel_stats,
         inject_Z (Stats.fees_total channel_stats) / 1000,
         total_forwarding_in,
         total_forwarding_out,
         total_forwarding_in + total_forwarding_out,
         Stats.number_forwardings channel_stats,
         Stats.number_forwardings_out channel_stats)
    end in
  let ub := Channel.unbalancedness channel_data in
  let capacity := Channel.capacity channel_data in
  match channel_fee_policies self !! Channel.channel_point channel_data with
  | None => Raise (KeyError (Channel.channel_point channel_data))
  | Some current =>
      let fee_rate := Policy.fee_rate current in
      let base_fee_msat := Policy.base_fee_msat current in
      (* FEE RATES *)
      factor_demand ← factor_demand_fee_rate self total_forwarding_out;
      let factor_unbalancedness := factor_unbalancedness ub in
      let factor_flow := factor_flow flow in
      let weighted_change :=
        weighted_change factor_demand factor_unbalancedness factor_flow
          total_forwarding in
      let fee_rate_new :=
        fee_rate_new self fee_rate ub total_forwarding_out weighted_change in
      (* BASE FEES *)
      factor_base_fee ← factor_demand_base_fee self number_forwardings_out;
      let base_fee_msat_new :=
        base_fee_msat_new self base_fee_msat factor_base_fee in
      (* give parsable output *)
      let line := {|
        StatsLine.channel_id := channel_id;
        StatsLine.total_forwarding_in := total_forwarding_in;
        StatsLine.total_forwarding_out := total_forwarding_out;
        StatsLine.ub := ub;
        StatsLine.flow := flow;
        StatsLine.fees_sat := fees_sat;
        StatsLine.capacity := capacity;
        StatsLine.factor_demand := factor_demand;
        StatsLine.factor_unbalancedness := factor_unbalancedness;
        StatsLine.factor_flow := factor_flow;
        StatsLine.weighted_change := weighted_change;
        StatsLine.fee_rate := fee_rate;
        StatsLine.fee_rate_new := fee_rate_new;
        StatsLine.number_forwardings := number_forwardings;
        StatsLine.number_forwardings_out := number_forwardings_out;
        StatsLine.factor_base_fee := factor_base_fee;
        StatsLine.base_fee_msat := base_fee_msat;
        StatsLine.base_fee_msat_new := base_fee_msat_new
      |} in
      mret ({| Policy.base_fee_msat := base_fee_msat_new;
               Policy.fee_rate := fee_rate_new;
               Policy.cltv := cltv self |},
            line)
  end.

(** The [for] loop of [new_fee_policy] over the remaining items, with
    the dictionary and the debug lines written so far. *)
Fixpoint new_fee_policy_loop (self : t)
    (channels_forwarding_stats : gmap Z Stats.t)
    (items : list (Z * Channel.t))
    (channel_fee_policies : gmap string Policy.t)
    (log : list StatsLine.t)
    : result (gmap string Policy.t * list StatsLine.t) :=
  match items with
  | [] => mret (channel_fee_policies, log)
  | (channel_id, channel_data) :: items =>
      '(policy, line) ← new_fee_policy_channel self
                          channels_forwarding_stats channel_id channel_data;
      new_fee_policy_loop self channels_forwarding_stats items
        (<[Channel.channel_point channel_data := policy]>
           channel_fee_policies)
        (log ++ [line])
  end.

(** [self.new_fee_policy(channels, channels_forwarding_stats)]: the
    returned dictionary, and the debug lines in the order written. *)
Definition new_fee_policy (self : t)
    (channels : list (Z * Channel.t))
    (channels_forwarding_stats : gmap Z Stats.t)
    : result (gmap string Policy.t * list StatsLine.t) :=
  new_fee_policy_loop self channels_forwarding_stats channels ∅ [].

End FeeSetter.


(** ** The specification's formulas *)

Module Spec.

(** Sections 4.2 and 4.3: [raw = 1 + x * rescale] with [rescale = 0.5];
    if [raw > 1], clamp to [min(raw, 1 + c_max)]; else clamp to
    [max(raw, 1 - c_max)], with [c_max = 0.5]. *)
Definition limited_change (x : Q) : Q :=
  let raw := 1 + 0.5 * x in
  if Qlt_le_dec 1 raw then Qmin raw 1.5 else Qmax raw 0.5.

(** Section 4.1: the statistics of a channel, every field being zero
    when the forwarding statistics have no entry for it. *)
Definition no_activity : Stats.t := {|
  Stats.flow_direction := 0;
  Stats.fees_total := 0;
  Stats.total_forwarding_in := 0;
  Stats.total_forwarding_out := 0;
  Stats.number_forwardings := 0;
  Stats.number_forwardings_out := 0
|}.

Definition ingest (channels_forwarding_stats : gmap Z Stats.t)
    (channel_id : Z) : Stats.t :=
  default no_activity (channels_forwarding_stats !! channel_id).

(** Section 4.6, step 1: the weighted combination of the three factors. *)
Definition weighted_combination
    (wgt_ub wgt_flow wgt_demand factor_ub factor_flow factor_demand : Q)
    : Q :=
  (wgt_ub * factor_ub + wgt_flow * factor_flow + wgt_demand * factor_demand)
  / (wgt_ub + wgt_flow + wgt_demand).

(** Section 4.6, step 3: clamp to [[lo, hi]]. *)
Definition clamp (lo hi x : Q) : Q := Qmin (Qmax lo x) hi.

(** Section 4.6, step 4: the conditions of the four mode rules. *)
Definition enter_open_mode (min_fee_rate fee_rate ub out : Q) : Prop :=
  fee_rate <= min_fee_rate /\ ub < THRESHOLD_UB_OPEN /\ out == 0.

Definition leave_open_mode (fee_rate ub out : Q) : Prop :=
  fee_rate == 0 /\ 0 < out /\ THRESHOLD_UB_OPEN < ub.

Definition enter_locked_mode (ub out : Q) : Prop :=
  THRESHOLD_UB_CLOSE < ub /\ out == 0.

Definition leave_locked_mode (fee_rate ub : Q) : Prop :=
  fee_rate == FEE_LOCK_RATE /\ ub < THRESHOLD_UB_CLOSE.

(** Section 3, invariants: the new fee rate is within the configured
    band, or one of the two values a hysteretic mode forces. *)
Definition band_or_mode_value (self : FeeSetter.t) (fee_rate_new : Q)
    : Prop :=
  FeeSetter.min_fee_rate self <= fee_rate_new <= FeeSetter.max_fee_rate self
  \/ fee_rate_new == 0
  \/ fee_rate_new == FEE_LOCK_RATE.

End Spec.

(** ** Inputs that differ only in what is logged *)

(** Two channels that differ at most in their [capacity]. *)
Definition channel_data_agree (a b : Channel.t) : Prop :=
  Channel.unbalancedness a = Channel.unbalancedness b
  /\ Channel.channel_point a = Channel.channel_point b.

(** Two statistics that differ at most in their [fees_total] and their
    [number_forwardings]. *)
Definition channel_stats_agree (a b : Stats.t) : Prop :=
  Stats.flow_direction a = Stats.flow_direction b
  /\ Stats.total_forwarding_in a = Stats.total_forwarding_in b
  /\ Stats.total_forwarding_out a = Stats.total_forwarding_out b
  /\ Stats.number_forwardings_out a = Stats.number_forwardings_out b.

Definition channels_agree (channels1 channels2 : list (Z * Channel.t))
    : Prop :=
  Forall2 (fun x y => x.1 = y.1 /\ channel_data_agree x.2 y.2)
    channels1 channels2.

Definition forwarding_stats_agree (stats1 stats2 : gmap Z Stats.t) : Prop :=
  forall channel_id : Z,
    option_Forall2 channel_stats_agree
      (stats1 !! channel_id) (stats2 !! channel_id).

(** The keys under which the loop writes the policies of [channels]. *)
Definition channel_points (channels : list (Z * Channel.t)) : list string :=
  (fun item => Channel.channel_point item.2) <$> channels.

(** ** Reading the debug line *)

(** [line] is the debug line of the channel [channel_data] with the
    current policy [current]: its fields are the inputs of the channel and
    the values the loop body computes from them, in the body's order. *)
Record debug_line_of (self : FeeSetter.t)
    (channels_forwarding_stats : gmap Z Stats.t)
    (channel_id : Z) (channel_data : Channel.t) (current : Policy.t)
    (line : StatsLine.t) : Prop := {
  line_channel_id : StatsLine.channel_id line = channel_id;
  line_flow :
    StatsLine.flow line
    = Stats.flow_direction
        (Spec.ingest channels_forwarding_stats channel_id);
  line_total_forwarding_in :
    StatsLine.total_forwarding_in line
    = Stats.total_forwarding_in
        (Spec.ingest channels_forwarding_stats channel_id);
  line_total_forwarding_out :
    StatsLine.total_forwarding_out line
    = Stats.total_forwarding_out
        (Spec.ingest channels_forwarding_stats channel_id);
  line_number_forwardings :
    StatsLine.number_forwardings line
    = Stats.number_forwardings
        (Spec.ingest channels_forwarding_stats channel_id);
  line_number_forwardings_out :
    StatsLine.number_forwardings_out line
    = Stats.number_forwardings_out
        (Spec.ingest channels_forwarding_stats channel_id);
  line_ub : StatsLine.ub line = Channel.unbalancedness channel_data;
  line_capacity : StatsLine.capacity line = Channel.capacity channel_data;
  line_fee_rate : StatsLine.fee_rate line = Policy.fee_rate current;
  line_base_fee_msat :
    StatsLine.base_fee_msat line = Policy.base_fee_msat current;
  line_factor_demand :
    FeeSetter.factor_demand_fee_rate self
      (Stats.total_forwarding_out
         (Spec.ingest channels_forwarding_stats channel_id))
    = Ok (StatsLine.factor_demand line);
  line_factor_unbalancedness :
    StatsLine.factor_unbalancedness line
    = FeeSetter.factor_unbalancedness (Channel.unbalancedness channel_data);
  line_factor_flow :
    StatsLine.factor_flow line
    = FeeSetter.factor_flow
        (Stats.flow_direction
           (Spec.ingest channels_forwarding_stats channel_id));
  line_weighted_change :
    StatsLine.weighted_change line
    = FeeSetter.weighted_change
        (StatsLine.factor_demand line)
        (StatsLine.factor_unbalancedness line)
        (StatsLine.factor_flow line)
        (Stats.total_forwarding_in
           (Spec.ingest channels_forwarding_stats channel_id)
         + Stats.total_forwarding_out
             (Spec.ingest channels_forwarding_stats channel_id));
  line_fee_rate_new :
    StatsLine.fee_rate_new line
    = FeeSetter.fee_rate_new self (Policy.fee_rate current)
        (Channel.unbalancedness channel_data)
        (Stats.total_forwarding_out
           (Spec.ingest channels_forwarding_stats channel_id))
        (StatsLine.weighted_change line);
  line_factor_base_fee :
    FeeSetter.factor_demand_base_fee self
      (Stats.number_forwardings_out
         (Spec.ingest channels_forwarding_stats channel_id))
    = Ok (StatsLine.factor_base_fee line);
  line_base_fee_msat_new :
    StatsLine.base_fee_msat_new line
    = FeeSetter.base_fee_msat_new self (Policy.base_fee_msat current)
        (StatsLine.factor_base_fee line)
}.
Arguments line_factor_demand {_ _ _ _ _ _} _.
Arguments line_factor_unbalancedness {_ _ _ _ _ _} _.
Arguments line_factor_flow {_ _ _ _ _ _} _.
Arguments line_weighted_change {_ _ _ _ _ _} _.
Arguments line_fee_rate_new {_ _ _ _ _ _} _.
Arguments line_factor_base_fee {_ _ _ _ _ _} _.
Arguments line_base_fee_msat_new {_ _ _ _ _ _} _.

(** The policy the loop body stores with the debug line [line]. *)
Definition policy_of_line (self : FeeSetter.t) (line : StatsLine.t)
    : Policy.t := {|
  Policy.base_fee_msat := StatsLine.base_fee_msat_new line;
  Policy.fee_rate := StatsLine.fee_rate_new line;
  Policy.cltv := FeeSetter.cltv self
|}.


(** ** Concrete runs *)

(** A run with the default arguments of [set_fees] over three channels:
    an active one, one in open mode without statistics, and an inactive,
    overfunded one. *)
Module Sample.

Definition current1 : Policy.t :=
  {| Policy.base_fee_msat := 1000; Policy.fee_rate := 0.000001;
     Policy.cltv := 40 |}.
Definition current2 : Policy.t :=
  {| Policy.base_fee_msat := 1000; Policy.fee_rate := 0;
     Policy.cltv := 40 |}.
Definition current3 : Policy.t :=
  {| Policy.base_fee_msat := 100; Policy.fee_rate := 0.000050;
     Policy.cltv := 40 |}.

Definition self : FeeSetter.t := {|
  FeeSetter.channel_fee_policies :=
    <["txid:0"%string := current1]>
      (<["txid:1"%string := current2]>
         (<["txid:2"%string := current3]> ∅));
  FeeSetter.time_interval_days := 7;
  FeeSetter.min_base_fee_msat := 20;
  FeeSetter.max_base_fee_msat := 400;
  FeeSetter.min_fee_rate := 0.000004;
  FeeSetter.max_fee_rate := 0.000100;
  FeeSetter.init := false;
  FeeSetter.cltv := 14
|}.

Definition channel1 : Channel.t :=
  {| Channel.unbalancedness := 0.2; Channel.capacity := 1000000;
     Channel.channel_point := "txid:0" |}.
Definition channel2 : Channel.t :=
  {| Channel.unbalancedness := 0.2; Channel.capacity := 2000000;
     Channel.channel_point := "txid:1" |}.
Definition channel3 : Channel.t :=
  {| Channel.unbalancedness := 0.98; Channel.capacity := 500000;
     Channel.channel_point := "txid:2" |}.

Definition channels : list (Z * Channel.t) :=
  [(1%Z, channel1); (2%Z, channel2); (3%Z, channel3)].

Definition stats1 : Stats.t := {|
  Stats.flow_direction := 0.3;
  Stats.fees_total := 1234;
  Stats.total_forwarding_in := 100000;
  Stats.total_forwarding_out := 200000;
  Stats.number_forwardings := 5;
  Stats.number_forwardings_out := 3
|}.

Definition channels_forwarding_stats : gmap Z Stats.t :=
  <[1%Z := stats1]> ∅.

(** The dictionary and the debug lines of the run. *)
Definition run : gmap string Policy.t * list StatsLine.t :=
  Eval vm_compute in
    match FeeSetter.new_fee_policy self channels channels_forwarding_stats
    with
    | Ok r => r
    | Raise _ => (∅, [])
    end.

(** The same snapshot with other capacities, fee totals and numbers of
    forwardings. *)
Definition channels' : list (Z * Channel.t) :=
  [(1%Z, {| Channel.unbalancedness := 0.2; Channel.capacity := 7;
            Channel.channel_point := "txid:0" |});
   (2%Z, {| Channel.unbalancedness := 0.2; Channel.capacity := 8;
            Channel.channel_point := "txid:1" |});
   (3%Z, {| Channel.unbalancedness := 0.98; Channel.capacity := 9;
            Channel.channel_point := "txid:2" |})].

Definition channels_forwarding_stats' : gmap Z Stats.t :=
  <[1%Z := {| Stats.flow_direction := 0.3;
              Stats.fees_total := 99;
              Stats.total_forwarding_in := 100000;
              Stats.total_forwarding_out := 200000;
              Stats.number_forwardings := 40;
              Stats.number_forwardings_out := 3 |}]> ∅.

End Sample.

(** A first run ([init = True]) with a band whose lower end is above half
    of its upper end, over one overfunded channel without statistics. *)
Module NarrowBand.

Definition current : Policy.t :=
  {| Policy.base_fee_msat := 1000; Policy.fee_rate := 0.000050;
     Policy.cltv := 40 |}.

Definition self : FeeSetter.t := {|
  FeeSetter.channel_fee_policies := <["txid:0"%string := current]> ∅;
  FeeSetter.time_interval_days := 7;
  FeeSetter.min_base_fee_msat := 20;
  FeeSetter.max_base_fee_msat := 400;
  FeeSetter.min_fee_rate := 0.000080;
  FeeSetter.max_fee_rate := 0.000100;
  FeeSetter.init := true;
  FeeSetter.cltv := 14
|}.

Definition channel : Channel.t :=
  {| Channel.unbalancedness := 0.8; Channel.capacity := 1000000;
     Channel.channel_point := "txid:0" |}.

Definition channels : list (Z * Channel.t) := [(1%Z, channel)].

Definition channels_forwarding_stats : gmap Z Stats.t := ∅.

(** The policy the run writes for the channel. *)
Definition policy : Policy.t :=
  {| Policy.base_fee_msat := 20; Policy.fee_rate := 0.000100 / 2;
     Policy.cltv := 14 |}.

(** A later run ([init = False]) with the same band, over a channel that
    leaves the fee locked mode. *)
Definition locked : Policy.t :=
  {| Policy.base_fee_msat := 1000; Policy.fee_rate := 0.025;
     Policy.cltv := 40 |}.

Definition self' : FeeSetter.t := {|
  FeeSetter.channel_fee_policies := <["txid:0"%string := locked]> ∅;
  FeeSetter.time_interval_days := 7;
  FeeSetter.min_base_fee_msat := 20;
  FeeSetter.max_base_fee_msat := 400;
  FeeSetter.min_fee_rate := 0.000080;
  FeeSetter.max_fee_rate := 0.000100;
  FeeSetter.init := false;
  FeeSetter.cltv := 14
|}.

Definition channel' : Channel.t :=
  {| Channel.unbalancedness := 0.5; Channel.capacity := 1000000;
     Channel.channel_point := "txid:0" |}.

Definition policy' : Policy.t :=
  {| Policy.base_fee_msat := 750; Policy.fee_rate := 0.000100 / 2;
     Policy.cltv := 14 |}.

End NarrowBand.

(** A later run ([init = False], default bounds) over channels that meet
    the conditions of the mode rules. *)
Module Modes.

Definition low : Policy.t :=
  {| Policy.base_fee_msat := 1000; Policy.fee_rate := 0.000004;
     Policy.cltv := 40 |}.
Definition open : Policy.t :=
  {| Policy.base_fee_msat := 1000; Policy.fee_rate := 0;
     Policy.cltv := 40 |}.
Definition locked : Policy.t :=
  {| Policy.base_fee_msat := 1000; Policy.fee_rate := 0.025;
     Policy.cltv := 40 |}.

Definition self : FeeSetter.t := {|
  FeeSetter.channel_fee_policies :=
    <["low:0"%string := low]>
      (<["open:0"%string := open]>
         (<["locked:0"%string := locked]> ∅));
  FeeSetter.time_interval_days := 7;
  FeeSetter.min_base_fee_msat := 20;
  FeeSetter.max_base_fee_msat := 400;
  FeeSetter.min_fee_rate := 0.000004;
  FeeSetter.max_fee_rate := 0.000100;
  FeeSetter.init := false;
  FeeSetter.cltv := 14
|}.

(** Depleted and inactive, at the lowest fee rate. *)
Definition depleted : Channel.t :=
  {| Channel.unbalancedness := -0.7; Channel.capacity := 1000000;
     Channel.channel_point := "low:0" |}.
(** In open mode, balanced again by forwardings. *)
Definition rebalanced : Channel.t :=
  {| Channel.unbalancedness := -0.2; Channel.capacity := 1000000;
     Channel.channel_point := "open:0" |}.
(** In locked mode, no longer overfunded. *)
Definition released : Channel.t :=
  {| Channel.unbalancedness := 0.5; Channel.capacity := 1000000;
     Channel.channel_point := "locked:0" |}.

Definition active : Stats.t := {|
  Stats.flow_direction := 1;
  Stats.fees_total := 0;
  Stats.total_forwarding_in := 0;
  Stats.total_forwarding_out := 10000;
  Stats.number_forwardings := 2;
  Stats.number_forwardings_out := 2
|}.

(** Statistics for the channel 2 only. *)
Definition channels_forwarding_stats : gmap Z Stats.t :=
  <[2%Z := active]> ∅.

Definition channels : list (Z * Channel.t) :=
  [(1%Z, depleted); (2%Z, rebalanced); (3%Z, released)].

(** The dictionary and the debug lines of the run. *)
Definition run : gmap string Policy.t * list StatsLine.t :=
  Eval vm_compute in
    match FeeSetter.new_fee_policy self channels channels_forwarding_stats
    with
    | Ok r => r
    | Raise _ => (∅, [])
    end.

(** The same snapshot in another order. *)
Definition channels' : list (Z * Channel.t) :=
  [(3%Z, released); (1%Z, depleted); (2%Z, rebalanced)].

(** A busy channel: 30 outward forwardings in the 7 days. *)
Definition busy : Stats.t := {|
  Stats.flow_direction := 1;
  Stats.fees_total := 0;
  Stats.total_forwarding_in := 0;
  Stats.total_forwarding_out := 600000;
  Stats.number_forwardings := 30;
  Stats.number_forwardings_out := 30
|}.

(** A channel the node has no policy for. *)
Definition unknown : Channel.t :=
  {| Channel.unbalancedness := 0; Channel.capacity := 1000000;
     Channel.channel_point := "unknown:0" |}.

(** More statistics and more policies than the snapshot needs. *)
Definition channels_forwarding_stats' : gmap Z Stats.t :=
  <[99%Z := busy]> channels_forwarding_stats.

Definition channel_fee_policies' : gmap string Policy.t :=
  <["other:0"%string := locked]> (FeeSetter.channel_fee_policies self).

(** Other current policies for the same channels. *)
Definition channel_fee_policies'' : gmap string Policy.t :=
  <["low:0"%string := locked]>
    (<["open:0"%string := locked]>
       (<["locked:0"%string := low]> ∅)).

(** The first run, and a run over a window of zero days. *)
Definition self_init : FeeSetter.t := {|
  FeeSetter.channel_fee_policies := FeeSetter.channel_fee_policies self;
  FeeSetter.time_interval_days := 7;
  FeeSetter.min_base_fee_msat := 20;
  FeeSetter.max_base_fee_msat := 400;
  FeeSetter.min_fee_rate := 0.000004;
  FeeSetter.max_fee_rate := 0.000100;
  FeeSetter.init := true;
  FeeSetter.cltv := 14
|}.

Definition self_zero_window : FeeSetter.t := {|
  FeeSetter.channel_fee_policies := FeeSetter.channel_fee_policies self;
  FeeSetter.time_interval_days := 0;
  FeeSetter.min_base_fee_msat := 20;
  FeeSetter.max_base_fee_msat := 400;
  FeeSetter.min_fee_rate := 0.000004;
  FeeSetter.max_fee_rate := 0.000100;
  FeeSetter.init := false;
  FeeSetter.cltv := 14
|}.

End Modes.

(** ** Changing one attribute of [self] *)

(** [self] after [self.channel_fee_policies = policies]. *)
Definition with_channel_fee_policies (self : FeeSetter.t)
    (policies : gmap string Policy.t) : FeeSetter.t := {|
  FeeSetter.channel_fee_policies := policies;
  FeeSetter.time_interval_days := FeeSetter.time_interval_days self;
  FeeSetter.min_base_fee_msat := FeeSetter.min_base_fee_msat self;
  FeeSetter.max_base_fee_msat := FeeSetter.max_base_fee_msat self;
  FeeSetter.min_fee_rate := FeeSetter.min_fee_rate self;
  FeeSetter.max_fee_rate := FeeSetter.max_fee_rate self;
  FeeSetter.init := FeeSetter.init self;
  FeeSetter.cltv := FeeSetter.cltv self
|}.

(** [self] after [self.max_base_fee_msat = max_base_fee_msat]. *)
Definition with_max_base_fee_msat (self : FeeSetter.t)
    (max_base_fee_msat : Z) : FeeSetter.t := {|
  FeeSetter.channel_fee_policies := FeeSetter.channel_fee_policies self;
  FeeSetter.time_interval_days := FeeSetter.time_interval_days self;
  FeeSetter.min_base_fee_msat := FeeSetter.min_base_fee_msat self;
  FeeSetter.max_base_fee_msat := max_base_fee_msat;
  FeeSetter.min_fee_rate := FeeSetter.min_fee_rate self;
  FeeSetter.max_fee_rate := FeeSetter.max_fee_rate self;
  FeeSetter.init := FeeSetter.init self;
  FeeSetter.cltv := FeeSetter.cltv self
|}.

(** ** [set_fees] *)

(** The keyword arguments of [set_fees]. *)
Module Args.
Record t : Type := {
  cltv : Z;
  min_base_fee_msat : Z;
  max_base_fee_msat : Z;
  min_fee_rate : Q;
  max_fee_rate : Q;
  from_days_ago : Z;
  init : bool;
  reckless : bool
}.

(** Their default values. *)
Definition default : t := {|
  cltv := 14;
  min_base_fee_msat := 20;
  max_base_fee_msat := 400;
  min_fee_rate := 0.000004;
  max_fee_rate := 0.000100;
  from_days_ago := 7;
  init := false;
  reckless := false
|}.
End Args.

(** What the collaborators of [set_fees] answer during one call: the
    clock, the node, the forwarding analyzer (as a function of the window
    it was initialized with) and the user.  Their code is not part of the
    module; an exception raised by one of them is not modelled. *)
Module World.
Record t : Type := {
  time : Q;
  get_all_channels : list (Z * Channel.t);
  get_forwarding_statistics_channels : Q -> Q -> gmap Z Stats.t;
  yes_no_question : bool
}.
End World.

(** The calls [set_fees] makes on its collaborators. *)
Module Call.
Inductive t : Type :=
| initialize_forwarding_data (time_start time_end : Q)
| get_all_channels
| get_forwarding_statistics_channels
| yes_no_question
| set_channel_fee_policies (channel_fee_policies : gmap string Policy.t).
End Call.

(** What one call of [set_fees] does: the state of [self] afterwards, the
    calls made, in order, and the exception raised, if any. *)
Module Outcome.
Record t : Type := {
  self : FeeSetter.t;
  calls : list Call.t;
  raised : option exn
}.
End Outcome.

(** [self] after the assignments of [set_fees] (lines 62 and 65-70):
    [channel_fee_policies] is the one read by [__init__]. *)
Definition configured (self : FeeSetter.t) (args : Args.t) : FeeSetter.t := {|
  FeeSetter.channel_fee_policies := FeeSetter.channel_fee_policies self;
  FeeSetter.time_interval_days := Args.from_days_ago args;
  FeeSetter.min_base_fee_msat := Args.min_base_fee_msat args;
  FeeSetter.max_base_fee_msat := Args.max_base_fee_msat args;
  FeeSetter.min_fee_rate := Args.min_fee_rate args;
  FeeSetter.max_fee_rate := Args.max_fee_rate args;
  FeeSetter.init := Args.init args;
  FeeSetter.cltv := Args.cltv args
|}.

(** [self.set_fees(cltv, ..., reckless)] *)
Definition set_fees (self : FeeSetter.t) (args : Args.t) (world : World.t)
    : Outcome.t :=
  let time_end := World.time world in
  let time_start :=
    time_end - inject_Z (Args.from_days_ago args * 24 * 60 * 60) in
  let self := configured self args in
  let channels := World.get_all_channels world in
  let channels_forwarding_stats :=
    World.get_forwarding_statistics_channels world time_start time_end in
  let calls :=
    [Call.initialize_forwarding_data time_start time_end;
     Call.get_all_channels;
     Call.get_forwarding_statistics_channels] in
  match FeeSetter.new_fee_policy self channels channels_forwarding_stats with
  | Raise e =>
      {| Outcome.self := self; Outcome.calls := calls;
         Outcome.raised := Some e |}
  | Ok (channel_fee_policies, _) =>
      if negb (Args.reckless args) then
        if World.yes_no_question world then
          {| Outcome.self := self;
             Outcome.calls :=
               calls ++ [Call.yes_no_question;
                         Call.set_channel_fee_policies channel_fee_policies];
             Outcome.raised := None |}
        else
          {| Outcome.self := self;
             Outcome.calls := calls ++ [Call.yes_no_question];
             Outcome.raised := None |}
      else
        {| Outcome.self := self;
           Outcome.calls :=
             calls ++ [Call.set_channel_fee_policies channel_fee_policies];
           Outcome.raised := None |}
  end.

(** The statistics [set_fees] passes to [new_fee_policy]: those of the
    window of [from_days_ago] days that ends now. *)
Definition window_statistics (args : Args.t) (world : World.t)
    : gmap Z Stats.t :=
  World.get_forwarding_statistics_channels world
    (World.time world - inject_Z (Args.from_days_ago args * 24 * 60 * 60))
    (World.time world).

(** A call of [set_fees] with the default arguments, at the time
    1700000000, over the channels of [Modes], the user answering yes. *)
Module Session.

Definition world : World.t := {|
  World.time := 1700000000;
  World.get_all_channels := Modes.channels;
  World.get_forwarding_statistics_channels :=
    fun _ _ => Modes.channels_forwarding_stats;
  World.yes_no_question := true
|}.

End Session.


(** * The loop body over binary64 floats

    The module [FeeSetter] above computes with exact rationals.  The
    values the code rounds ([round(x, 6)]), truncates ([int(x)]) or
    compares with a threshold are floats, and an exact product can fall
    on the other side of a rounding boundary than the float product.  The
    module [Binary64] repeats the body of the loop over IEEE 754 binary64
    numbers, the [float] of CPython, with the kernel's primitive floats;
    the properties of the rounded fee rate and of the truncated base fee
    are proved about it.

    - A [float] is a primitive [float]; [+], [-], [*] and [/] are the
      correctly rounded operations of the processor, and a decimal
      literal stands for the nearest float, as in Python.
    - Arithmetic between an [int] and a [float] converts the [int] first
      ([float(n)], [OverflowError] when out of range); a comparison
      between an [int] and a [float] is exact.
    - The forwarded amounts are floats.  The node reports whole numbers
      of satoshis, all below [2^53], which floats represent exactly, and
      the code's literal [0] for a channel without statistics behaves as
      [0.0]. *)

Set Warnings "-inexact-float".

Module Binary64.

Inductive exn : Type :=
| KeyError (key : string)
| ZeroDivisionError
| OverflowError
| ValueError.

Inductive result (A : Type) : Type :=
| Ok (a : A)
| Raise (e : exn).
Arguments Ok {A} a.
Arguments Raise {A} e.

#[global] Instance result_ret : MRet result := @Ok.
#[global] Instance result_bind : MBind result := fun A B f m =>
  match m with
  | Ok a => f a
  | Raise e => Raise e
  end.

(** ** Python's [float] *)

Module Float.

Local Open Scope float_scope.

Definition lt (a b : float) : bool := a <? b.
Definition gt (a b : float) : bool := lt b a.
Definition le (a b : float) : bool := a <=? b.
Definition eq (a b : float) : bool := a =? b.

(** [max(a, b)]: the first argument is kept unless the second is
    strictly larger (so it is kept when either is a NaN). *)
Definition max (a b : float) : float := if gt b a then b else a.

(** [min(a, b)]: the first argument is kept unless the second is
    strictly smaller. *)
Definition min (a b : float) : float := if lt b a then b else a.

(** Zeros and the numbers with a mantissa and an exponent, as opposed to
    the infinities and NaN. *)
Definition is_finite (x : float) : bool :=
  match Prim2SF x with
  | S754_zero _ | S754_finite _ _ _ => true
  | S754_infinity _ | S754_nan => false
  end.

(** The sign bit. *)
Definition sign (x : float) : bool :=
  match Prim2SF x with
  | S754_zero s | S754_infinity s | S754_finite s _ _ => s
  | S754_nan => false
  end.

(** The number a finite float stands for, [(-1)^s * m * 2^e]. *)
Definition to_Q (x : float) : Q :=
  match Prim2SF x with
  | S754_finite s m e =>
      let v := (inject_Z (Z.pos m) * Qpower 2 e)%Q in
      if s then (- v)%Q else v
  | _ => 0%Q
  end.

(** The float nearest to an integer, ties to even; an infinity from
    [2^1024] on. *)
Definition of_Z (n : Z) : float :=
  SF2Prim (binary_normalize prec emax n 0 false).

(** [float(n)] for an [int], and the conversion of an [int] operand of a
    float operation. *)
Definition of_int (n : Z) : result float :=
  let x := of_Z n in
  if is_finite x then Ok x else Raise OverflowError.

(** [a / b] for floats. *)
Definition div (a b : float) : result float :=
  if eq b 0 then Raise ZeroDivisionError else Ok (a / b).

(** [a / b] for two [int]s: the quotient of the two conversions, which
    is what CPython computes when both are below [2^53] in absolute
    value (beyond, it rounds the exact quotient once). *)
Definition int_div (a b : Z) : result float :=
  if (b =? 0)%Z then Raise ZeroDivisionError else Ok (of_Z a / of_Z b).

(** [x > m] for a float [x] and an [int] [m]: the exact comparison. *)
Definition gt_int (x : float) (m : Z) : bool :=
  match Prim2SF x with
  | S754_nan => false
  | S754_infinity s => negb s
  | _ => Py.lt (inject_Z m) (to_Q x)
  end.

(** [int(x)]: truncation towards zero. *)
Definition int (x : float) : result Z :=
  match Prim2SF x with
  | S754_nan => Raise ValueError
  | S754_infinity _ => Raise OverflowError
  | _ => Ok (Py.int (to_Q x))
  end.

(** [round(x, 6)].  CPython writes the exact value of [x] in decimal
    with 6 digits after the point, rounded half to even, and reads the
    decimal back as the nearest float, with the sign of [x]: the
    integer [n] below is that decimal in millionths.  Below [2^53] both
    [n] and [10^6] are floats, so their float quotient is the float
    nearest to [n / 10^6].  From [2^53] millionths on, [x] is above
    [2^33], where neighbouring floats are more than [10^-6] apart, and
    the float nearest to the decimal is [x] itself.  Infinities and NaN
    are returned unchanged. *)
Definition round_6 (x : float) : float :=
  if is_finite x then
    let n := Py.round_half_even (Qabs (to_Q x) * 1000000)%Q in
    if (n <? 2 ^ 53)%Z then
      let r := of_Z n / 1000000 in
      if sign x then - r else r
    else x
  else x.

End Float.

(** ** Data *)

Module Channel.
Record t : Type := {
  unbalancedness : float;
  capacity : Z;
  channel_point : string
}.
End Channel.

Module Stats.
Record t : Type := {
  flow_direction : float;
  fees_total : Z;
  total_forwarding_in : float;
  total_forwarding_out : float;
  number_forwardings : Z;
  number_forwardings_out : Z
}.
End Stats.

Module Policy.
Record t : Type := {
  base_fee_msat : Z;
  fee_rate : float;
  cltv : Z
}.
End Policy.

Module StatsLine.
Record t : Type := {
  channel_id : Z;
  total_forwarding_in : float;
  total_forwarding_out : float;
  ub : float;
  flow : float;
  fees_sat : float;
  capacity : Z;
  factor_demand : float;
  factor_unbalancedness : float;
  factor_flow : float;
  weighted_change : float;
  fee_rate : float;
  fee_rate_new : float;
  number_forwardings : Z;
  number_forwardings_out : Z;
  factor_base_fee : float;
  base_fee_msat : Z;
  base_fee_msat_new : Z
}.
End StatsLine.

(** ** The module's constants *)

Definition FEE_LOCK_RATE : float := 0.025000.
Definition THRESHOLD_UB_OPEN : float := -0.5.
Definition THRESHOLD_UB_CLOSE : float := 0.95.

(** ** class FeeSetter *)

Module FeeSetter.

Local Open Scope float_scope.

Record t : Type := {
  channel_fee_policies : gmap string Policy.t;
  time_interval_days : Z;
  min_base_fee_msat : Z;
  max_base_fee_msat : Z;
  min_fee_rate : float;
  max_fee_rate : float;
  init : bool;
  cltv : Z
}.

(** [factor_unbalancedness(ub)] *)
Definition factor_unbalancedness (ub : float) : float :=
  (* maximal change *)
  let c_max := 0.5 in
  (* give unbalancedness a more refined weight *)
  let rescale := 0.5 in
  let c := 1 + ub * rescale in
  (* limit the change *)
  if Float.gt c 1 then Float.min c (1 + c_max) else Float.max c (1 - c_max).

(** [factor_flow(flow)] *)
Definition factor_flow (flow : float) : float :=
  let c_max := 0.5 in
  let rescale := 0.5 in
  let c := 1 + flow * rescale in
  (* limit the change *)
  if Float.gt c 1 then Float.min c (1 + c_max) else Float.max c (1 - c_max).

(** [self.factor_demand_fee_rate(amount_out)] *)
Definition factor_demand_fee_rate (self : t) (amount_out : float)
    : result float :=
  days ← Float.of_int (time_interval_days self);
  rate ← Float.div amount_out days;
  let c_min := 0.25 in  (* change by 25% downwards *)
  let c_max := 1.00 in  (* change by 100% upwards *)
  (* target rate is fixed 500000 sat per week *)
  let rate_target := 500000 / 7 in
  let c := c_min * (rate / rate_target - 1) + 1 in
  mret (Float.min c (1 + c_max)).

(** [self.factor_demand_base_fee(num_fwd_out)] *)
Definition factor_demand_base_fee (self : t) (num_fwd_out : Z)
    : result float :=
  let c_min := 0.25 in  (* change by 25% downwards *)
  let c_max := 1.00 in  (* change by 100% upwards *)
  let num_fwd_target := 5 / 7 in
  q ← Float.int_div num_fwd_out (time_interval_days self);
  let c := c_min * (q / num_fwd_target - 1) + 1 in
  mret (Float.min c (1 + c_max)).

(** Lines 146-163 of [new_fee_policy]: the weighted change. *)
Definition weighted_change
    (factor_demand factor_unbalancedness factor_flow total_forwarding
       : float) : float :=
  (* we want to give the demand the highest weight of the three
     indicators *)
  let wgt_demand := 1.3 in
  let wgt_ub := 1.0 in
  let wgt_flow := 0.6 in
  (* in the case where no forwarding was done, ignore the flow factor *)
  let wgt_flow := if Float.eq total_forwarding 0 then 0 else wgt_flow in
  (* calculate weighted change *)
  (wgt_ub * factor_unbalancedness
   + wgt_flow * factor_flow
   + wgt_demand * factor_demand)
  / (wgt_ub + wgt_flow + wgt_demand).

(** Lines 173-209 of [new_fee_policy]: the new fee rate. *)
Definition fee_rate_new (self : t)
    (fee_rate ub total_forwarding_out weighted_change : float) : float :=
  (* if we initialize the fee optimization, we want to start with
     reasonable starting values *)
  if init self then
    if Float.lt weighted_change 1 then min_fee_rate self
    else max_fee_rate self / 2
  else
    (* round down to 6 digits, as this is the expected data for the api *)
    let fee_rate_new := Float.round_6 (fee_rate * weighted_change) in
    (* if the fee rate is too low, cap it, as we don't want to
       necessarily have too low fees, limit also from top *)
    let fee_rate_new :=
      Float.min (Float.max (min_fee_rate self) fee_rate_new)
        (max_fee_rate self) in
    (* THRESHOLD MODES *)
    (* LOW UNBALANCEDNESS *)
    let fee_rate_new :=
      if Float.le fee_rate (min_fee_rate self)
         && Float.lt ub THRESHOLD_UB_OPEN
         && Float.eq total_forwarding_out 0
      then 0                                   (* Open mode. *)
      else if Float.eq fee_rate 0
              && Float.gt total_forwarding_out 0
              && Float.gt ub THRESHOLD_UB_OPEN
      then min_fee_rate self                   (* Leaving open mode. *)
      else fee_rate_new in
    (* HIGH UNBALANCEDNESS *)
    if Float.gt ub THRESHOLD_UB_CLOSE && Float.eq total_forwarding_out 0
    then FEE_LOCK_RATE                         (* Fee locked mode. *)
    else if Float.eq fee_rate FEE_LOCK_RATE
            && Float.lt ub THRESHOLD_UB_CLOSE
    then max_fee_rate self / 2                 (* Leaving fee locked mode. *)
    else fee_rate_new.

(** Lines 217-224 of [new_fee_policy]: the new base fee.  In
    [max(self.min_base_fee_msat, base_fee_msat_new)] the first argument
    is an [int] and the second a float: the float is returned, and then
    truncated, when it is strictly larger. *)
Definition base_fee_msat_new (self : t)
    (base_fee_msat : Z) (factor_base_fee : float) : result Z :=
  base_fee ← Float.of_int base_fee_msat;
  let base_fee_msat_new := base_fee * factor_base_fee in
  if init self then
    mret (if Float.lt factor_base_fee 1 then min_base_fee_msat self
          else max_base_fee_msat self)
  else if Float.gt_int base_fee_msat_new (min_base_fee_msat self)
  then Float.int base_fee_msat_new
  else mret (min_base_fee_msat self).

(** The body of the [for] loop of [new_fee_policy] (lines 107-245), for
    one item of [channels.items()]: the policy stored under
    [channel_data['channel_point']], and the debug line. *)
Definition new_fee_policy_channel (self : t)
    (channels_forwarding_stats : gmap Z Stats.t)
    (channel_id : Z) (channel_data : Channel.t)
    : result (Policy.t * StatsLine.t) :=
  let channel_stats := channels_forwarding_stats !! channel_id in
  let '(flow, fees_sat, total_forwarding_in, total_forwarding_out,
        total_forwarding, number_forwardings, number_forwardings_out) :=
    match channel_stats with
    | None => (0, 0, 0, 0, 0, 0%Z, 0%Z)
    | Some channel_stats =>
        let total_forwarding_in := Stats.total_forwarding_in channel_stats in
        let total_forwarding_out :=
          Stats.total_forwarding_out channel_stats in
        (Stats.flow_direction channel_stats,
         Float.of_Z (Stats.fees_total channel_stats) / 1000,
         total_forwarding_in,
         total_forwarding_out,
         total_forwarding_in + total_forwarding_out,
         Stats.number_forwardings channel_stats,
         Stats.number_forwardings_out channel_stats)
    end in
  let ub := Channel.unbalancedness channel_data in
  let capacity := Channel.capacity channel_data in
  match channel_fee_policies self !! Channel.channel_point channel_data with
  | None => Raise (KeyError (Channel.channel_point channel_data))
  | Some current =>
      let fee_rate := Policy.fee_rate current in
      let base_fee_msat := Policy.base_fee_msat current in
      (* FEE RATES *)
      factor_demand ← factor_demand_fee_rate self total_forwarding_out;
      let factor_unbalancedness := factor_unbalancedness ub in
      let factor_flow := factor_flow flow in
      let weighted_change :=
        weighted_change factor_demand factor_unbalancedness factor_flow
          total_forwarding in
      let fee_rate_new :=
        fee_rate_new self fee_rate ub total_forwarding_out weighted_change in
      (* BASE FEES *)
      factor_base_fee ← factor_demand_base_fee self number_forwardings_out;
      base_fee_msat_new ←
        base_fee_msat_new self base_fee_msat factor_base_fee;
      (* give parsable output *)
      let line := {|
        StatsLine.channel_id := channel_id;
        StatsLine.total_forwarding_in := total_forwarding_in;
        StatsLine.total_forwarding_out := total_forwarding_out;
        StatsLine.ub := ub;
        StatsLine.flow := flow;
        StatsLine.fees_sat := fees_sat;
        StatsLine.capacity := capacity;
        StatsLine.factor_demand := factor_demand;
        StatsLine.factor_unbalancedness := factor_unbalancedness;
        StatsLine.factor_flow := factor_flow;
        StatsLine.weighted_change := weighted_change;
        StatsLine.fee_rate := fee_rate;
        StatsLine.fee_rate_new := fee_rate_new;
        StatsLine.number_forwardings := number_forwardings;
        StatsLine.number_forwardings_out := number_forwardings_out;
        StatsLine.factor_base_fee := factor_base_fee;
        StatsLine.base_fee_msat := base_fee_msat;
        StatsLine.base_fee_msat_new := base_fee_msat_new
      |} in
      mret ({| Policy.base_fee_msat := base_fee_msat_new;
               Policy.fee_rate := fee_rate_new;
               Policy.cltv := cltv self |},
            line)
  end.

End FeeSetter.

(** ** The specification's formulas, over floats *)

Module Spec.

Local Open Scope float_scope.

(** Section 4.1: the statistics of a channel, every field being zero
    when the forwarding statistics have no entry for it. *)
Definition no_activity : Stats.t := {|
  Stats.flow_direction := 0;
  Stats.fees_total := 0;
  Stats.total_forwarding_in := 0;
  Stats.total_forwarding_out := 0;
  Stats.number_forwardings := 0;
  Stats.number_forwardings_out := 0
|}.

Definition ingest (channels_forwarding_stats : gmap Z Stats.t)
    (channel_id : Z) : Stats.t :=
  default no_activity (channels_forwarding_stats !! channel_id).

(** [n] is the whole number nearest to [q], the even one of the two when
    [q] lies half-way between them. *)
Definition nearest_even (q : Q) (n : Z) : Prop :=
  (Qabs (inject_Z n - q) <= 1 # 2)%Q
  /\ ((Qabs (inject_Z n - q) == 1 # 2)%Q -> Z.even n = true).

(** [n] millionths as a float with the sign bit [s]. *)
Definition millionths (s : bool) (n : Z) : float :=
  let r := Float.of_Z n / 1000000 in
  if s then - r else r.

(** Section 4.6, step 3: [r] is [x] rounded to 6 decimal places.  The
    number of millionths nearest to the exact value of [x] is taken,
    and [r] is that many millionths as a float, with the sign of [x]; a
    float of [2^53] millionths or more, like an infinity or a NaN, has
    no digit to round and is kept. *)
Definition rounded_6 (x r : float) : Prop :=
  if Float.is_finite x then
    exists n : Z,
      (0 <= n)%Z
      /\ nearest_even (Qabs (Float.to_Q x) * 1000000)%Q n
      /\ r = (if (n <? 2 ^ 53)%Z then millionths (Float.sign x) n else x)
  else r = x.

(** Section 4.6, step 3: clamp to [[lo, hi]]. *)
Definition clamp (lo hi x : float) : float :=
  if Float.le x lo then lo else if Float.lt hi x then hi else x.

(** Section 4.6, step 4: the conditions of the four mode rules. *)
Definition enter_open_mode (min_fee_rate fee_rate ub out : float) : bool :=
  Float.le fee_rate min_fee_rate
  && Float.lt ub THRESHOLD_UB_OPEN
  && Float.eq out 0.

Definition leave_open_mode (fee_rate ub out : float) : bool :=
  Float.eq fee_rate 0 && Float.lt 0 out && Float.lt THRESHOLD_UB_OPEN ub.

Definition enter_locked_mode (ub out : float) : bool :=
  Float.lt THRESHOLD_UB_CLOSE ub && Float.eq out 0.

Definition leave_locked_mode (fee_rate ub : float) : bool :=
  Float.eq fee_rate FEE_LOCK_RATE && Float.lt ub THRESHOLD_UB_CLOSE.

(** Section 4.7: a finite number rounded down to a whole number. *)
Definition round_down (x : float) : Z := Qfloor (Float.to_Q x).

End Spec.

(** ** A run where the rounding decides

    [set_fees] with its default arguments over two channels, seven days
    after the first run.  The exact product of the first channel,
    [0.000006 * 0.75], lies half-way between 4 and 5 millionths, and the
    exact product of the second, [100 * 1.15], is the whole number 115;
    the float products are [4.500000000000001e-06] and
    [114.99999999999999]. *)

Module Sample.

Local Open Scope float_scope.

Definition current1 : Policy.t := {|
  Policy.base_fee_msat := 100;
  Policy.fee_rate := 0.000006;
  Policy.cltv := 14
|}.

Definition current2 : Policy.t := {|
  Policy.base_fee_msat := 100;
  Policy.fee_rate := 0.000023;
  Policy.cltv := 14
|}.

Definition self : FeeSetter.t := {|
  FeeSetter.channel_fee_policies :=
    <["txid:0"%string := current1]> (<["txid:1"%string := current2]> ∅);
  FeeSetter.time_interval_days := 7;
  FeeSetter.min_base_fee_msat := 20;
  FeeSetter.max_base_fee_msat := 400;
  FeeSetter.min_fee_rate := 0.000004;
  FeeSetter.max_fee_rate := 0.000100;
  FeeSetter.init := false;
  FeeSetter.cltv := 14
|}.

(** A channel with most of its balance on the remote side and no
    forwarding in the seven days. *)
Definition channel1 : Channel.t := {|
  Channel.unbalancedness := -0.5;
  Channel.capacity := 1000000;
  Channel.channel_point := "txid:0"
|}.

Definition channel2 : Channel.t := {|
  Channel.unbalancedness := 0.15;
  Channel.capacity := 1000000;
  Channel.channel_point := "txid:1"
|}.

(** Eight forwardings out of the second channel in the seven days. *)
Definition stats2 : Stats.t := {|
  Stats.flow_direction := 0.6;
  Stats.fees_total := 3200;
  Stats.total_forwarding_in := 100000;
  Stats.total_forwarding_out := 400000;
  Stats.number_forwardings := 10;
  Stats.number_forwardings_out := 8
|}.

Definition channels_forwarding_stats : gmap Z Stats.t :=
  <[2%Z := stats2]> ∅.

(** What the body of the loop writes for the two channels. *)
Definition policy1 : Policy.t := {|
  Policy.base_fee_msat := 75;
  Policy.fee_rate := 0.000005;
  Policy.cltv := 14
|}.

Definition line1 : StatsLine.t := {|
  StatsLine.channel_id := 1;
  StatsLine.total_forwarding_in := 0;
  StatsLine.total_forwarding_out := 0;
  StatsLine.ub := -0.5;
  StatsLine.flow := 0;
  StatsLine.fees_sat := 0;
  StatsLine.capacity := 1000000;
  StatsLine.factor_demand := 0.75;
  StatsLine.factor_unbalancedness := 0.75;
  StatsLine.factor_flow := 1;
  StatsLine.weighted_change := 0.7500000000000001;
  StatsLine.fee_rate := 0.000006;
  StatsLine.fee_rate_new := 0.000005;
  StatsLine.number_forwardings := 0;
  StatsLine.number_forwardings_out := 0;
  StatsLine.factor_base_fee := 0.75;
  StatsLine.base_fee_msat := 100;
  StatsLine.base_fee_msat_new := 75
|}.

Definition policy2 : Policy.t := {|
  Policy.base_fee_msat := 114;
  Policy.fee_rate := 0.000025;
  Policy.cltv := 14
|}.

Definition line2 : StatsLine.t := {|
  StatsLine.channel_id := 2;
  StatsLine.total_forwarding_in := 100000;
  StatsLine.total_forwarding_out := 400000;
  StatsLine.ub := 0.15;
  StatsLine.flow := 0.6;
  StatsLine.fees_sat := 3.2;
  StatsLine.capacity := 1000000;
  StatsLine.factor_demand := 0.95;
  StatsLine.factor_unbalancedness := 1.075;
  StatsLine.factor_flow := 1.3;
  StatsLine.weighted_change := 1.0655172413793101;
  StatsLine.fee_rate := 0.000023;
  StatsLine.fee_rate_new := 0.000025;
  StatsLine.number_forwardings := 10;
  StatsLine.number_forwardings_out := 8;
  StatsLine.factor_base_fee := 1.15;
  StatsLine.base_fee_msat := 100;
  StatsLine.base_fee_msat_new := 114
|}.

End Sample.

(** ** A band narrower than half of its upper end

    The first run of [NarrowBand] above, over floats. *)

Module NarrowBand.

Local Open Scope float_scope.

Definition current : Policy.t :=
  {| Policy.base_fee_msat := 1000; Policy.fee_rate := 0.000050;
     Policy.cltv := 40 |}.

Definition self : FeeSetter.t := {|
  FeeSetter.channel_fee_policies := <["txid:0"%string := current]> ∅;
  FeeSetter.time_interval_days := 7;
  FeeSetter.min_base_fee_msat := 20;
  FeeSetter.max_base_fee_msat := 400;
  FeeSetter.min_fee_rate := 0.000080;
  FeeSetter.max_fee_rate := 0.000100;
  FeeSetter.init := true;
  FeeSetter.cltv := 14
|}.

Definition channel : Channel.t :=
  {| Channel.unbalancedness := 0.8; Channel.capacity := 1000000;
     Channel.channel_point := "txid:0" |}.

(** The policy the run writes for the channel. *)
Definition policy : Policy.t :=
  {| Policy.base_fee_msat := 20; Policy.fee_rate := 0.000050;
     Policy.cltv := 14 |}.

End NarrowBand.

End Binary64.
(** * Properties *)

Import FeeSetter.

(** ** The Python built-ins *)

Section Builtins.

Lemma Py_ltP (a b : Q) : reflect (a < b) (Py.lt a b).
Proof.
  unfold Py.lt. destruct (Qle_bool b a) eqn:E; constructor.
  - apply Qle_bool_iff in E. lra.
  - destruct (Qlt_le_dec a b) as [Hlt | Hle]; [exact Hlt |].
    apply Qle_bool_iff in Hle. congruence.
Qed.

Lemma Py_gtP (a b : Q) : reflect (b < a) (Py.gt a b).
Proof. apply Py_ltP. Qed.

Lemma Py_leP (a b : Q) : reflect (a <= b) (Py.le a b).
Proof.
  unfold Py.le. destruct (Qle_bool a b) eqn:E; constructor.
  - by apply Qle_bool_iff.
  - rewrite <- Qle_bool_iff. congruence.
Qed.

Lemma Py_eqP (a b : Q) : reflect (a == b) (Py.eq a b).
Proof.
  unfold Py.eq. destruct (Qeq_bool a b) eqn:E; constructor.
  - by apply Qeq_bool_iff.
  - by apply Qeq_bool_neq.
Qed.

(** [max] and [min] return one of their arguments, and it is the
    greatest (the least) of the two. *)
Lemma Py_max_case (a b : Q) :
  (Py.max a b = a /\ b <= a) \/ (Py.max a b = b /\ a < b).
Proof. unfold Py.max. destruct (Py_gtP b a); [right | left]; split; auto; lra. Qed.

Lemma Py_min_case (a b : Q) :
  (Py.min a b = a /\ a <= b) \/ (Py.min a b = b /\ b < a).
Proof. unfold Py.min. destruct (Py_ltP b a); [right | left]; split; auto; lra. Qed.

Lemma Py_max_Qmax (a b : Q) : Py.max a b == Qmax a b.
Proof.
  destruct (Py_max_case a b) as [[-> H] | [-> H]].
  - symmetry. by apply Q.max_l.
  - symmetry. apply Q.max_r. lra.
Qed.

Lemma Py_min_Qmin (a b : Q) : Py.min a b == Qmin a b.
Proof.
  destruct (Py_min_case a b) as [[-> H] | [-> H]].
  - symmetry. by apply Q.min_l.
  - symmetry. apply Q.min_r. lra.
Qed.

(** The clamp [min(max(lo, x), hi)] of the fee rate. *)
Lemma Py_clamp_range (lo hi x : Q) :
  lo <= hi -> lo <= Py.min (Py.max lo x) hi <= hi.
Proof.
  intros Hlh.
  destruct (Py_min_case (Py.max lo x) hi) as [[-> H] | [-> H]];
    destruct (Py_max_case lo x) as [[E H'] | [E H']]; rewrite ?E in *; lra.
Qed.

Lemma Py_div_nonzero (a b : Q) : ~ b == 0 -> Py.div a b = Ok (a / b).
Proof. intros H. unfold Py.div. by destruct (Py_eqP b 0). Qed.

Lemma Py_div_zero (a b : Q) : b == 0 -> Py.div a b = Raise ZeroDivisionError.
Proof. intros H. unfold Py.div. by destruct (Py_eqP b 0). Qed.

(** [int] is the identity on integers and the floor on the non-negative
    numbers. *)
Lemma Py_int_Z (z : Z) : Py.int (inject_Z z) = z.
Proof. unfold Py.int. simpl. apply Z.quot_1_r. Qed.

Lemma Py_int_floor (x : Q) : 0 <= x -> Py.int x = Qfloor x.
Proof.
  destruct x as [n d]. unfold Qle, Py.int, Qfloor. simpl. intros H.
  apply Z.quot_div_nonneg; lia.
Qed.

(** Rounding moves a number by at most one half. *)
Lemma Py_round_half_even_near (x : Q) :
  Qabs (inject_Z (Py.round_half_even x) - x) <= 1 # 2.
Proof.
  unfold Py.round_half_even.
  pose proof (Qfloor_le x) as Hlo. pose proof (Qlt_floor x) as Hhi.
  rewrite inject_Z_plus in Hhi.
  assert (inject_Z 1 == 1) as E1 by reflexivity. 
  destruct (Qcompare_spec (x - inject_Z (Qfloor x)) (1 # 2)) as [H | H | H].
  - destruct (Z.even (Qfloor x)); rewrite ?inject_Z_plus;
      apply Qabs_case; intros; lra.
  - apply Qabs_case; intros; lra.
  - rewrite inject_Z_plus. apply Qabs_case; intros; lra.
Qed.

Lemma Py_round_half_even_0 (x : Q) : x == 0 -> Py.round_half_even x = 0%Z.
Proof.
  intros H. unfold Py.round_half_even.
  assert (Qfloor x = 0%Z) as -> by (rewrite H; reflexivity).
  assert (Qcompare (x - inject_Z 0) (1 # 2) = Lt) as ->; [| reflexivity].
  rewrite <- Qlt_alt. change (inject_Z 0) with 0. lra.
Qed.

(** [round(x, 6)] is a whole number of millionths, at most half a
    millionth away from [x]. *)
Lemma Py_round_6_spec (x : Q) :
  (exists n : Z, Py.round x 6 == inject_Z n / 1000000)
  /\ Qabs (Py.round x 6 - x) <= 1 / 2000000.
Proof.
  split; [eexists; reflexivity |].
  unfold Py.round. change (inject_Z (10 ^ 6)) with 1000000.
  pose proof (Py_round_half_even_near (x * 1000000)) as H.
  revert H. generalize (inject_Z (Py.round_half_even (x * 1000000))).
  intros r H. apply Qabs_Qle_condition in H. apply Qabs_Qle_condition.
  unfold Qdiv. change (/ 1000000) with (1 # 1000000).
  change (/ 2000000) with (1 # 2000000). lra.
Qed.

Lemma Py_round_0 (x : Q) (ndigits : Z) : x == 0 -> Py.round x ndigits == 0.
Proof.
  intros H. unfold Py.round. rewrite Py_round_half_even_0.
  - unfold Qdiv. apply Qmult_0_l.
  - rewrite H. apply Qmult_0_l.
Qed.

End Builtins.

(** ** The change factors *)

Section Factors.

Lemma limited_change_range (x : Q) : 0.5 <= Spec.limited_change x <= 1.5.
Proof.
  unfold Spec.limited_change. cbv zeta.
  destruct (Qlt_le_dec 1 (1 + 0.5 * x)) as [H | H].
  - apply Q.min_case_strong; [intros ? ? -> | |]; intros; lra.
  - apply Q.max_case_strong; [intros ? ? -> | |]; intros; lra.
Qed.

Lemma factor_unbalancedness_limited (ub : Q) :
  factor_unbalancedness ub == Spec.limited_change ub.
Proof.
  unfold factor_unbalancedness, Spec.limited_change. cbv zeta.
  destruct (Py_gtP (1 + ub * 0.5) 1) as [H | H];
    destruct (Qlt_le_dec 1 (1 + 0.5 * ub)) as [H' | H']; try lra.
  - rewrite Py_min_Qmin. apply Q.min_compat; lra.
  - rewrite Py_max_Qmax. apply Q.max_compat; lra.
Qed.

Lemma factor_flow_unbalancedness (flow : Q) :
  factor_flow flow = factor_unbalancedness flow.
Proof. reflexivity. Qed.

(** C7. For every [ub] (in particular for every [ub] in [[-1, 1]]),
    [factor_unbalancedness(ub)] is [1 + 0.5 * ub] limited from above by
    1.5 when it is above 1 and from below by 0.5 otherwise, and so lies in
    [[0.5, 1.5]]; the same holds of [factor_flow]. *)
Theorem factor_unbalancedness_flow_range (x : Q) :
  (factor_unbalancedness x == Spec.limited_change x
   /\ 0.5 <= factor_unbalancedness x <= 1.5)
  /\ (factor_flow x == Spec.limited_change x
      /\ 0.5 <= factor_flow x <= 1.5).
Proof.
  pose proof (factor_unbalancedness_limited x) as E.
  pose proof (limited_change_range x) as R.
  rewrite <- E in R. change (factor_flow x) with (factor_unbalancedness x). auto.
Qed.

(** Division by the look-back window: the only division of the module
    whose divisor is not a non-zero constant. *)
Lemma div_time_interval_days (self : FeeSetter.t) (a : Q) :
  time_interval_days self <> 0%Z ->
  Py.div a (inject_Z (time_interval_days self))
  = Ok (a / inject_Z (time_interval_days self)).
Proof.
  intros H. apply Py_div_nonzero. unfold Qeq. simpl. lia.
Qed.

Lemma div_time_interval_days_0 (self : FeeSetter.t) (a : Q) :
  time_interval_days self = 0%Z ->
  Py.div a (inject_Z (time_interval_days self)) = Raise ZeroDivisionError.
Proof. intros ->. reflexivity. Qed.

Lemma Qdiv_nonneg (a : Q) (d : Z) : 0 <= a -> (0 < d)%Z -> 0 <= a / inject_Z d.
Proof.
  intros Ha Hd. apply Qle_shift_div_l.
  - unfold Qlt. simpl. lia.
  - lra.
Qed.

(** The demand factor of a non-negative rate. *)
Lemma demand_change_range (r target : Q) :
  0 < target -> 0 <= r ->
  0.75 <= Py.min (0.25 * (r / target - 1) + 1) (1 + 1.00) <= 2.0.
Proof.
  intros Ht Hr.
  assert (0 <= r / target) as Hq.
  { apply Qle_shift_div_l; lra. }
  revert Hq. generalize (r / target). intros q Hq.
  destruct (Py_min_case (0.25 * (q - 1) + 1) (1 + 1.00)) as [[-> H] | [-> H]];
    lra.
Qed.

Lemma factor_demand_fee_rate_Ok (self : FeeSetter.t) (amount_out : Q) :
  time_interval_days self <> 0%Z ->
  factor_demand_fee_rate self amount_out
  = Ok (Py.min
          (0.25 * (amount_out / inject_Z (time_interval_days self)
                   / (500000 / 7) - 1) + 1)
          (1 + 1.00)).
Proof.
  intros H. unfold factor_demand_fee_rate.
  by rewrite div_time_interval_days.
Qed.

Lemma factor_demand_base_fee_Ok (self : FeeSetter.t) (num_fwd_out : Z) :
  time_interval_days self <> 0%Z ->
  factor_demand_base_fee self num_fwd_out
  = Ok (Py.min
          (0.25 * (inject_Z num_fwd_out / inject_Z (time_interval_days self)
                   / (5 / 7) - 1) + 1)
          (1 + 1.00)).
Proof.
  intros H. unfold factor_demand_base_fee.
  by rewrite div_time_interval_days.
Qed.

(** C10. For every [amount_out >= 0] and [time_interval_days > 0],
    [factor_demand_fee_rate(amount_out)] returns a factor in
    [[0.75, 2.0]], and the lower end 0.75 is what it returns at
    [amount_out = 0]; likewise [factor_demand_base_fee(num_fwd_out)]
    returns a factor in [[0.75, 2.0]] for every [num_fwd_out >= 0]. *)
Theorem factor_demand_range (self : FeeSetter.t)
    (amount_out : Q) (num_fwd_out : Z) :
  (0 < time_interval_days self)%Z ->
  0 <= amount_out ->
  (0 <= num_fwd_out)%Z ->
  (exists c, factor_demand_fee_rate self amount_out = Ok c
             /\ 0.75 <= c <= 2.0)
  /\ (exists c, factor_demand_fee_rate self 0 = Ok c /\ c == 0.75)
  /\ (exists c, factor_demand_base_fee self num_fwd_out = Ok c
                /\ 0.75 <= c <= 2.0).
Proof.
  intros Hd Ha Hn. split; [| split].
  - eexists. split; [apply factor_demand_fee_rate_Ok; lia |].
    apply demand_change_range; [reflexivity |]. by apply Qdiv_nonneg.
  - eexists. split; [apply factor_demand_fee_rate_Ok; lia |].
    assert (0 / inject_Z (time_interval_days self) / (500000 / 7) == 0) as E.
    { unfold Qdiv. rewrite !Qmult_0_l. reflexivity. }
    destruct (Py_min_case
                (0.25 * (0 / inject_Z (time_interval_days self)
                         / (500000 / 7) - 1) + 1) (1 + 1.00))
      as [[-> H] | [-> H]]; rewrite E in *; lra.
  - eexists. split; [apply factor_demand_base_fee_Ok; lia |].
    apply demand_change_range; [reflexivity |]. apply Qdiv_nonneg; [| done].
    unfold Qle. simpl. lia.
Qed.

End Factors.

(** ** The weighted change *)

Section WeightedChange.

Variables factor_demand factor_ub factor_flow total_forwarding : Q.

Lemma weighted_change_activity :
  ~ total_forwarding == 0 ->
  weighted_change factor_demand factor_ub factor_flow total_forwarding
  = Spec.weighted_combination 1.0 0.6 1.3
      factor_ub factor_flow factor_demand.
Proof.
  intros H. unfold weighted_change. by destruct (Py_eqP total_forwarding 0).
Qed.

Lemma weighted_change_no_activity :
  total_forwarding == 0 ->
  weighted_change factor_demand factor_ub factor_flow total_forwarding
  = Spec.weighted_combination 1.0 0 1.3 factor_ub factor_flow factor_demand.
Proof.
  intros H. unfold weighted_change. by destruct (Py_eqP total_forwarding 0).
Qed.

(** With the flow weight at zero the flow factor drops out. *)
Lemma weighted_combination_no_flow :
  Spec.weighted_combination 1.0 0 1.3 factor_ub factor_flow factor_demand
  == (1.0 * factor_ub + 1.3 * factor_demand) / (1.0 + 1.3).
Proof. unfold Spec.weighted_combination. field. Qed.

End WeightedChange.

(** ** The new fee rate *)

Section FeeRate.

Variable self : FeeSetter.t.
Variables fee_rate ub total_forwarding_out weighted_change : Q.

(** The steady-state value before the mode rules: rounded, then clamped. *)
Let clamped : Q :=
  Py.min
    (Py.max (min_fee_rate self) (Py.round (fee_rate * weighted_change) 6))
    (max_fee_rate self).

Lemma fee_rate_new_init :
  init self = true ->
  fee_rate_new self fee_rate ub total_forwarding_out weighted_change
  = if Py.lt weighted_change 1 then min_fee_rate self
    else max_fee_rate self / 2.
Proof. intros H. unfold fee_rate_new. by rewrite H. Qed.

Lemma fee_rate_new_locked :
  init self = false ->
  THRESHOLD_UB_CLOSE < ub -> total_forwarding_out == 0 ->
  fee_rate_new self fee_rate ub total_forwarding_out weighted_change
  = FEE_LOCK_RATE.
Proof.
  intros Hi Hub Hout. unfold fee_rate_new. rewrite Hi.
  destruct (Py_gtP ub THRESHOLD_UB_CLOSE); [| done].
  destruct (Py_eqP total_forwarding_out 0); [| done].
  reflexivity.
Qed.

Lemma fee_rate_new_no_rule :
  init self = false ->
  ~ Spec.enter_open_mode (min_fee_rate self) fee_rate ub
      total_forwarding_out ->
  ~ Spec.leave_open_mode fee_rate ub total_forwarding_out ->
  ~ Spec.enter_locked_mode ub total_forwarding_out ->
  ~ Spec.leave_locked_mode fee_rate ub ->
  fee_rate_new self fee_rate ub total_forwarding_out weighted_change
  = clamped.
Proof.
  unfold Spec.enter_open_mode, Spec.leave_open_mode,
    Spec.enter_locked_mode, Spec.leave_locked_mode.
  intros Hi H1 H2 H3 H4. unfold fee_rate_new. rewrite Hi.
  destruct (Py_leP fee_rate (min_fee_rate self));
    destruct (Py_ltP ub THRESHOLD_UB_OPEN);
    destruct (Py_eqP total_forwarding_out 0);
    destruct (Py_eqP fee_rate 0);
    destruct (Py_gtP total_forwarding_out 0);
    destruct (Py_gtP ub THRESHOLD_UB_OPEN);
    destruct (Py_gtP ub THRESHOLD_UB_CLOSE);
    destruct (Py_eqP fee_rate FEE_LOCK_RATE);
    destruct (Py_ltP ub THRESHOLD_UB_CLOSE);
    simpl; try reflexivity; tauto.
Qed.

(** Every value the fee rate can take. *)
Lemma fee_rate_new_cases :
  let r := fee_rate_new self fee_rate ub total_forwarding_out
             weighted_change in
  r = clamped \/ r = min_fee_rate self \/ r = 0 \/ r = FEE_LOCK_RATE
  \/ r = max_fee_rate self / 2.
Proof.
  unfold fee_rate_new.
  repeat match goal with
         | |- context [if ?b then _ else _] => destruct b
         end; cbv zeta; tauto.
Qed.

End FeeRate.

(** ** The new base fee *)

Section BaseFee.

Variable self : FeeSetter.t.
Variable base_fee_msat : Z.
Variable factor_base_fee : Q.

Lemma base_fee_msat_new_init :
  init self = true ->
  base_fee_msat_new self base_fee_msat factor_base_fee
  = if Py.lt factor_base_fee 1 then min_base_fee_msat self
    else max_base_fee_msat self.
Proof. intros H. unfold base_fee_msat_new. by rewrite H. Qed.

(** [int(max(m, x))] is [max(m, floor(x))] for an integer [m >= 0]. *)
Lemma int_max_floor (m : Z) (x : Q) :
  (0 <= m)%Z -> Py.int (Py.max (inject_Z m) x) = Z.max m (Qfloor x).
Proof.
  intros Hm.
  destruct (Py_max_case (inject_Z m) x) as [[-> H] | [-> H]].
  - rewrite Py_int_Z. apply Qfloor_resp_le in H. rewrite Qfloor_Z in H. lia.
  - assert (inject_Z m <= x) as H' by lra.
    apply Qfloor_resp_le in H'. rewrite Qfloor_Z in H'.
    rewrite Py_int_floor; [lia |].
    assert (inject_Z 0 <= inject_Z m) by (rewrite <- Zle_Qle; lia).
    change (inject_Z 0) with 0 in *. lra.
Qed.

Lemma base_fee_msat_new_steady :
  init self = false ->
  (0 <= min_base_fee_msat self)%Z ->
  base_fee_msat_new self base_fee_msat factor_base_fee
  = Z.max (min_base_fee_msat self)
          (Qfloor (inject_Z base_fee_msat * factor_base_fee)).
Proof.
  intros Hi Hm. unfold base_fee_msat_new. rewrite Hi.
  by apply int_max_floor.
Qed.

End BaseFee.

(** ** One channel: the body of the loop *)

Section Channel.

Variable self : FeeSetter.t.
Variable channels_forwarding_stats : gmap Z Stats.t.
Variable channel_id : Z.
Variable channel_data : Channel.t.

(** The body returns exactly when the channel has a current policy and
    the look-back window is not zero. *)
Lemma new_fee_policy_channel_Ok (current : Policy.t) :
  time_interval_days self <> 0%Z ->
  channel_fee_policies self !! Channel.channel_point channel_data
  = Some current ->
  exists line,
    new_fee_policy_channel self channels_forwarding_stats
      channel_id channel_data
    = Ok (policy_of_line self line, line)
    /\ debug_line_of self channels_forwarding_stats channel_id channel_data
         current line.
Proof.
  intros Hd Hcur.
  unfold new_fee_policy_channel.
  rewrite Hcur.
  destruct (channels_forwarding_stats !! channel_id) as [s |] eqn:Hs; simpl;
    rewrite !factor_demand_fee_rate_Ok, !factor_demand_base_fee_Ok by done;
    simpl;
    match goal with
    | |- exists line, mret (_, ?l) = _ /\ _ => exists l
    end; (split; [reflexivity |]);
    constructor; unfold Spec.ingest; rewrite ?Hs; simpl;
    rewrite ?factor_demand_fee_rate_Ok, ?factor_demand_base_fee_Ok by done;
    reflexivity.
Qed.

Lemma new_fee_policy_channel_KeyError :
  channel_fee_policies self !! Channel.channel_point channel_data = None ->
  new_fee_policy_channel self channels_forwarding_stats
    channel_id channel_data
  = Raise (KeyError (Channel.channel_point channel_data)).
Proof.
  intros H. unfold new_fee_policy_channel. rewrite H.
  by destruct (channels_forwarding_stats !! channel_id).
Qed.

Lemma new_fee_policy_channel_ZeroDivisionError (current : Policy.t) :
  channel_fee_policies self !! Channel.channel_point channel_data
  = Some current ->
  time_interval_days self = 0%Z ->
  new_fee_policy_channel self channels_forwarding_stats
    channel_id channel_data
  = Raise ZeroDivisionError.
Proof.
  intros H Hd. unfold new_fee_policy_channel, factor_demand_fee_rate.
  rewrite H.
  destruct (channels_forwarding_stats !! channel_id); simpl;
    by rewrite div_time_interval_days_0.
Qed.

Lemma new_fee_policy_channel_inv (policy : Policy.t) (line : StatsLine.t) :
  new_fee_policy_channel self channels_forwarding_stats
    channel_id channel_data
  = Ok (policy, line) ->
  exists current,
    time_interval_days self <> 0%Z
    /\ channel_fee_policies self !! Channel.channel_point channel_data
       = Some current
    /\ policy = policy_of_line self line
    /\ debug_line_of self channels_forwarding_stats channel_id channel_data
         current line.
Proof.
  intros Hbody.
  destruct (channel_fee_policies self !! Channel.channel_point channel_data)
    as [current |] eqn:Hcur.
  - destruct (Z.eq_dec (time_interval_days self) 0%Z) as [Hd | Hd].
    + by rewrite (new_fee_policy_channel_ZeroDivisionError _ Hcur Hd)
        in Hbody.
    + destruct (new_fee_policy_channel_Ok current Hd Hcur)
        as (line' & E & L).
      rewrite E in Hbody. injection Hbody as <- <-. by exists current.
  - by rewrite (new_fee_policy_channel_KeyError Hcur) in Hbody.
Qed.

(** The inputs of the channel, as the theorems below name them. *)
Let s : Stats.t := Spec.ingest channels_forwarding_stats channel_id.
Let ub : Q := Channel.unbalancedness channel_data.
Let total_forwarding_out : Q := Stats.total_forwarding_out s.
Let total_forwarding : Q :=
  Stats.total_forwarding_in s + Stats.total_forwarding_out s.

(** C3. For every channel, the weighted change is
    [(wgt_ub*factor_ub + wgt_flow*factor_flow + wgt_demand*factor_demand)
     / (wgt_ub + wgt_flow + wgt_demand)] with [wgt_demand = 1.3],
    [wgt_ub = 1.0] and [wgt_flow = 0.6], except that [wgt_flow] is 0 in
    both the numerator and the denominator when [total_forwarding_in +
    total_forwarding_out] is zero, so that the flow factor has no
    influence on the result then. *)
Theorem weighted_change_formula (current : Policy.t) :
  time_interval_days self <> 0%Z ->
  channel_fee_policies self !! Channel.channel_point channel_data
  = Some current ->
  exists line,
    new_fee_policy_channel self channels_forwarding_stats
      channel_id channel_data
    = Ok (policy_of_line self line, line)
    /\ factor_demand_fee_rate self total_forwarding_out
       = Ok (StatsLine.factor_demand line)
    /\ StatsLine.factor_unbalancedness line = factor_unbalancedness ub
    /\ StatsLine.factor_flow line = factor_flow (Stats.flow_direction s)
    /\ (~ total_forwarding == 0 ->
        StatsLine.weighted_change line
        = Spec.weighted_combination 1.0 0.6 1.3
            (StatsLine.factor_unbalancedness line)
            (StatsLine.factor_flow line)
            (StatsLine.factor_demand line))
    /\ (total_forwarding == 0 ->
        StatsLine.weighted_change line
        = Spec.weighted_combination 1.0 0 1.3
            (StatsLine.factor_unbalancedness line)
            (StatsLine.factor_flow line)
            (StatsLine.factor_demand line)
        /\ StatsLine.weighted_change line
           == (1.0 * StatsLine.factor_unbalancedness line
               + 1.3 * StatsLine.factor_demand line) / (1.0 + 1.3)).
Proof.
  intros Hd Hcur.
  destruct (new_fee_policy_channel_Ok current Hd Hcur) as (line & E & L).
  exists line. split; [exact E |].
  split; [exact (line_factor_demand L) |].
  split; [exact (line_factor_unbalancedness L) |].
  split; [exact (line_factor_flow L) |].
  rewrite (line_weighted_change L). split; intros H.
  - by apply weighted_change_activity.
  - rewrite weighted_change_no_activity by exact H.
    split; [reflexivity | apply weighted_combination_no_flow].
Qed.

(** C4. In a run with [init = false], for every channel with
    [ub > 0.95] and [total_forwarding_out == 0], the new fee rate is
    [FEE_LOCK_RATE = 0.025], whatever the current fee rate is and whether
    or not an open-mode rule fired before. *)
Theorem fee_locked_mode (current : Policy.t) :
  init self = false ->
  time_interval_days self <> 0%Z ->
  channel_fee_policies self !! Channel.channel_point channel_data
  = Some current ->
  0.95 < ub ->
  total_forwarding_out == 0 ->
  exists policy line,
    new_fee_policy_channel self channels_forwarding_stats
      channel_id channel_data
    = Ok (policy, line)
    /\ Policy.fee_rate policy = FEE_LOCK_RATE
    /\ FEE_LOCK_RATE == 0.025.
Proof.
  intros Hi Hd Hcur Hub Hout.
  destruct (new_fee_policy_channel_Ok current Hd Hcur) as (line & E & L).
  exists (policy_of_line self line), line. split; [exact E |].
  pose proof (line_fee_rate_new L) as Hnew.
  simpl. rewrite Hnew. split; [| reflexivity].
  by apply fee_rate_new_locked.
Qed.

(** C8. In a run with [init = false], for every channel whose current
    fee rate is 0 (open mode), with [total_forwarding_out == 0], [ub] in
    [[-0.5, 0.95]] and [0 < min_fee_rate <= max_fee_rate], the new fee
    rate is [min_fee_rate]: the rounded product is 0, the lower clamp
    lifts it to [min_fee_rate], and no mode rule fires. *)
Theorem open_mode_left_without_forwarding (current : Policy.t) :
  init self = false ->
  time_interval_days self <> 0%Z ->
  channel_fee_policies self !! Channel.channel_point channel_data
  = Some current ->
  Policy.fee_rate current == 0 ->
  total_forwarding_out == 0 ->
  -0.5 <= ub <= 0.95 ->
  0 < min_fee_rate self <= max_fee_rate self ->
  exists policy line,
    new_fee_policy_channel self channels_forwarding_stats
      channel_id channel_data
    = Ok (policy, line)
    /\ Policy.fee_rate policy = min_fee_rate self
    /\ Py.round
         (Policy.fee_rate current * StatsLine.weighted_change line) 6 == 0
    /\ ~ Spec.enter_open_mode (min_fee_rate self) (Policy.fee_rate current)
           ub total_forwarding_out
    /\ ~ Spec.leave_open_mode (Policy.fee_rate current) ub
           total_forwarding_out
    /\ ~ Spec.enter_locked_mode ub total_forwarding_out
    /\ ~ Spec.leave_locked_mode (Policy.fee_rate current) ub.
Proof.
  intros Hi Hd Hcur Hfee Hout Hub Hmin.
  destruct (new_fee_policy_channel_Ok current Hd Hcur) as (line & E & L).
  exists (policy_of_line self line), line. split; [exact E |].
  pose proof (line_fee_rate_new L) as Hnew.
  assert (Py.round
            (Policy.fee_rate current * StatsLine.weighted_change line) 6
          == 0) as Hround.
  { apply Py_round_0. rewrite Hfee. apply Qmult_0_l. }
  assert (~ Spec.enter_open_mode (min_fee_rate self)
              (Policy.fee_rate current) ub total_forwarding_out) as H1.
  { unfold Spec.enter_open_mode, THRESHOLD_UB_OPEN. lra. }
  assert (~ Spec.leave_open_mode (Policy.fee_rate current) ub
              total_forwarding_out) as H2.
  { unfold Spec.leave_open_mode. lra. }
  assert (~ Spec.enter_locked_mode ub total_forwarding_out) as H3.
  { unfold Spec.enter_locked_mode, THRESHOLD_UB_CLOSE. lra. }
  assert (~ Spec.leave_locked_mode (Policy.fee_rate current) ub) as H4.
  { unfold Spec.leave_locked_mode, FEE_LOCK_RATE. lra. }
  repeat (split; [| try assumption]); try assumption.
  simpl. rewrite Hnew, fee_rate_new_no_rule by assumption.
  destruct (Py_max_case (min_fee_rate self)
              (Py.round
                 (Policy.fee_rate current
                  * StatsLine.weighted_change line) 6))
    as [[-> H] | [-> H]]; [| lra].
  destruct (Py_min_case (min_fee_rate self) (max_fee_rate self))
    as [[-> H'] | [-> H']]; [reflexivity | lra].
Qed.

End Channel.

(** ** The loop over the channels *)

Section Loop.

Variable self : FeeSetter.t.
Variable channels_forwarding_stats : gmap Z Stats.t.

Local Abbreviation body := (new_fee_policy_channel self channels_forwarding_stats).
Local Abbreviation loop := (new_fee_policy_loop self channels_forwarding_stats).

(** One turn of the loop. *)
Lemma loop_cons_Ok channel_id channel_data items acc log policy line :
  body channel_id channel_data = Ok (policy, line) ->
  loop ((channel_id, channel_data) :: items) acc log
  = loop items (<[Channel.channel_point channel_data := policy]> acc)
      (log ++ [line]).
Proof. intros H. simpl. by rewrite H. Qed.

Lemma loop_cons_inv channel_id channel_data items acc log out log' :
  loop ((channel_id, channel_data) :: items) acc log = Ok (out, log') ->
  exists policy line,
    body channel_id channel_data = Ok (policy, line)
    /\ loop items (<[Channel.channel_point channel_data := policy]> acc)
         (log ++ [line])
       = Ok (out, log').
Proof.
  simpl. destruct (body channel_id channel_data) as [[policy line] | e];
    simpl; [| done].
  intros H. by exists policy, line.
Qed.

(** The loop returns when every channel has a current policy and the
    look-back window is not zero. *)
Lemma loop_Ok items acc log :
  time_interval_days self <> 0%Z ->
  (forall channel_id channel_data,
      (channel_id, channel_data) ∈ items ->
      is_Some (channel_fee_policies self
                 !! Channel.channel_point channel_data)) ->
  exists out log', loop items acc log = Ok (out, log').
Proof.
  intros Hd. revert acc log.
  induction items as [| [channel_id channel_data] items IH];
    intros acc log Hin.
  - by exists acc, log.
  - destruct (Hin channel_id channel_data) as [current Hcur];
      [apply list_elem_of_here |].
    destruct (new_fee_policy_channel_Ok self channels_forwarding_stats
                channel_id channel_data current Hd Hcur)
      as (line & E & _).
    erewrite loop_cons_Ok by exact E.
    apply IH. intros i c Hic. apply (Hin i c). by apply list_elem_of_further.
Qed.

(** The keys of the returned dictionary. *)
Lemma loop_dom items acc log out log' :
  loop items acc log = Ok (out, log') ->
  dom out = dom acc ∪ list_to_set (channel_points items).
Proof.
  revert acc log.
  induction items as [| [channel_id channel_data] items IH];
    intros acc log H.
  - simpl in H. injection H as <- <-. simpl. by rewrite (right_id_L ∅ (∪)).
  - apply loop_cons_inv in H as (policy & line & _ & H).
    apply IH in H. rewrite H, dom_insert_L. simpl.
    by rewrite (comm_L (∪) {[_]} (dom acc)), <- (assoc_L (∪)).
Qed.

(** A key that no remaining channel writes keeps its entry. *)
Lemma loop_lookup_other items acc log out log' (cp : string) :
  loop items acc log = Ok (out, log') ->
  cp ∉ channel_points items ->
  out !! cp = acc !! cp.
Proof.
  revert acc log.
  induction items as [| [channel_id channel_data] items IH];
    intros acc log H Hcp.
  - simpl in H. by injection H as <- <-.
  - apply loop_cons_inv in H as (policy & line & _ & H).
    apply not_elem_of_cons in Hcp as [Hne Hcp].
    rewrite (IH _ _ H Hcp). by apply lookup_insert_ne.
Qed.

(** Every entry of the returned dictionary was there before, or is the
    policy the body computes for one of the channels. *)
Lemma loop_lookup_inv items acc log out log' (cp : string) policy :
  loop items acc log = Ok (out, log') ->
  out !! cp = Some policy ->
  acc !! cp = Some policy
  \/ exists channel_id channel_data line,
       (channel_id, channel_data) ∈ items
       /\ Channel.channel_point channel_data = cp
       /\ body channel_id channel_data = Ok (policy, line).
Proof.
  revert acc log.
  induction items as [| [channel_id channel_data] items IH];
    intros acc log H Hout.
  - simpl in H. injection H as <- <-. by left.
  - apply loop_cons_inv in H as (policy' & line & E & H).
    destruct (IH _ _ H Hout) as [Hacc | (i & c & l & Hin & Hcp & Hb)].
    + rewrite lookup_insert in Hacc. case_decide as Heq.
      * injection Hacc as ->. right.
        exists channel_id, channel_data, line.
        split; [apply list_elem_of_here | done].
      * by left.
    + right. exists i, c, l. split; [by apply list_elem_of_further | done].
Qed.

(** With distinct channel points, every channel finds the policy the
    body computes for it under its channel point. *)
Lemma loop_lookup_channel items acc log out log' channel_id channel_data :
  NoDup (channel_points items) ->
  loop items acc log = Ok (out, log') ->
  (channel_id, channel_data) ∈ items ->
  exists policy line,
    body channel_id channel_data = Ok (policy, line)
    /\ out !! Channel.channel_point channel_data = Some policy.
Proof.
  revert acc log.
  induction items as [| [i c] items IH]; intros acc log Hnd H Hin.
  - by apply elem_of_nil in Hin.
  - apply NoDup_cons in Hnd as [Hfresh Hnd]. simpl in Hfresh.
    apply loop_cons_inv in H as (policy & line & E & H).
    apply elem_of_cons in Hin as [Heq | Hin].
    + injection Heq as -> ->. exists policy, line. split; [done |].
      rewrite (loop_lookup_other _ _ _ _ _ _ H Hfresh).
      apply lookup_insert_eq.
    + by apply (IH _ _ Hnd H).
Qed.

End Loop.

(** ** The whole run *)

Section Run.

Variable self : FeeSetter.t.

(** The values the new fee rate of a channel can take, band or not. *)
Lemma fee_rate_new_band (fee_rate ub total_forwarding_out wc : Q) :
  min_fee_rate self <= max_fee_rate self ->
  let r := fee_rate_new self fee_rate ub total_forwarding_out wc in
  Spec.band_or_mode_value self r \/ r == max_fee_rate self / 2.
Proof.
  intros Hband r. unfold Spec.band_or_mode_value.
  destruct (fee_rate_new_cases self fee_rate ub total_forwarding_out wc)
    as [H | [H | [H | [H | H]]]]; fold r in H; rewrite H.
  - left. left. by apply Py_clamp_range.
  - left. left. lra.
  - left. right. left. reflexivity.
  - left. right. right. reflexivity.
  - right. reflexivity.
Qed.

(** What the code writes: for every channel processed in one run with
    [min_fee_rate <= max_fee_rate], the fee rate written to the output
    policy map lies in [[min_fee_rate, max_fee_rate]], or is exactly 0
    (open mode), exactly [FEE_LOCK_RATE] (locked mode) or exactly
    [max_fee_rate / 2] (first run with a weighted change of at least 1,
    or leaving the locked mode).  The third value is assigned without a
    clamp and can lie below [min_fee_rate]. *)
Theorem fee_rate_band_or_three_values
    (channels : list (Z * Channel.t))
    (channels_forwarding_stats : gmap Z Stats.t)
    (out : gmap string Policy.t) (log : list StatsLine.t)
    (channel_point : string) (policy : Policy.t) :
  min_fee_rate self <= max_fee_rate self ->
  new_fee_policy self channels channels_forwarding_stats = Ok (out, log) ->
  out !! channel_point = Some policy ->
  Spec.band_or_mode_value self (Policy.fee_rate policy)
  \/ Policy.fee_rate policy == max_fee_rate self / 2.
Proof.
  intros Hband Hrun Hout.
  destruct (loop_lookup_inv _ _ _ _ _ _ _ _ _ Hrun Hout)
    as [Hacc | (i & c & line & Hin & Hcp & Hbody)].
  - by rewrite lookup_empty in Hacc.
  - apply new_fee_policy_channel_inv in Hbody
      as (current & _ & _ & -> & L).
    pose proof (line_fee_rate_new L) as Hnew.
    simpl. rewrite Hnew. by apply fee_rate_new_band.
Qed.

(** When half of [max_fee_rate] is itself in the band, as with the
    default arguments of [set_fees], 0 and [FEE_LOCK_RATE] are the only
    values outside the band. *)
Corollary fee_rate_band_or_mode_value_wide_band
    (channels : list (Z * Channel.t))
    (channels_forwarding_stats : gmap Z Stats.t)
    (out : gmap string Policy.t) (log : list StatsLine.t)
    (channel_point : string) (policy : Policy.t) :
  min_fee_rate self <= max_fee_rate self / 2 ->
  0 <= max_fee_rate self ->
  new_fee_policy self channels channels_forwarding_stats = Ok (out, log) ->
  out !! channel_point = Some policy ->
  Spec.band_or_mode_value self (Policy.fee_rate policy).
Proof.
  intros Hhalf Hmax Hrun Hout.
  assert (max_fee_rate self / 2 <= max_fee_rate self) as Hle.
  { unfold Qdiv. change (/ 2) with (1 # 2). lra. }
  destruct (loop_lookup_inv _ _ _ _ _ _ _ _ _ Hrun Hout)
    as [Hacc | (i & c & line & Hin & Hcp & Hbody)].
  - by rewrite lookup_empty in Hacc.
  - apply new_fee_policy_channel_inv in Hbody
      as (current & _ & _ & -> & L).
    pose proof (line_fee_rate_new L) as Hnew.
    simpl. rewrite Hnew.
    match goal with
    | |- Spec.band_or_mode_value _ ?r =>
        destruct (fee_rate_new_band (Policy.fee_rate current)
                    (Channel.unbalancedness c)
                    (Stats.total_forwarding_out
                       (Spec.ingest channels_forwarding_stats i))
                    (StatsLine.weighted_change line)) as [H | H];
        [lra | exact H |]
    end.
    left. rewrite H. lra.
Qed.

(** C6. For every channel snapshot in which the channel points are
    distinct and present in the current-policy map, the output policy
    map has exactly one entry per input channel, under its channel
    point: none is dropped, none is duplicated, and every entry carries
    the configured [cltv].  The run returns such a map whenever the
    look-back window is not zero. *)
Theorem one_entry_per_channel
    (channels : list (Z * Channel.t))
    (channels_forwarding_stats : gmap Z Stats.t) :
  NoDup (channel_points channels) ->
  (forall channel_id channel_data,
      (channel_id, channel_data) ∈ channels ->
      is_Some (channel_fee_policies self
                 !! Channel.channel_point channel_data)) ->
  (forall out log,
      new_fee_policy self channels channels_forwarding_stats
      = Ok (out, log) ->
      dom out = list_to_set (channel_points channels)
      /\ size out = length channels
      /\ (forall channel_id channel_data,
             (channel_id, channel_data) ∈ channels ->
             exists policy line,
               new_fee_policy_channel self channels_forwarding_stats
                 channel_id channel_data = Ok (policy, line)
               /\ out !! Channel.channel_point channel_data = Some policy)
      /\ (forall channel_point policy,
             out !! channel_point = Some policy ->
             Policy.cltv policy = cltv self))
  /\ (time_interval_days self <> 0%Z ->
      exists out log,
        new_fee_policy self channels channels_forwarding_stats
        = Ok (out, log)).
Proof.
  intros Hnd Hin. split.
  - intros out log Hrun.
    assert (dom out = list_to_set (channel_points channels)) as Hdom.
    { rewrite (loop_dom _ _ _ _ _ _ _ Hrun), dom_empty_L.
      by rewrite (left_id_L ∅ (∪)). }
    split; [exact Hdom |]. split; [| split].
    + rewrite <- size_dom, Hdom, size_list_to_set by exact Hnd.
      unfold channel_points. by rewrite length_fmap.
    + intros i c Hic. by apply (loop_lookup_channel _ _ _ _ _ _ _ i c Hnd Hrun).
    + intros cp policy Hout.
      destruct (loop_lookup_inv _ _ _ _ _ _ _ _ _ Hrun Hout)
        as [Hacc | (i & c & line & Hic & Hcp & Hbody)].
      * by rewrite lookup_empty in Hacc.
      * by apply new_fee_policy_channel_inv in Hbody as (_ & _ & _ & -> & _).
  - intros Hd. by apply loop_Ok.
Qed.

End Run.

(** ** Independence of the logged fields *)

Section NonInterference.

Variable self : FeeSetter.t.
Variables stats1 stats2 : gmap Z Stats.t.
Hypothesis stats_agree : forwarding_stats_agree stats1 stats2.

Lemma new_fee_policy_channel_agree (channel_id : Z) (c1 c2 : Channel.t) :
  channel_data_agree c1 c2 ->
  fst <$> new_fee_policy_channel self stats1 channel_id c1
  = fst <$> new_fee_policy_channel self stats2 channel_id c2.
Proof.
  intros [Hub Hcp]. unfold new_fee_policy_channel.
  rewrite <- Hub, <- Hcp.
  destruct (channel_fee_policies self !! Channel.channel_point c1)
    as [current |].
  - destruct (stats_agree channel_id) as [s1 s2 (Hf & Hi & Ho & Hn) |];
      [rewrite <- Hf, <- Hi, <- Ho, <- Hn |].
    + destruct (factor_demand_fee_rate self (Stats.total_forwarding_out s1));
        [| reflexivity].
      destruct
        (factor_demand_base_fee self (Stats.number_forwardings_out s1));
        reflexivity.
    + destruct (factor_demand_fee_rate self 0); [| reflexivity].
      destruct (factor_demand_base_fee self 0); reflexivity.
  - by destruct (stats_agree channel_id).
Qed.

Lemma new_fee_policy_loop_agree (items1 items2 : list (Z * Channel.t))
    (acc : gmap string Policy.t) (log1 log2 : list StatsLine.t) :
  channels_agree items1 items2 ->
  fst <$> new_fee_policy_loop self stats1 items1 acc log1
  = fst <$> new_fee_policy_loop self stats2 items2 acc log2.
Proof.
  intros H. revert acc log1 log2.
  induction H as [| [i1 c1] [i2 c2] items1 items2 [Hid Hc] _ IH];
    intros acc log1 log2; [reflexivity |].
  simpl in Hid, Hc. subst i2.
  pose proof (new_fee_policy_channel_agree i1 c1 c2 Hc) as Hbody.
  destruct Hc as [_ Hcp]. simpl. rewrite <- Hcp.
  destruct (new_fee_policy_channel self stats1 i1 c1) as [[p1 l1] | e1];
    destruct (new_fee_policy_channel self stats2 i1 c2) as [[p2 l2] | e2];
    simpl in Hbody; try discriminate; simpl.
  - injection Hbody as ->. apply IH.
  - by injection Hbody as ->.
Qed.

(** C9. The output policy map does not depend on the [capacity] of the
    channels, nor on the [fees_total] and [number_forwardings] of their
    statistics: two inputs that differ only in these fields give the
    same policy map (or raise the same exception). *)
Theorem policies_independent_of_logged_fields
    (channels1 channels2 : list (Z * Channel.t)) :
  channels_agree channels1 channels2 ->
  fst <$> new_fee_policy self channels1 stats1
  = fst <$> new_fee_policy self channels2 stats2.
Proof.
  intros Hchannels. unfold new_fee_policy.
  by apply new_fee_policy_loop_agree.
Qed.

End NonInterference.

(** ** Concrete runs *)


(** C1.  The code breaks the band.  With [min_fee_rate = 0.00008] and
    [max_fee_rate = 0.0001] a first run over an overfunded channel, and a
    later run over a channel leaving the locked mode, both write the fee
    rate [max_fee_rate / 2 = 0.00005], which is below [min_fee_rate] and
    is neither 0 nor [FEE_LOCK_RATE]: lines 177 and 209 assign
    [self.max_fee_rate / 2] without the clamp of line 185, although
    [set_fees] documents [min_fee_rate] as "the fee rate will be not set
    lower than this amount". *)
Lemma narrow_band_fee_rate_outside :
  min_fee_rate NarrowBand.self <= max_fee_rate NarrowBand.self
  /\ fst <$> new_fee_policy NarrowBand.self NarrowBand.channels
               NarrowBand.channels_forwarding_stats
     = Ok (<["txid:0"%string := NarrowBand.policy]> ∅)
  /\ ~ Spec.band_or_mode_value NarrowBand.self
         (Policy.fee_rate NarrowBand.policy)
  /\ min_fee_rate NarrowBand.self' <= max_fee_rate NarrowBand.self'
  /\ fst <$> new_fee_policy NarrowBand.self' [(1%Z, NarrowBand.channel')] ∅
     = Ok (<["txid:0"%string := NarrowBand.policy']> ∅)
  /\ ~ Spec.band_or_mode_value NarrowBand.self'
         (Policy.fee_rate NarrowBand.policy').
Proof.
  assert (forall self,
             min_fee_rate self = 0.000080 -> max_fee_rate self = 0.000100 ->
             ~ Spec.band_or_mode_value self
                 (Policy.fee_rate NarrowBand.policy)) as Hout.
  { intros self Hmin Hmax. unfold Spec.band_or_mode_value.
    rewrite Hmin, Hmax. unfold FEE_LOCK_RATE. simpl.
    intros [[H _] | [H | H]]; revert H; vm_compute; congruence. }
  split; [vm_compute; congruence |].
  split; [vm_compute; reflexivity |].
  split; [by apply Hout |].
  split; [vm_compute; congruence |].
  split; [vm_compute; reflexivity | by apply Hout].
Qed.

(** ** The theorems at the sample run *)

Local Ltac compute_Q := vm_compute; first [reflexivity | discriminate].

Lemma factor_demand_range_sample :
  ((0 < time_interval_days Sample.self)%Z /\ 0 <= 200000 /\ (0 <= 3)%Z)
  /\ (exists c, factor_demand_fee_rate Sample.self 200000 = Ok c
                /\ 0.75 <= c <= 2.0)
  /\ (exists c, factor_demand_fee_rate Sample.self 0 = Ok c /\ c == 0.75)
  /\ (exists c, factor_demand_base_fee Sample.self 3 = Ok c
                /\ 0.75 <= c <= 2.0).
Proof.
  split; [repeat split; compute_Q |].
  apply (factor_demand_range Sample.self 200000 3); compute_Q.
Defined.

Lemma weighted_change_formula_sample :
  (time_interval_days Sample.self <> 0%Z
   /\ channel_fee_policies Sample.self !! Channel.channel_point Sample.channel1
      = Some Sample.current1)
  /\ exists line,
       new_fee_policy_channel Sample.self Sample.channels_forwarding_stats
         1 Sample.channel1
       = Ok (policy_of_line Sample.self line, line)
       /\ StatsLine.weighted_change line
          = Spec.weighted_combination 1.0 0.6 1.3
              (StatsLine.factor_unbalancedness line)
              (StatsLine.factor_flow line)
              (StatsLine.factor_demand line).
Proof.
  assert (time_interval_days Sample.self <> 0%Z) as Hd by compute_Q.
  assert (channel_fee_policies Sample.self
            !! Channel.channel_point Sample.channel1
          = Some Sample.current1) as Hcur by reflexivity.
  split; [by split |].
  destruct (weighted_change_formula Sample.self
              Sample.channels_forwarding_stats 1 Sample.channel1
              Sample.current1 Hd Hcur)
    as (line & E & _ & _ & _ & Hact & _).
  exists line. split; [exact E |]. apply Hact. compute_Q.
Defined.

Lemma fee_locked_mode_sample :
  (init Sample.self = false
   /\ time_interval_days Sample.self <> 0%Z
   /\ channel_fee_policies Sample.self !! Channel.channel_point Sample.channel3
      = Some Sample.current3
   /\ 0.95 < Channel.unbalancedness Sample.channel3
   /\ Stats.total_forwarding_out
        (Spec.ingest Sample.channels_forwarding_stats 3) == 0)
  /\ exists policy line,
       new_fee_policy_channel Sample.self Sample.channels_forwarding_stats
         3 Sample.channel3
       = Ok (policy, line)
       /\ Policy.fee_rate policy = FEE_LOCK_RATE
       /\ FEE_LOCK_RATE == 0.025.
Proof.
  split; [repeat split; compute_Q |].
  apply (fee_locked_mode Sample.self Sample.channels_forwarding_stats
           3 Sample.channel3 Sample.current3); compute_Q.
Defined.

Lemma open_mode_left_without_forwarding_sample :
  (init Sample.self = false
   /\ time_interval_days Sample.self <> 0%Z
   /\ channel_fee_policies Sample.self !! Channel.channel_point Sample.channel2
      = Some Sample.current2
   /\ Policy.fee_rate Sample.current2 == 0
   /\ Stats.total_forwarding_out
        (Spec.ingest Sample.channels_forwarding_stats 2) == 0
   /\ -0.5 <= Channel.unbalancedness Sample.channel2 <= 0.95
   /\ 0 < min_fee_rate Sample.self <= max_fee_rate Sample.self)
  /\ exists policy line,
       new_fee_policy_channel Sample.self Sample.channels_forwarding_stats
         2 Sample.channel2
       = Ok (policy, line)
       /\ Policy.fee_rate policy = min_fee_rate Sample.self.
Proof.
  split; [repeat split; compute_Q |].
  destruct (open_mode_left_without_forwarding Sample.self
              Sample.channels_forwarding_stats 2 Sample.channel2
              Sample.current2)
    as (policy & line & E & H & _);
    [compute_Q | compute_Q | compute_Q | compute_Q | compute_Q
    | split; compute_Q | split; compute_Q |].
  by exists policy, line.
Defined.

Lemma fee_rate_band_or_three_values_sample :
  (min_fee_rate Sample.self <= max_fee_rate Sample.self
   /\ new_fee_policy Sample.self Sample.channels
        Sample.channels_forwarding_stats
      = Ok (Sample.run.1, Sample.run.2)
   /\ Sample.run.1 !! "txid:2"%string
      = Some {| Policy.base_fee_msat := 75; Policy.fee_rate := FEE_LOCK_RATE;
                Policy.cltv := 14 |})
  /\ (Spec.band_or_mode_value Sample.self FEE_LOCK_RATE
      \/ FEE_LOCK_RATE == max_fee_rate Sample.self / 2).
Proof.
  split; [repeat split; compute_Q |].
  apply (fee_rate_band_or_three_values Sample.self Sample.channels
           Sample.channels_forwarding_stats Sample.run.1 Sample.run.2
           "txid:2"%string
           {| Policy.base_fee_msat := 75; Policy.fee_rate := FEE_LOCK_RATE;
              Policy.cltv := 14 |}); compute_Q.
Defined.

Lemma one_entry_per_channel_sample :
  NoDup (channel_points Sample.channels)
  /\ (forall channel_id channel_data,
         (channel_id, channel_data) ∈ Sample.channels ->
         is_Some (channel_fee_policies Sample.self
                    !! Channel.channel_point channel_data))
  /\ dom Sample.run.1 = list_to_set (channel_points Sample.channels)
  /\ size Sample.run.1 = length Sample.channels
  /\ (forall channel_point policy,
         Sample.run.1 !! channel_point = Some policy ->
         Policy.cltv policy = cltv Sample.self)
  /\ exists out log,
       new_fee_policy Sample.self Sample.channels
         Sample.channels_forwarding_stats
       = Ok (out, log).
Proof.
  assert (NoDup (channel_points Sample.channels)) as Hnd.
  { apply (bool_decide_unpack (NoDup (channel_points Sample.channels))).
    vm_compute. exact I. }
  assert (forall channel_id channel_data,
             (channel_id, channel_data) ∈ Sample.channels ->
             is_Some (channel_fee_policies Sample.self
                        !! Channel.channel_point channel_data)) as Hin.
  { intros i c. unfold Sample.channels.
    rewrite !elem_of_cons, elem_of_nil.
    intros [H | [H | [H | []]]]; injection H as -> ->; eexists;
      vm_compute; reflexivity. }
  destruct (one_entry_per_channel Sample.self Sample.channels
              Sample.channels_forwarding_stats Hnd Hin) as [Hout Hrun].
  destruct (Hout Sample.run.1 Sample.run.2) as (Hdom & Hsize & _ & Hcltv);
    [compute_Q |].
  repeat split; try assumption. apply Hrun. compute_Q.
Defined.

Lemma policies_independent_of_logged_fields_sample :
  (forwarding_stats_agree Sample.channels_forwarding_stats
     Sample.channels_forwarding_stats'
   /\ channels_agree Sample.channels Sample.channels')
  /\ fst <$> new_fee_policy Sample.self Sample.channels
               Sample.channels_forwarding_stats
     = fst <$> new_fee_policy Sample.self Sample.channels'
                 Sample.channels_forwarding_stats'.
Proof.
  assert (forwarding_stats_agree Sample.channels_forwarding_stats
            Sample.channels_forwarding_stats') as Hs.
  { intros i. unfold Sample.channels_forwarding_stats,
      Sample.channels_forwarding_stats'.
    destruct (decide (1%Z = i)) as [<- | Hne].
    - rewrite !lookup_insert_eq. constructor. by repeat split.
    - rewrite !lookup_insert_ne, !lookup_empty by exact Hne. constructor. }
  assert (channels_agree Sample.channels Sample.channels') as Hc.
  { repeat (constructor; [by repeat split |]). constructor. }
  split; [by split |].
  exact (policies_independent_of_logged_fields Sample.self
           Sample.channels_forwarding_stats Sample.channels_forwarding_stats'
           Hs Sample.channels Sample.channels' Hc).
Defined.

(** The logged fields do reach the debug lines: the two runs above write
    the same policies and different lines. *)
Example logged_fields_reach_the_log :
  snd <$> new_fee_policy Sample.self Sample.channels
            Sample.channels_forwarding_stats
  <> snd <$> new_fee_policy Sample.self Sample.channels'
               Sample.channels_forwarding_stats'.
Proof. vm_compute. discriminate. Qed.

(** * Further properties of the fee setter *)

(** ** The change factors: shape *)

Section FactorShape.

Lemma Py_max_mono (a b c : Q) : a <= b -> Py.max a c <= Py.max b c.
Proof.
  intros H.
  destruct (Py_max_case a c) as [[-> Ha] | [-> Ha]];
    destruct (Py_max_case b c) as [[-> Hb] | [-> Hb]]; lra.
Qed.

Lemma Py_min_mono (a b c : Q) : a <= b -> Py.min a c <= Py.min b c.
Proof.
  intros H.
  destruct (Py_min_case a c) as [[-> Ha] | [-> Ha]];
    destruct (Py_min_case b c) as [[-> Hb] | [-> Hb]]; lra.
Qed.

(** X1. [factor_unbalancedness] and [factor_flow] are monotone: a larger
    unbalancedness (a more outward flow) never gives a smaller factor. *)
Theorem factor_unbalancedness_flow_monotone (a b : Q) :
  a <= b ->
  factor_unbalancedness a <= factor_unbalancedness b
  /\ factor_flow a <= factor_flow b.
Proof.
  intros H.
  assert (factor_unbalancedness a <= factor_unbalancedness b) as Hub.
  { unfold factor_unbalancedness. cbv zeta.
    destruct (Py_gtP (1 + a * 0.5) 1) as [Ha | Ha];
      destruct (Py_gtP (1 + b * 0.5) 1) as [Hb | Hb].
    - apply Py_min_mono. lra.
    - lra.
    - destruct (Py_max_case (1 + a * 0.5) (1 - 0.5)) as [[-> Ha'] | [-> Ha']];
        destruct (Py_min_case (1 + b * 0.5) (1 + 0.5)) as [[-> Hb'] | [-> Hb']];
        lra.
    - apply Py_max_mono. lra. }
  split; [exact Hub | exact Hub].
Qed.

(** X2. Between -1 and 1 the two factors are exactly [1 + x / 2] (no
    limit is active, and a balanced channel gives the neutral factor 1);
    from 1 on they stay at 1.5 and up to -1 they stay at 0.5. *)
Theorem factor_unbalancedness_flow_linear_then_flat (x : Q) :
  (-1 <= x <= 1 ->
   factor_unbalancedness x == 1 + x / 2 /\ factor_flow x == 1 + x / 2)
  /\ (1 <= x -> factor_unbalancedness x == 1.5 /\ factor_flow x == 1.5)
  /\ (x <= -1 -> factor_unbalancedness x == 0.5 /\ factor_flow x == 0.5).
Proof.
  change (factor_flow x) with (factor_unbalancedness x).
  unfold factor_unbalancedness, Qdiv. change (/ 2) with (1 # 2). cbv zeta.
  split; [| split]; intros H;
    (destruct (Py_gtP (1 + x * 0.5) 1) as [Hc | Hc];
     [destruct (Py_min_case (1 + x * 0.5) (1 + 0.5)) as [[-> H'] | [-> H']]
     |destruct (Py_max_case (1 + x * 0.5) (1 - 0.5)) as [[-> H'] | [-> H']]]);
    split; lra.
Qed.

(** The demand factor as a function of the rate over the target. *)
Lemma demand_change_mono (q q' : Q) :
  q <= q' ->
  Py.min (0.25 * (q - 1) + 1) (1 + 1.00)
  <= Py.min (0.25 * (q' - 1) + 1) (1 + 1.00).
Proof. intros H. apply Py_min_mono. lra. Qed.

Lemma Qdiv_le_compat_pos (a b : Q) (d : Z) :
  (0 < d)%Z -> a <= b -> a / inject_Z d <= b / inject_Z d.
Proof.
  intros Hd H. unfold Qdiv. apply Qmult_le_compat_r; [exact H |].
  apply Qinv_le_0_compat. unfold Qle. simpl. lia.
Qed.

Lemma Qdiv_le_compat_const (a b c : Q) : 0 < c -> a <= b -> a / c <= b / c.
Proof.
  intros Hc H. unfold Qdiv. apply Qmult_le_compat_r; [exact H |].
  apply Qinv_le_0_compat. lra.
Qed.

(** X3. The two demand factors raise [ZeroDivisionError] exactly when the
    look-back window is zero days, whatever the amount or the number of
    forwardings (also for 0), and return a factor otherwise. *)
Theorem factor_demand_zero_window (self : FeeSetter.t)
    (amount_out : Q) (num_fwd_out : Z) :
  (factor_demand_fee_rate self amount_out = Raise ZeroDivisionError
   <-> time_interval_days self = 0%Z)
  /\ (factor_demand_base_fee self num_fwd_out = Raise ZeroDivisionError
      <-> time_interval_days self = 0%Z)
  /\ (time_interval_days self <> 0%Z ->
      exists c c',
        factor_demand_fee_rate self amount_out = Ok c
        /\ factor_demand_base_fee self num_fwd_out = Ok c').
Proof.
  destruct (Z.eq_dec (time_interval_days self) 0%Z) as [Hd | Hd].
  - unfold factor_demand_fee_rate, factor_demand_base_fee.
    rewrite !div_time_interval_days_0 by exact Hd. simpl.
    split; [done |]. split; [done |]. intros H. by destruct H.
  - rewrite factor_demand_fee_rate_Ok, factor_demand_base_fee_Ok by exact Hd.
    split; [split; [discriminate | done] |].
    split; [split; [discriminate | done] |].
    intros _. by eexists _, _.
Qed.

(** X4. Over a positive look-back window the demand factors are monotone:
    more volume forwarded outwards, or more outward forwardings, never
    gives a smaller factor. *)
Theorem factor_demand_monotone (self : FeeSetter.t)
    (amount_out amount_out' : Q) (num_fwd_out num_fwd_out' : Z) :
  (0 < time_interval_days self)%Z ->
  amount_out <= amount_out' ->
  (num_fwd_out <= num_fwd_out')%Z ->
  (exists c c',
      factor_demand_fee_rate self amount_out = Ok c
      /\ factor_demand_fee_rate self amount_out' = Ok c'
      /\ c <= c')
  /\ (exists c c',
         factor_demand_base_fee self num_fwd_out = Ok c
         /\ factor_demand_base_fee self num_fwd_out' = Ok c'
         /\ c <= c').
Proof.
  intros Hd Ha Hn.
  rewrite !factor_demand_fee_rate_Ok, !factor_demand_base_fee_Ok by lia.
  split; eexists _, _; (split; [reflexivity |]); (split; [reflexivity |]);
    apply demand_change_mono, Qdiv_le_compat_const; try reflexivity;
    apply Qdiv_le_compat_pos; try assumption.
  rewrite <- Zle_Qle. exact Hn.
Qed.

(** X5. Over a non-zero look-back window, the fee-rate demand factor is
    the neutral 1 exactly when the outward rate [amount_out /
    time_interval_days] is the target rate [500000 / 7], and it is at its
    upper limit 2 exactly when the rate is at least five times the
    target; likewise the base-fee demand factor with the target [5 / 7]
    forwardings per day. *)
Theorem factor_demand_neutral_and_limit (self : FeeSetter.t)
    (amount_out : Q) (num_fwd_out : Z) :
  time_interval_days self <> 0%Z ->
  exists c c',
    factor_demand_fee_rate self amount_out = Ok c
    /\ factor_demand_base_fee self num_fwd_out = Ok c'
    /\ (c == 1
        <-> amount_out / inject_Z (time_interval_days self) == 500000 / 7)
    /\ (c == 2
        <-> 5 * (500000 / 7)
            <= amount_out / inject_Z (time_interval_days self))
    /\ (c' == 1
        <-> inject_Z num_fwd_out / inject_Z (time_interval_days self)
            == 5 / 7)
    /\ (c' == 2
        <-> 5 * (5 / 7)
            <= inject_Z num_fwd_out / inject_Z (time_interval_days self)).
Proof.
  intros Hd.
  rewrite factor_demand_fee_rate_Ok, factor_demand_base_fee_Ok by exact Hd.
  eexists _, _. split; [reflexivity |]. split; [reflexivity |].
  generalize (amount_out / inject_Z (time_interval_days self)).
  generalize (inject_Z num_fwd_out / inject_Z (time_interval_days self)).
  intros n r. unfold Qdiv.
  change (/ (500000 * / 7)) with (7 # 500000).
  change (/ (5 * / 7)) with (7 # 5).
  change (/ 7) with (1 # 7).
  destruct (Py_min_case (0.25 * (r * (7 # 500000) - 1) + 1) (1 + 1.00))
    as [[-> H] | [-> H]];
    destruct (Py_min_case (0.25 * (n * (7 # 5) - 1) + 1) (1 + 1.00))
      as [[-> H'] | [-> H']];
    repeat split; intros; lra.
Qed.

End FactorShape.

(** ** The weighted change: range *)

Section WeightedChangeRange.

Variable self : FeeSetter.t.
Variable channels_forwarding_stats : gmap Z Stats.t.
Variable channel_id : Z.
Variable channel_data : Channel.t.

Lemma factor_unbalancedness_range (x : Q) :
  0.5 <= factor_unbalancedness x <= 1.5.
Proof.
  pose proof (limited_change_range x) as R.
  by rewrite <- factor_unbalancedness_limited in R.
Qed.

Lemma weighted_combination_range (w fu ff fd : Q) :
  0 <= w ->
  0.5 <= fu <= 1.5 -> 0.5 <= ff <= 1.5 ->
  (1.0 * 0.5 + w * 0.5 + 1.3 * fd) / (1.0 + w + 1.3)
  <= Spec.weighted_combination 1.0 w 1.3 fu ff fd
  <= (1.0 * 1.5 + w * 1.5 + 1.3 * fd) / (1.0 + w + 1.3).
Proof.
  intros Hw Hfu Hff. unfold Spec.weighted_combination.
  assert (0 <= w * (ff - 0.5)) as H1 by (apply Qmult_le_0_compat; lra).
  assert (0 <= w * (1.5 - ff)) as H2 by (apply Qmult_le_0_compat; lra).
  split; apply Qdiv_le_compat_const; lra.
Qed.

(** X6. For every channel with non-negative forwarded volumes, over a
    positive look-back window, the weighted change lies between 71/116
    (about 0.61) and 50/29 (about 1.72): before rounding and clamping, one
    run lowers a fee rate by less than 39% and raises it by less than
    73%. *)
Theorem weighted_change_range (current : Policy.t) :
  (0 < time_interval_days self)%Z ->
  channel_fee_policies self !! Channel.channel_point channel_data
  = Some current ->
  0 <= Stats.total_forwarding_in
         (Spec.ingest channels_forwarding_stats channel_id) ->
  0 <= Stats.total_forwarding_out
         (Spec.ingest channels_forwarding_stats channel_id) ->
  exists policy line,
    new_fee_policy_channel self channels_forwarding_stats
      channel_id channel_data
    = Ok (policy, line)
    /\ 71 # 116 <= StatsLine.weighted_change line <= 50 # 29.
Proof.
  intros Hd Hcur Hin Hout.
  assert (time_interval_days self <> 0%Z) as Hd' by lia.
  destruct (new_fee_policy_channel_Ok self channels_forwarding_stats
              channel_id channel_data current Hd' Hcur) as (line & E & L).
  exists (policy_of_line self line), line. split; [exact E |].
  rewrite (line_weighted_change L).
  pose proof (line_factor_demand L) as Hfd.
  rewrite factor_demand_fee_rate_Ok in Hfd by exact Hd'.
  injection Hfd as Hfd.
  pose proof (factor_unbalancedness_range
                (Channel.unbalancedness channel_data)) as Hfu.
  rewrite <- (line_factor_unbalancedness L) in Hfu.
  pose proof (factor_unbalancedness_range
                (Stats.flow_direction
                   (Spec.ingest channels_forwarding_stats channel_id)))
    as Hff.
  change (factor_unbalancedness ?x) with (factor_flow x) in Hff.
  rewrite <- (line_factor_flow L) in Hff.
  revert Hin Hout Hfd.
  generalize (Stats.total_forwarding_in
                (Spec.ingest channels_forwarding_stats channel_id)).
  generalize (Stats.total_forwarding_out
                (Spec.ingest channels_forwarding_stats channel_id)).
  intros tfo tfi Hin Hout Hfd.
  assert (0.75 <= StatsLine.factor_demand line <= 2.0) as Hrange.
  { rewrite <- Hfd. apply demand_change_range; [reflexivity |].
    by apply Qdiv_nonneg. }
  destruct (Qeq_dec (tfi + tfo) 0) as [Hz | Hnz].
  - rewrite weighted_change_no_activity by exact Hz.
    assert (StatsLine.factor_demand line <= 0.75) as Hlow.
    { rewrite <- Hfd.
      assert (tfo / inject_Z (time_interval_days self) / (500000 / 7) <= 0)
        as Hq.
      { apply Qle_shift_div_r; [reflexivity |].
        apply Qle_shift_div_r; [unfold Qlt; simpl; lia |]. lra. }
      pose proof (demand_change_mono _ _ Hq) as Hm.
      eapply Qle_trans; [exact Hm |]. compute_Q. }
    pose proof (weighted_combination_range 0
                  (StatsLine.factor_unbalancedness line)
                  (StatsLine.factor_flow line)
                  (StatsLine.factor_demand line)) as [Hlo Hhi];
      [lra | exact Hfu | exact Hff |].
    split.
    + eapply Qle_trans; [| exact Hlo].
      apply Qle_shift_div_l; [reflexivity | lra].
    + eapply Qle_trans; [exact Hhi |].
      apply Qle_shift_div_r; [reflexivity | lra].
  - rewrite weighted_change_activity by exact Hnz.
    pose proof (weighted_combination_range 0.6
                  (StatsLine.factor_unbalancedness line)
                  (StatsLine.factor_flow line)
                  (StatsLine.factor_demand line)) as [Hlo Hhi];
      [lra | exact Hfu | exact Hff |].
    split.
    + eapply Qle_trans; [| exact Hlo].
      apply Qle_shift_div_l; [reflexivity | lra].
    + eapply Qle_trans; [exact Hhi |].
      apply Qle_shift_div_r; [reflexivity | lra].
Qed.

End WeightedChangeRange.

(** ** The new fee rate: the mode rules *)

Section ModeRules.

Variable self : FeeSetter.t.
Variable channels_forwarding_stats : gmap Z Stats.t.
Variable channel_id : Z.
Variable channel_data : Channel.t.

(** The fee rate the body writes for a channel. *)
Lemma new_fee_policy_channel_fee_rate (current : Policy.t) :
  time_interval_days self <> 0%Z ->
  channel_fee_policies self !! Channel.channel_point channel_data
  = Some current ->
  exists policy line,
    new_fee_policy_channel self channels_forwarding_stats
      channel_id channel_data
    = Ok (policy, line)
    /\ Policy.fee_rate policy
       = fee_rate_new self (Policy.fee_rate current)
           (Channel.unbalancedness channel_data)
           (Stats.total_forwarding_out
              (Spec.ingest channels_forwarding_stats channel_id))
           (StatsLine.weighted_change line).
Proof.
  intros Hd Hcur.
  destruct (new_fee_policy_channel_Ok self channels_forwarding_stats
              channel_id channel_data current Hd Hcur) as (line & E & L).
  exists (policy_of_line self line), line. split; [exact E |].
  exact (line_fee_rate_new L).
Qed.

Lemma fee_rate_new_open (fee_rate ub out wc : Q) :
  init self = false ->
  fee_rate <= min_fee_rate self -> ub < THRESHOLD_UB_OPEN -> out == 0 ->
  ~ fee_rate == FEE_LOCK_RATE ->
  fee_rate_new self fee_rate ub out wc = 0.
Proof.
  intros Hi Hfee Hub Hout Hlock. unfold fee_rate_new. rewrite Hi.
  destruct (Py_leP fee_rate (min_fee_rate self)); [| done].
  destruct (Py_ltP ub THRESHOLD_UB_OPEN); [| done].
  destruct (Py_eqP out 0); [| done].
  destruct (Py_gtP ub THRESHOLD_UB_CLOSE) as [H | _];
    [unfold THRESHOLD_UB_OPEN, THRESHOLD_UB_CLOSE in *; lra |].
  by destruct (Py_eqP fee_rate FEE_LOCK_RATE).
Qed.

Lemma fee_rate_new_leave_open (fee_rate ub out wc : Q) :
  init self = false ->
  fee_rate == 0 -> 0 < out -> THRESHOLD_UB_OPEN < ub ->
  fee_rate_new self fee_rate ub out wc = min_fee_rate self.
Proof.
  intros Hi Hfee Hout Hub. unfold fee_rate_new. rewrite Hi.
  destruct (Py_eqP out 0) as [H | _]; [lra |].
  rewrite !andb_false_r.
  destruct (Py_eqP fee_rate 0); [| done].
  destruct (Py_gtP out 0); [| done].
  destruct (Py_gtP ub THRESHOLD_UB_OPEN); [| done].
  destruct (Py_eqP fee_rate FEE_LOCK_RATE) as [H | _];
    [unfold FEE_LOCK_RATE in H; lra |].
  reflexivity.
Qed.

Lemma fee_rate_new_leave_locked (fee_rate ub out wc : Q) :
  init self = false ->
  fee_rate == FEE_LOCK_RATE -> ub < THRESHOLD_UB_CLOSE ->
  fee_rate_new self fee_rate ub out wc = max_fee_rate self / 2.
Proof.
  intros Hi Hfee Hub. unfold fee_rate_new. rewrite Hi.
  destruct (Py_gtP ub THRESHOLD_UB_CLOSE) as [H | _]; [lra |].
  destruct (Py_eqP fee_rate FEE_LOCK_RATE); [| done].
  by destruct (Py_ltP ub THRESHOLD_UB_CLOSE).
Qed.

(** X7. Entering open mode: in a run with [init = False], a channel whose
    current fee rate is at most [min_fee_rate] (and is not
    [FEE_LOCK_RATE]), with [ub < -0.5] and no outward forwarding, gets the
    fee rate 0. *)
Theorem open_mode_entered (current : Policy.t) :
  init self = false ->
  time_interval_days self <> 0%Z ->
  channel_fee_policies self !! Channel.channel_point channel_data
  = Some current ->
  Policy.fee_rate current <= min_fee_rate self ->
  ~ Policy.fee_rate current == FEE_LOCK_RATE ->
  Channel.unbalancedness channel_data < -0.5 ->
  Stats.total_forwarding_out
    (Spec.ingest channels_forwarding_stats channel_id) == 0 ->
  exists policy line,
    new_fee_policy_channel self channels_forwarding_stats
      channel_id channel_data
    = Ok (policy, line)
    /\ Policy.fee_rate policy = 0.
Proof.
  intros Hi Hd Hcur Hfee Hlock Hub Hout.
  destruct (new_fee_policy_channel_fee_rate current Hd Hcur)
    as (policy & line & E & Hr).
  exists policy, line. split; [exact E |]. rewrite Hr.
  by apply fee_rate_new_open.
Qed.

(** X8. Leaving open mode: in a run with [init = False], a channel whose
    current fee rate is 0, with outward forwarding and [ub > -0.5], gets
    the fee rate [min_fee_rate]. *)
Theorem open_mode_left (current : Policy.t) :
  init self = false ->
  time_interval_days self <> 0%Z ->
  channel_fee_policies self !! Channel.channel_point channel_data
  = Some current ->
  Policy.fee_rate current == 0 ->
  0 < Stats.total_forwarding_out
        (Spec.ingest channels_forwarding_stats channel_id) ->
  -0.5 < Channel.unbalancedness channel_data ->
  exists policy line,
    new_fee_policy_channel self channels_forwarding_stats
      channel_id channel_data
    = Ok (policy, line)
    /\ Policy.fee_rate policy = min_fee_rate self.
Proof.
  intros Hi Hd Hcur Hfee Hout Hub.
  destruct (new_fee_policy_channel_fee_rate current Hd Hcur)
    as (policy & line & E & Hr).
  exists policy, line. split; [exact E |]. rewrite Hr.
  by apply fee_rate_new_leave_open.
Qed.

(** X9. Leaving locked mode: in a run with [init = False], a channel
    whose current fee rate is [FEE_LOCK_RATE], with [ub < 0.95], gets the
    fee rate [max_fee_rate / 2], whatever was forwarded and also when the
    conditions of the open-mode rule hold. *)
Theorem locked_mode_left (current : Policy.t) :
  init self = false ->
  time_interval_days self <> 0%Z ->
  channel_fee_policies self !! Channel.channel_point channel_data
  = Some current ->
  Policy.fee_rate current == FEE_LOCK_RATE ->
  Channel.unbalancedness channel_data < 0.95 ->
  exists policy line,
    new_fee_policy_channel self channels_forwarding_stats
      channel_id channel_data
    = Ok (policy, line)
    /\ Policy.fee_rate policy = max_fee_rate self / 2.
Proof.
  intros Hi Hd Hcur Hfee Hub.
  destruct (new_fee_policy_channel_fee_rate current Hd Hcur)
    as (policy & line & E & Hr).
  exists policy, line. split; [exact E |]. rewrite Hr.
  by apply fee_rate_new_leave_locked.
Qed.

(** X10. In a run with [init = False] the fee rate written for a channel
    is a whole number of millionths, unless it is one of [min_fee_rate],
    [max_fee_rate], [max_fee_rate / 2], which are written as configured
    (0 and [FEE_LOCK_RATE] are whole numbers of millionths). *)
Theorem fee_rate_millionths (current : Policy.t) :
  init self = false ->
  time_interval_days self <> 0%Z ->
  channel_fee_policies self !! Channel.channel_point channel_data
  = Some current ->
  exists policy line,
    new_fee_policy_channel self channels_forwarding_stats
      channel_id channel_data
    = Ok (policy, line)
    /\ (Policy.fee_rate policy = min_fee_rate self
        \/ Policy.fee_rate policy = max_fee_rate self
        \/ Policy.fee_rate policy = max_fee_rate self / 2
        \/ exists n : Z, Policy.fee_rate policy == inject_Z n / 1000000).
Proof.
  intros Hi Hd Hcur.
  destruct (new_fee_policy_channel_fee_rate current Hd Hcur)
    as (policy & line & E & Hr).
  exists policy, line. split; [exact E |]. rewrite Hr.
  destruct (fee_rate_new_cases self (Policy.fee_rate current)
              (Channel.unbalancedness channel_data)
              (Stats.total_forwarding_out
                 (Spec.ingest channels_forwarding_stats channel_id))
              (StatsLine.weighted_change line))
    as [H | [H | [H | [H | H]]]]; rewrite H.
  - destruct (Py_min_case
                (Py.max (min_fee_rate self)
                   (Py.round
                      (Policy.fee_rate current
                       * StatsLine.weighted_change line) 6))
                (max_fee_rate self)) as [[-> _] | [-> _]]; [| tauto].
    destruct (Py_max_case (min_fee_rate self)
                (Py.round
                   (Policy.fee_rate current
                    * StatsLine.weighted_change line) 6))
      as [[-> _] | [-> _]]; [tauto |].
    right. right. right. apply Py_round_6_spec.
  - tauto.
  - right. right. right. exists 0%Z. reflexivity.
  - right. right. right. exists 25000%Z. reflexivity.
  - tauto.
Qed.

End ModeRules.

(** ** The new base fee: steps *)

Section BaseFeeSteps.

Lemma Py_int_opp (x : Q) : Py.int (- x) = (- Py.int x)%Z.
Proof. destruct x as [n d]. unfold Py.int. simpl. apply Z.quot_opp_l. lia. Qed.

(** [int] never moves a number across an integer. *)
Lemma Py_int_gt (m : Z) (x : Q) : inject_Z m < x -> (m <= Py.int x)%Z.
Proof.
  intros H. destruct (Qlt_le_dec x 0) as [Hneg | Hpos].
  - assert (Py.int x = Qceiling x) as ->.
    { unfold Qceiling. rewrite <- (Py_int_floor (- x)) by lra.
      rewrite Py_int_opp. lia. }
    pose proof (Qle_ceiling x) as Hc.
    assert (inject_Z m <= inject_Z (Qceiling x)) as Hle by lra.
    by rewrite <- Zle_Qle in Hle.
  - rewrite Py_int_floor by exact Hpos.
    assert (inject_Z m <= x) as Hle by lra.
    apply Qfloor_resp_le in Hle. by rewrite Qfloor_Z in Hle.
Qed.

Lemma Py_int_Qeq_Z (x : Q) (k : Z) : x == inject_Z k -> Py.int x = k.
Proof.
  destruct x as [n d]. unfold Qeq, Py.int. simpl. intros H.
  assert (n = (k * Z.pos d)%Z) as -> by lia.
  apply Z.quot_mul. lia.
Qed.

Lemma int_max_at_least (m : Z) (x : Q) :
  (m <= Py.int (Py.max (inject_Z m) x))%Z.
Proof.
  destruct (Py_max_case (inject_Z m) x) as [[-> H] | [-> H]].
  - rewrite Py_int_Z. lia.
  - by apply Py_int_gt.
Qed.

Lemma int_max_between (m lo hi : Z) (x : Q) :
  inject_Z lo <= x <= inject_Z hi ->
  (Z.min m lo <= Py.int (Py.max (inject_Z m) x) <= Z.max m hi)%Z
  /\ ((lo <= Py.int (Py.max (inject_Z m) x))%Z \/ x <= inject_Z m).
Proof.
  intros [Hlo Hhi].
  destruct (Py_max_case (inject_Z m) x) as [[-> H] | [-> H]].
  - rewrite Py_int_Z. split; [lia | by right].
  - assert (lo <= Py.int x <= hi)%Z as Hint.
    { destruct (Qlt_le_dec x 0) as [Hneg | Hpos].
      - assert (Py.int x = Qceiling x) as ->.
        { unfold Qceiling. rewrite <- (Py_int_floor (- x)) by lra.
          rewrite Py_int_opp. lia. }
        split.
        + pose proof (Qle_ceiling x) as Hc.
          assert (inject_Z lo <= inject_Z (Qceiling x)) as Hle by lra.
          by rewrite <- Zle_Qle in Hle.
        + apply Qceiling_resp_le in Hhi. by rewrite Qceiling_Z in Hhi.
      - rewrite Py_int_floor by exact Hpos. split.
        + apply Qfloor_resp_le in Hlo. by rewrite Qfloor_Z in Hlo.
        + apply Qfloor_resp_le in Hhi. by rewrite Qfloor_Z in Hhi. }
    split; [lia | left; lia].
Qed.

Variable self : FeeSetter.t.
Variable channels_forwarding_stats : gmap Z Stats.t.
Variable channel_id : Z.
Variable channel_data : Channel.t.

(** The base fee the body writes for a channel. *)
Lemma new_fee_policy_channel_base_fee (current : Policy.t) :
  time_interval_days self <> 0%Z ->
  channel_fee_policies self !! Channel.channel_point channel_data
  = Some current ->
  exists policy line,
    new_fee_policy_channel self channels_forwarding_stats
      channel_id channel_data
    = Ok (policy, line)
    /\ Policy.base_fee_msat policy
       = base_fee_msat_new self (Policy.base_fee_msat current)
           (StatsLine.factor_base_fee line)
    /\ StatsLine.factor_base_fee line
       = Py.min
           (0.25 * (inject_Z (Stats.number_forwardings_out
                                (Spec.ingest channels_forwarding_stats
                                   channel_id))
                    / inject_Z (time_interval_days self)
                    / (5 / 7) - 1) + 1)
           (1 + 1.00).
Proof.
  intros Hd Hcur.
  destruct (new_fee_policy_channel_Ok self channels_forwarding_stats
              channel_id channel_data current Hd Hcur) as (line & E & L).
  exists (policy_of_line self line), line. split; [exact E |].
  split; [exact (line_base_fee_msat_new L) |].
  pose proof (line_factor_base_fee L) as H.
  rewrite factor_demand_base_fee_Ok in H by exact Hd.
  by injection H as <-.
Qed.

(** X11. In a run with [init = False] over a positive look-back window,
    for a channel with a non-negative current base fee and a non-negative
    number of outward forwardings, the new base fee is at least
    [min_base_fee_msat], at least three quarters of the current one
    (rounded down) and at most the larger of [min_base_fee_msat] and twice
    the current one. *)
Theorem base_fee_step (current : Policy.t) :
  init self = false ->
  (0 < time_interval_days self)%Z ->
  channel_fee_policies self !! Channel.channel_point channel_data
  = Some current ->
  (0 <= Policy.base_fee_msat current)%Z ->
  (0 <= Stats.number_forwardings_out
          (Spec.ingest channels_forwarding_stats channel_id))%Z ->
  exists policy line,
    new_fee_policy_channel self channels_forwarding_stats
      channel_id channel_data
    = Ok (policy, line)
    /\ (min_base_fee_msat self <= Policy.base_fee_msat policy)%Z
    /\ (3 * Policy.base_fee_msat current / 4
        <= Policy.base_fee_msat policy)%Z
    /\ (Policy.base_fee_msat policy
        <= Z.max (min_base_fee_msat self)
             (2 * Policy.base_fee_msat current))%Z.
Proof.
  intros Hi Hd Hcur Hbase Hn.
  assert (time_interval_days self <> 0%Z) as Hd' by lia.
  destruct (new_fee_policy_channel_base_fee current Hd' Hcur)
    as (policy & line & E & Hr & Hf).
  exists policy, line. split; [exact E |]. rewrite Hr.
  unfold base_fee_msat_new. rewrite Hi.
  assert (0.75 <= StatsLine.factor_base_fee line <= 2.0) as Hrange.
  { rewrite Hf. apply demand_change_range; [reflexivity |].
    apply Qdiv_nonneg; [| exact Hd]. rewrite Zle_Qle in Hn. exact Hn. }
  revert Hrange. generalize (StatsLine.factor_base_fee line). intros f Hf'.
  set (b := Policy.base_fee_msat current) in *.
  assert (0 <= inject_Z b) as Hb by (by rewrite Zle_Qle in Hbase).
  assert (inject_Z (3 * b / 4) <= inject_Z b * f <= inject_Z (2 * b)) as Hx.
  { split.
    - apply Qle_trans with (inject_Z b * 0.75).
      + rewrite Zdiv_Qdiv.
        eapply Qle_trans; [apply Qfloor_le |].
        rewrite inject_Z_mult. unfold Qdiv.
        change (/ inject_Z 4) with (1 # 4). change (inject_Z 3) with 3. lra.
      + assert (0 <= inject_Z b * (f - 0.75))
          by (apply Qmult_le_0_compat; lra).
        lra.
    - rewrite inject_Z_mult. change (inject_Z 2) with 2.
      assert (0 <= inject_Z b * (2 - f)) by (apply Qmult_le_0_compat; lra).
      lra. }
  split; [apply int_max_at_least |].
  destruct (int_max_between (min_base_fee_msat self) _ _ _ Hx)
    as [[_ Hhi] Hlo].
  split; [| exact Hhi].
  destruct Hlo as [Hlo | Hlo]; [exact Hlo |].
  pose proof (int_max_at_least (min_base_fee_msat self) (inject_Z b * f))
    as Hmin.
  assert (inject_Z (3 * b / 4) <= inject_Z (min_base_fee_msat self)) as Hle
    by lra.
  rewrite <- Zle_Qle in Hle. lia.
Qed.

(** X12. The base fee has no upper limit after the first run: in a run
    with [init = False] over a positive window, a channel with at least
    25/7 outward forwardings per day gets the larger of
    [min_base_fee_msat] and twice its current base fee, whatever
    [max_base_fee_msat] is. *)
Theorem base_fee_doubles (current : Policy.t) :
  init self = false ->
  (0 < time_interval_days self)%Z ->
  channel_fee_policies self !! Channel.channel_point channel_data
  = Some current ->
  (25 * time_interval_days self
   <= 7 * Stats.number_forwardings_out
            (Spec.ingest channels_forwarding_stats channel_id))%Z ->
  exists policy line,
    new_fee_policy_channel self channels_forwarding_stats
      channel_id channel_data
    = Ok (policy, line)
    /\ Policy.base_fee_msat policy
       = Z.max (min_base_fee_msat self) (2 * Policy.base_fee_msat current).
Proof.
  intros Hi Hd Hcur Hn.
  assert (time_interval_days self <> 0%Z) as Hd' by lia.
  destruct (new_fee_policy_channel_base_fee current Hd' Hcur)
    as (policy & line & E & Hr & Hf).
  exists policy, line. split; [exact E |]. rewrite Hr.
  unfold base_fee_msat_new. rewrite Hi.
  assert (StatsLine.factor_base_fee line == 2) as Hf2.
  { rewrite Hf.
    assert (5 * (5 / 7)
            <= inject_Z (Stats.number_forwardings_out
                           (Spec.ingest channels_forwarding_stats channel_id))
               / inject_Z (time_interval_days self)) as Hq.
    { apply Qle_shift_div_l; [unfold Qlt; simpl; lia |].
      rewrite Zle_Qle, !inject_Z_mult in Hn.
      change (inject_Z 25) with 25 in Hn. change (inject_Z 7) with 7 in Hn.
      unfold Qdiv. change (/ 7) with (1 # 7). lra. }
    revert Hq.
    generalize (inject_Z (Stats.number_forwardings_out
                            (Spec.ingest channels_forwarding_stats
                               channel_id))
                / inject_Z (time_interval_days self)).
    intros q Hq. unfold Qdiv in *.
    change (/ (5 * / 7)) with (7 # 5). change (/ 7) with (1 # 7) in Hq.
    destruct (Py_min_case (0.25 * (q * (7 # 5) - 1) + 1) (1 + 1.00))
      as [[-> H] | [-> H]]; lra. }
  set (b := Policy.base_fee_msat current) in *.
  assert (inject_Z b * StatsLine.factor_base_fee line == inject_Z (2 * b))
    as Hx.
  { rewrite Hf2, inject_Z_mult. change (inject_Z 2) with 2. lra. }
  destruct (Py_max_case (inject_Z (min_base_fee_msat self))
              (inject_Z b * StatsLine.factor_base_fee line))
    as [[-> H] | [-> H]].
  - rewrite Py_int_Z. rewrite Hx in H. rewrite <- Zle_Qle in H. lia.
  - rewrite (Py_int_Qeq_Z _ _ Hx). rewrite Hx in H.
    rewrite <- Zlt_Qlt in H. lia.
Qed.

End BaseFeeSteps.

(** ** The run: when it returns, what it raises *)

Section RunErrors.

Variable self : FeeSetter.t.
Variable channels_forwarding_stats : gmap Z Stats.t.

Local Abbreviation body :=
  (new_fee_policy_channel self channels_forwarding_stats).
Local Abbreviation loop :=
  (new_fee_policy_loop self channels_forwarding_stats).

(** The loop stops at the first channel whose body raises. *)
Lemma loop_cons_Raise channel_id channel_data items acc log e :
  body channel_id channel_data = Raise e ->
  loop ((channel_id, channel_data) :: items) acc log = Raise e.
Proof. intros H. simpl. by rewrite H. Qed.

Lemma loop_Ok_inv items acc log out log' :
  loop items acc log = Ok (out, log') ->
  (items = [] \/ time_interval_days self <> 0%Z)
  /\ forall channel_id channel_data,
       (channel_id, channel_data) ∈ items ->
       is_Some (channel_fee_policies self
                  !! Channel.channel_point channel_data).
Proof.
  revert acc log.
  induction items as [| [i c] items IH]; intros acc log H.
  - split; [by left |]. intros ? ? Hin. by apply elem_of_nil in Hin.
  - apply loop_cons_inv in H as (policy & line & E & H).
    apply new_fee_policy_channel_inv in E as (current & Hd & Hcur & _).
    destruct (IH _ _ H) as [_ Hin]. split; [by right |].
    intros i' c' Hic. apply elem_of_cons in Hic as [Heq | Hic].
    + injection Heq as -> ->. by exists current.
    + by apply (Hin i' c').
Qed.

(** X13. [new_fee_policy] returns exactly when every channel of the
    snapshot has a current policy under its channel point and, unless the
    snapshot is empty, the look-back window is not zero. *)
Theorem new_fee_policy_returns_iff (channels : list (Z * Channel.t)) :
  (exists out log,
      new_fee_policy self channels channels_forwarding_stats = Ok (out, log))
  <-> (channels = [] \/ time_interval_days self <> 0%Z)
      /\ forall channel_id channel_data,
           (channel_id, channel_data) ∈ channels ->
           is_Some (channel_fee_policies self
                      !! Channel.channel_point channel_data).
Proof.
  split.
  - intros (out & log & H). by apply loop_Ok_inv in H.
  - intros [[-> | Hd] Hin].
    + by exists ∅, [].
    + by apply loop_Ok.
Qed.

Lemma loop_KeyError pre channel_id channel_data post acc log :
  time_interval_days self <> 0%Z ->
  (forall i c, (i, c) ∈ pre ->
               is_Some (channel_fee_policies self !! Channel.channel_point c)) ->
  channel_fee_policies self !! Channel.channel_point channel_data = None ->
  loop (pre ++ (channel_id, channel_data) :: post) acc log
  = Raise (KeyError (Channel.channel_point channel_data)).
Proof.
  intros Hd Hpre Hnone. revert acc log.
  induction pre as [| [i c] pre IH]; intros acc log.
  - apply loop_cons_Raise. by apply new_fee_policy_channel_KeyError.
  - destruct (Hpre i c) as [current Hcur]; [apply list_elem_of_here |].
    destruct (new_fee_policy_channel_Ok self channels_forwarding_stats
                i c current Hd Hcur) as (line & E & _).
    simpl app. erewrite loop_cons_Ok by exact E.
    apply IH. intros i' c' Hin. apply (Hpre i' c').
    by apply list_elem_of_further.
Qed.

(** X14. When the look-back window is not zero, [new_fee_policy] raises
    [KeyError] with the channel point of the first channel, in iteration
    order, that has no current policy; the channels after it are not
    looked at. *)
Theorem new_fee_policy_KeyError
    (pre post : list (Z * Channel.t))
    (channel_id : Z) (channel_data : Channel.t) :
  time_interval_days self <> 0%Z ->
  (forall i c, (i, c) ∈ pre ->
               is_Some (channel_fee_policies self !! Channel.channel_point c)) ->
  channel_fee_policies self !! Channel.channel_point channel_data = None ->
  new_fee_policy self (pre ++ (channel_id, channel_data) :: post)
    channels_forwarding_stats
  = Raise (KeyError (Channel.channel_point channel_data)).
Proof. intros Hd Hpre Hnone. by apply loop_KeyError. Qed.

(** X15. With a look-back window of zero days, [new_fee_policy] raises on
    the first channel of a non-empty snapshot: [KeyError] if that channel
    has no current policy, [ZeroDivisionError] otherwise (also for a
    channel without any forwarding). *)
Theorem new_fee_policy_zero_window
    (channel_id : Z) (channel_data : Channel.t)
    (channels : list (Z * Channel.t)) :
  time_interval_days self = 0%Z ->
  new_fee_policy self ((channel_id, channel_data) :: channels)
    channels_forwarding_stats
  = Raise
      match channel_fee_policies self !! Channel.channel_point channel_data
      with
      | Some _ => ZeroDivisionError
      | None => KeyError (Channel.channel_point channel_data)
      end.
Proof.
  intros Hd. apply loop_cons_Raise.
  destruct (channel_fee_policies self !! Channel.channel_point channel_data)
    as [current |] eqn:Hcur.
  - by apply (new_fee_policy_channel_ZeroDivisionError _ _ _ _ current).
  - by apply new_fee_policy_channel_KeyError.
Qed.

End RunErrors.

(** ** The run: the dictionary and the debug lines it returns *)

Section RunResult.

Variable self : FeeSetter.t.
Variable channels_forwarding_stats : gmap Z Stats.t.

Local Abbreviation body :=
  (new_fee_policy_channel self channels_forwarding_stats).
Local Abbreviation loop :=
  (new_fee_policy_loop self channels_forwarding_stats).

Lemma loop_app_inv items1 items2 acc log out log' :
  loop (items1 ++ items2) acc log = Ok (out, log') ->
  exists acc1 log1,
    loop items1 acc log = Ok (acc1, log1)
    /\ loop items2 acc1 log1 = Ok (out, log').
Proof.
  revert acc log.
  induction items1 as [| [i c] items1 IH]; intros acc log H.
  - by exists acc, log.
  - simpl app in H. apply loop_cons_inv in H as (policy & line & E & H).
    destruct (IH _ _ H) as (acc1 & log1 & H1 & H2).
    exists acc1, log1. split; [| exact H2].
    by erewrite loop_cons_Ok by exact E.
Qed.

(** X16. The last write wins: in the returned dictionary the entry under a
    channel point is the policy computed for the last channel, in
    iteration order, that has this channel point. *)
Theorem new_fee_policy_last_write_wins
    (pre post : list (Z * Channel.t))
    (channel_id : Z) (channel_data : Channel.t)
    (out : gmap string Policy.t) (log : list StatsLine.t) :
  new_fee_policy self (pre ++ (channel_id, channel_data) :: post)
    channels_forwarding_stats
  = Ok (out, log) ->
  Channel.channel_point channel_data ∉ channel_points post ->
  exists policy line,
    new_fee_policy_channel self channels_forwarding_stats
      channel_id channel_data
    = Ok (policy, line)
    /\ out !! Channel.channel_point channel_data = Some policy.
Proof.
  intros Hrun Hlast.
  apply loop_app_inv in Hrun as (acc1 & log1 & _ & Hrun).
  apply loop_cons_inv in Hrun as (policy & line & E & Hrun).
  exists policy, line. split; [exact E |].
  rewrite (loop_lookup_other _ _ _ _ _ _ _ _ Hrun Hlast).
  apply lookup_insert_eq.
Qed.

Lemma list_to_set_remove_dups_strings (l : list string) :
  list_to_set (remove_dups l) =@{gset string} list_to_set l.
Proof.
  apply set_eq. intros x. by rewrite !elem_of_list_to_set, elem_of_remove_dups.
Qed.

Lemma length_remove_dups_le (l : list string) :
  (length (remove_dups l) <= length l)%nat.
Proof.
  induction l as [| x l IH]; [done |]. simpl.
  case_decide; simpl; lia.
Qed.

(** X17. The returned dictionary has one entry per distinct channel point
    of the snapshot, and nothing else: policies of channels that are not
    in the snapshot are not carried over. *)
Theorem new_fee_policy_size (channels : list (Z * Channel.t))
    (out : gmap string Policy.t) (log : list StatsLine.t) :
  new_fee_policy self channels channels_forwarding_stats = Ok (out, log) ->
  (forall channel_point : string,
      is_Some (out !! channel_point)
      <-> channel_point ∈ channel_points channels)
  /\ size out = length (remove_dups (channel_points channels))
  /\ (size out <= length channels)%nat.
Proof.
  intros Hrun.
  assert (dom out = list_to_set (channel_points channels)) as Hdom.
  { rewrite (loop_dom _ _ _ _ _ _ _ Hrun), dom_empty_L.
    by rewrite (left_id_L ∅ (∪)). }
  assert (size out = length (remove_dups (channel_points channels))) as Hsize.
  { rewrite <- size_dom, Hdom, <- list_to_set_remove_dups_strings.
    apply size_list_to_set, NoDup_remove_dups. }
  split; [| split; [exact Hsize |]].
  - intros cp. by rewrite <- elem_of_dom, Hdom, elem_of_list_to_set.
  - rewrite Hsize.
    etrans; [apply length_remove_dups_le |].
    unfold channel_points. by rewrite length_fmap.
Qed.

Lemma loop_log items acc log out log' :
  loop items acc log = Ok (out, log') ->
  exists lines,
    log' = log ++ lines
    /\ Forall2 (fun item line =>
                  exists policy, body item.1 item.2 = Ok (policy, line))
         items lines.
Proof.
  revert acc log.
  induction items as [| [i c] items IH]; intros acc log H.
  - simpl in H. injection H as <- <-. exists []. split; [| constructor].
    by rewrite (right_id_L [] (++)).
  - apply loop_cons_inv in H as (policy & line & E & H).
    destruct (IH _ _ H) as (lines & -> & Hlines).
    exists (line :: lines). split; [by rewrite <- (assoc_L (++)) |].
    constructor; [by exists policy | exact Hlines].
Qed.

(** X18. [new_fee_policy] writes exactly one debug line per channel of the
    snapshot, in iteration order, also for channels that share a channel
    point: the line of a channel carries its channel id and is the one the
    loop body computes for it. *)
Theorem new_fee_policy_log (channels : list (Z * Channel.t))
    (out : gmap string Policy.t) (log : list StatsLine.t) :
  new_fee_policy self channels channels_forwarding_stats = Ok (out, log) ->
  length log = length channels
  /\ StatsLine.channel_id <$> log = fst <$> channels
  /\ Forall2 (fun item line =>
                exists policy,
                  new_fee_policy_channel self channels_forwarding_stats
                    item.1 item.2 = Ok (policy, line))
       channels log.
Proof.
  intros Hrun. apply loop_log in Hrun as (lines & -> & Hlines).
  simpl. split; [symmetry; by eapply Forall2_length |].
  split; [| exact Hlines].
  induction Hlines as [| [i c] line items lines (policy & E) _ IH];
    [reflexivity |].
  simpl. f_equal; [| exact IH].
  apply new_fee_policy_channel_inv in E as (current & _ & _ & _ & L).
  exact (line_channel_id _ _ _ _ _ _ L).
Qed.

End RunResult.

(** ** The run: what it depends on *)

Section RunDependencies.

(** Two loops whose bodies agree on the channels of the snapshot agree. *)
Lemma loop_ext (self1 self2 : FeeSetter.t) (stats1 stats2 : gmap Z Stats.t)
    (items : list (Z * Channel.t)) (acc : gmap string Policy.t)
    (log : list StatsLine.t) :
  (forall i c, (i, c) ∈ items ->
               new_fee_policy_channel self1 stats1 i c
               = new_fee_policy_channel self2 stats2 i c) ->
  new_fee_policy_loop self1 stats1 items acc log
  = new_fee_policy_loop self2 stats2 items acc log.
Proof.
  revert acc log.
  induction items as [| [i c] items IH]; intros acc log H; [reflexivity |].
  simpl. rewrite (H i c) by apply list_elem_of_here.
  destruct (new_fee_policy_channel self2 stats2 i c) as [[policy line] | e];
    [| reflexivity].
  simpl. apply IH. intros i' c' Hin. apply (H i' c').
  by apply list_elem_of_further.
Qed.

Lemma loop_ext_fst (self1 self2 : FeeSetter.t)
    (stats1 stats2 : gmap Z Stats.t)
    (items : list (Z * Channel.t)) (acc : gmap string Policy.t)
    (log1 log2 : list StatsLine.t) :
  (forall i c, (i, c) ∈ items ->
               fst <$> new_fee_policy_channel self1 stats1 i c
               = fst <$> new_fee_policy_channel self2 stats2 i c) ->
  fst <$> new_fee_policy_loop self1 stats1 items acc log1
  = fst <$> new_fee_policy_loop self2 stats2 items acc log2.
Proof.
  revert acc log1 log2.
  induction items as [| [i c] items IH]; intros acc log1 log2 H;
    [reflexivity |].
  pose proof (H i c (list_elem_of_here _ _)) as Hbody. simpl.
  destruct (new_fee_policy_channel self1 stats1 i c) as [[p1 l1] | e1];
    destruct (new_fee_policy_channel self2 stats2 i c) as [[p2 l2] | e2];
    simpl in Hbody; try discriminate; simpl.
  - injection Hbody as ->. apply IH. intros i' c' Hin. apply (H i' c').
    by apply list_elem_of_further.
  - by injection Hbody as ->.
Qed.

Variable self : FeeSetter.t.

(** X19. [new_fee_policy] looks up only the statistics of the channel ids
    of the snapshot and only the current policies of its channel points:
    statistics and policies of other channels do not change the result,
    neither the dictionary nor the debug lines nor the exception. *)
Theorem new_fee_policy_frame
    (policies' : gmap string Policy.t) (stats stats' : gmap Z Stats.t)
    (channels : list (Z * Channel.t)) :
  (forall channel_id channel_data,
      (channel_id, channel_data) ∈ channels ->
      stats' !! channel_id = stats !! channel_id
      /\ policies' !! Channel.channel_point channel_data
         = channel_fee_policies self !! Channel.channel_point channel_data) ->
  new_fee_policy (with_channel_fee_policies self policies') channels stats'
  = new_fee_policy self channels stats.
Proof.
  intros H. apply loop_ext. intros i c Hin.
  destruct (H i c Hin) as [Hs Hp].
  unfold new_fee_policy_channel.
  change (channel_fee_policies (with_channel_fee_policies self policies'))
    with policies'.
  rewrite Hs, Hp. reflexivity.
Qed.

(** X20. A channel without an entry in the forwarding statistics is
    treated as a channel with an entry of zeros: adding such an entry
    changes no policy (and no exception). *)
Theorem new_fee_policy_missing_stats_are_zero
    (stats : gmap Z Stats.t) (channel_id : Z)
    (channels : list (Z * Channel.t)) :
  stats !! channel_id = None ->
  fst <$> new_fee_policy self channels
            (<[channel_id := Spec.no_activity]> stats)
  = fst <$> new_fee_policy self channels stats.
Proof.
  intros Hnone. apply loop_ext_fst. intros i c _.
  unfold new_fee_policy_channel.
  destruct (decide (channel_id = i)) as [<- | Hne].
  - rewrite lookup_insert_eq, Hnone.
    destruct (channel_fee_policies self !! Channel.channel_point c);
      [| reflexivity].
    change (Stats.total_forwarding_out Spec.no_activity) with 0.
    change (Stats.number_forwardings_out Spec.no_activity) with 0%Z.
    destruct (factor_demand_fee_rate self 0); [| reflexivity].
    destruct (factor_demand_base_fee self 0); reflexivity.
  - by rewrite lookup_insert_ne.
Qed.

(** X21. A first run ([init = True]) does not read the values of the
    current policies, only whether a channel has one: with other current
    fee rates, base fees and cltvs it writes the same dictionary. *)
Theorem new_fee_policy_init_ignores_current_values
    (policies' : gmap string Policy.t) (stats : gmap Z Stats.t)
    (channels : list (Z * Channel.t)) :
  init self = true ->
  (forall channel_id channel_data,
      (channel_id, channel_data) ∈ channels ->
      is_Some (policies' !! Channel.channel_point channel_data)
      <-> is_Some (channel_fee_policies self
                     !! Channel.channel_point channel_data)) ->
  fst <$> new_fee_policy (with_channel_fee_policies self policies')
            channels stats
  = fst <$> new_fee_policy self channels stats.
Proof.
  intros Hi H. apply loop_ext_fst. intros i c Hin.
  specialize (H i c Hin).
  unfold new_fee_policy_channel.
  change (channel_fee_policies (with_channel_fee_policies self policies'))
    with policies'.
  destruct (policies' !! Channel.channel_point c) as [current' |];
    destruct (channel_fee_policies self !! Channel.channel_point c)
      as [current |].
  - destruct (stats !! i) as [s |].
    + change (factor_demand_fee_rate
                (with_channel_fee_policies self policies'))
        with (factor_demand_fee_rate self).
      change (factor_demand_base_fee
                (with_channel_fee_policies self policies'))
        with (factor_demand_base_fee self).
      destruct (factor_demand_fee_rate self (Stats.total_forwarding_out s));
        [| reflexivity].
      destruct (factor_demand_base_fee self (Stats.number_forwardings_out s));
        [| reflexivity].
      simpl. unfold fee_rate_new, base_fee_msat_new. simpl. by rewrite Hi.
    + change (factor_demand_fee_rate
                (with_channel_fee_policies self policies'))
        with (factor_demand_fee_rate self).
      change (factor_demand_base_fee
                (with_channel_fee_policies self policies'))
        with (factor_demand_base_fee self).
      destruct (factor_demand_fee_rate self 0); [| reflexivity].
      destruct (factor_demand_base_fee self 0); [| reflexivity].
      simpl. unfold fee_rate_new, base_fee_msat_new. simpl. by rewrite Hi.
  - destruct H as [H _]. by destruct H.
  - destruct H as [_ H]. by destruct H.
  - by destruct (stats !! i).
Qed.

(** X22. After the first run [max_base_fee_msat] is not read: in a run
    with [init = False] another [max_base_fee_msat] gives the same
    result. *)
Theorem new_fee_policy_ignores_max_base_fee
    (max_base_fee_msat : Z) (stats : gmap Z Stats.t)
    (channels : list (Z * Channel.t)) :
  init self = false ->
  new_fee_policy (with_max_base_fee_msat self max_base_fee_msat)
    channels stats
  = new_fee_policy self channels stats.
Proof.
  intros Hi. apply loop_ext. intros i c _.
  unfold new_fee_policy_channel.
  change (channel_fee_policies
            (with_max_base_fee_msat self max_base_fee_msat))
    with (channel_fee_policies self).
  change (factor_demand_fee_rate
            (with_max_base_fee_msat self max_base_fee_msat))
    with (factor_demand_fee_rate self).
  change (factor_demand_base_fee
            (with_max_base_fee_msat self max_base_fee_msat))
    with (factor_demand_base_fee self).
  change (fee_rate_new (with_max_base_fee_msat self max_base_fee_msat))
    with (fee_rate_new self).
  change (cltv (with_max_base_fee_msat self max_base_fee_msat))
    with (cltv self).
  assert (forall b f,
             base_fee_msat_new
               (with_max_base_fee_msat self max_base_fee_msat) b f
             = base_fee_msat_new self b f) as Hb.
  { intros b f. unfold base_fee_msat_new. simpl. by rewrite Hi. }
  destruct (stats !! i) as [s |];
    destruct (channel_fee_policies self !! Channel.channel_point c);
    try reflexivity.
  - destruct (factor_demand_fee_rate self (Stats.total_forwarding_out s));
      [| reflexivity].
    destruct (factor_demand_base_fee self (Stats.number_forwardings_out s));
      [| reflexivity].
    simpl. by rewrite Hb.
  - destruct (factor_demand_fee_rate self 0); [| reflexivity].
    destruct (factor_demand_base_fee self 0); [| reflexivity].
    simpl. by rewrite Hb.
Qed.

End RunDependencies.

(** ** The run: the order of the channels *)

Section RunOrder.

Variable self : FeeSetter.t.
Variable channels_forwarding_stats : gmap Z Stats.t.

(** With distinct channel points, the entries of the returned dictionary
    are exactly the policies of the channels. *)
Lemma new_fee_policy_lookup_iff (channels : list (Z * Channel.t))
    (out : gmap string Policy.t) (log : list StatsLine.t)
    (channel_point : string) (policy : Policy.t) :
  NoDup (channel_points channels) ->
  new_fee_policy self channels channels_forwarding_stats = Ok (out, log) ->
  out !! channel_point = Some policy
  <-> exists channel_id channel_data line,
        (channel_id, channel_data) ∈ channels
        /\ Channel.channel_point channel_data = channel_point
        /\ new_fee_policy_channel self channels_forwarding_stats
             channel_id channel_data = Ok (policy, line).
Proof.
  intros Hnd Hrun. split.
  - intros Hout.
    destruct (loop_lookup_inv _ _ _ _ _ _ _ _ _ Hrun Hout)
      as [Hacc | H]; [by rewrite lookup_empty in Hacc | exact H].
  - intros (i & c & line & Hin & <- & Hbody).
    destruct (loop_lookup_channel _ _ _ _ _ _ _ i c Hnd Hrun Hin)
      as (policy' & line' & Hbody' & Hout).
    rewrite Hbody in Hbody'. by injection Hbody' as -> _.
Qed.

(** X23. With distinct channel points the returned dictionary does not
    depend on the order of the channels: a run over a permutation of the
    snapshot returns the same dictionary.  (With a channel point shared by
    two channels the order matters: the last write wins.) *)
Theorem new_fee_policy_order_insensitive
    (channels channels' : list (Z * Channel.t))
    (out : gmap string Policy.t) (log : list StatsLine.t) :
  channels ≡ₚ channels' ->
  NoDup (channel_points channels) ->
  new_fee_policy self channels channels_forwarding_stats = Ok (out, log) ->
  exists log',
    new_fee_policy self channels' channels_forwarding_stats = Ok (out, log').
Proof.
  intros Hperm Hnd Hrun.
  assert (NoDup (channel_points channels')) as Hnd'.
  { unfold channel_points. by rewrite <- Hperm. }
  destruct (loop_Ok_inv _ _ _ _ _ _ _ Hrun) as [Hd Hin].
  assert (exists out' log',
             new_fee_policy self channels' channels_forwarding_stats
             = Ok (out', log')) as (out' & log' & Hrun').
  { destruct Hd as [-> | Hd].
    - apply Permutation_nil_l in Hperm. subst channels'. by exists ∅, [].
    - apply loop_Ok; [exact Hd |]. intros i c Hic. apply (Hin i c).
      by rewrite Hperm. }
  exists log'. rewrite Hrun'. f_equal. f_equal.
  apply map_eq. intros cp.
  destruct (out !! cp) as [policy |] eqn:Hout.
  - apply (new_fee_policy_lookup_iff channels' out' log' cp policy Hnd' Hrun').
    apply (new_fee_policy_lookup_iff channels out log cp policy Hnd Hrun)
      in Hout as (i & c & line & Hic & Hcp & Hbody).
    exists i, c, line. split; [by rewrite <- Hperm | done].
  - destruct (out' !! cp) as [policy |] eqn:Hout'; [| reflexivity].
    apply (new_fee_policy_lookup_iff channels' out' log' cp policy Hnd' Hrun')
      in Hout' as (i & c & line & Hic & Hcp & Hbody).
    assert (out !! cp = Some policy) as Hsome; [| congruence].
    apply (new_fee_policy_lookup_iff channels out log cp policy Hnd Hrun).
    exists i, c, line. split; [by rewrite Hperm | done].
Qed.

End RunOrder.

(** ** [set_fees] *)

Local Ltac split_calls :=
  repeat match goal with
         | H : _ /\ _ |- _ => destruct H
         | H : _ \/ _ |- _ => destruct H
         | H : ex _ |- _ => destruct H
         | H : False |- _ => destruct H
         | H : Ok _ = Ok _ |- _ => injection H as ? ?; subst
         | H : Call.set_channel_fee_policies _
               = Call.set_channel_fee_policies _ |- _ =>
             injection H as ?; subst
         | H : _ = _ |- _ => discriminate H
         end.

Section SetFees.

Variable self : FeeSetter.t.
Variable args : Args.t.
Variable world : World.t.

(** The run of [new_fee_policy] inside [set_fees]. *)
Local Abbreviation run :=
  (new_fee_policy (configured self args) (World.get_all_channels world)
     (window_statistics args world)).

Lemma set_fees_calls :
  Outcome.calls (set_fees self args world)
  = [Call.initialize_forwarding_data
       (World.time world
        - inject_Z (Args.from_days_ago args * 24 * 60 * 60))
       (World.time world);
     Call.get_all_channels;
     Call.get_forwarding_statistics_channels]
    ++ match run with
       | Raise _ => []
       | Ok (policies, _) =>
           if Args.reckless args
           then [Call.set_channel_fee_policies policies]
           else if World.yes_no_question world
                then [Call.yes_no_question;
                      Call.set_channel_fee_policies policies]
                else [Call.yes_no_question]
       end.
Proof.
  unfold set_fees, window_statistics.
  destruct (new_fee_policy _ _ _) as [[policies log] | e]; [| reflexivity].
  destruct (Args.reckless args), (World.yes_no_question world); reflexivity.
Qed.

(** X24. [set_fees] writes to the node only what [new_fee_policy]
    returned, only when [reckless] is set or the user answered yes, and as
    its last call; after an exception it writes nothing.  It asks the user
    exactly when [reckless] is not set and [new_fee_policy] returned. *)
Theorem set_fees_writes_iff (policies : gmap string Policy.t) :
  (Call.set_channel_fee_policies policies
   ∈ Outcome.calls (set_fees self args world)
   <-> (exists log, run = Ok (policies, log))
       /\ (Args.reckless args = true \/ World.yes_no_question world = true))
  /\ (Call.set_channel_fee_policies policies
      ∈ Outcome.calls (set_fees self args world) ->
      last (Outcome.calls (set_fees self args world))
      = Some (Call.set_channel_fee_policies policies))
  /\ (Call.yes_no_question ∈ Outcome.calls (set_fees self args world)
      <-> (exists out log, run = Ok (out, log))
          /\ Args.reckless args = false).
Proof.
  rewrite set_fees_calls.
  destruct run as [[out log] | e];
    [destruct (Args.reckless args), (World.yes_no_question world) |];
    rewrite ?elem_of_app, ?elem_of_cons, ?elem_of_nil; simpl;
    (split; [split | split; [| split]]); intros; split_calls;
    eauto 10.
Qed.

(** The fee rate and the base fee of an entry of the dictionary. *)
Lemma new_fee_policy_entry (self' : FeeSetter.t)
    (channels : list (Z * Channel.t)) (stats : gmap Z Stats.t)
    (out : gmap string Policy.t) (log : list StatsLine.t)
    (channel_point : string) (policy : Policy.t) :
  new_fee_policy self' channels stats = Ok (out, log) ->
  out !! channel_point = Some policy ->
  exists fee_rate ub total_forwarding_out wc base_fee_msat factor_base_fee,
    policy
    = {| Policy.base_fee_msat :=
           base_fee_msat_new self' base_fee_msat factor_base_fee;
         Policy.fee_rate :=
           fee_rate_new self' fee_rate ub total_forwarding_out wc;
         Policy.cltv := cltv self' |}.
Proof.
  intros Hrun Hout.
  destruct (loop_lookup_inv _ _ _ _ _ _ _ _ _ Hrun Hout)
    as [Hacc | (i & c & line & Hin & Hcp & Hbody)].
  - by rewrite lookup_empty in Hacc.
  - apply new_fee_policy_channel_inv in Hbody
      as (current & _ & _ & -> & L).
    eexists _, _, _, _, _, _. unfold policy_of_line.
    by rewrite (line_fee_rate_new L), (line_base_fee_msat_new L).
Qed.

(** X25. Whatever [set_fees] writes to the node is within the bounds it
    was called with: every policy has the given [cltv]; if
    [min_base_fee_msat <= max_base_fee_msat], its base fee is at least
    [min_base_fee_msat]; if [min_fee_rate <= max_fee_rate / 2] and
    [max_fee_rate >= 0], its fee rate is in
    [[min_fee_rate, max_fee_rate]] or is 0 or [FEE_LOCK_RATE]. *)
Theorem set_fees_writes_within_bounds
    (policies : gmap string Policy.t)
    (channel_point : string) (policy : Policy.t) :
  Call.set_channel_fee_policies policies
  ∈ Outcome.calls (set_fees self args world) ->
  policies !! channel_point = Some policy ->
  Policy.cltv policy = Args.cltv args
  /\ ((Args.min_base_fee_msat args <= Args.max_base_fee_msat args)%Z ->
      (Args.min_base_fee_msat args <= Policy.base_fee_msat policy)%Z)
  /\ (Args.min_fee_rate args <= Args.max_fee_rate args / 2 ->
      0 <= Args.max_fee_rate args ->
      Args.min_fee_rate args <= Policy.fee_rate policy
      <= Args.max_fee_rate args
      \/ Policy.fee_rate policy == 0
      \/ Policy.fee_rate policy == FEE_LOCK_RATE).
Proof.
  intros Hcall Hout.
  assert (exists log, run = Ok (policies, log)) as [log Hrun].
  { rewrite set_fees_calls in Hcall.
    destruct run as [[out log] | e];
      [destruct (Args.reckless args), (World.yes_no_question world) |];
      rewrite ?elem_of_app, ?elem_of_cons, ?elem_of_nil in Hcall;
      split_calls; eauto. }
  destruct (new_fee_policy_entry _ _ _ _ _ _ _ Hrun Hout)
    as (fee & ub & tfo & wc & base & fb & ->).
  simpl. split; [reflexivity |]. split.
  - intros Hbase. unfold base_fee_msat_new. simpl.
    destruct (Args.init args).
    + destruct (Py.lt fb 1); [lia | exact Hbase].
    + apply int_max_at_least.
  - intros Hhalf Hmax.
    assert (Args.max_fee_rate args / 2 <= Args.max_fee_rate args) as Hle.
    { unfold Qdiv. change (/ 2) with (1 # 2). lra. }
    destruct (fee_rate_new_band (configured self args) fee ub tfo wc)
      as [H | H]; [simpl; lra | exact H |].
    left. rewrite H. simpl. lra.
Qed.

End SetFees.

(** ** The further properties at concrete runs *)

Local Ltac each_channel H :=
  unfold Modes.channels, Modes.channels' in H;
  rewrite ?elem_of_cons, ?elem_of_nil in H;
  repeat (destruct H as [H | H]); try (destruct H; fail);
  try (injection H as -> ->).

Lemma factor_unbalancedness_flow_monotone_sample :
  -0.7 <= 0.2
  /\ factor_unbalancedness (-0.7) <= factor_unbalancedness 0.2
  /\ factor_flow (-0.7) <= factor_flow 0.2.
Proof.
  split; [compute_Q |].
  apply (factor_unbalancedness_flow_monotone (-0.7) 0.2). compute_Q.
Defined.

Lemma factor_demand_monotone_sample :
  ((0 < time_interval_days Modes.self)%Z /\ 10000 <= 600000 /\ (2 <= 30)%Z)
  /\ (exists c c',
         factor_demand_fee_rate Modes.self 10000 = Ok c
         /\ factor_demand_fee_rate Modes.self 600000 = Ok c'
         /\ c <= c')
  /\ (exists c c',
         factor_demand_base_fee Modes.self 2 = Ok c
         /\ factor_demand_base_fee Modes.self 30 = Ok c'
         /\ c <= c').
Proof.
  split; [repeat split; compute_Q |].
  apply (factor_demand_monotone Modes.self 10000 600000 2 30); compute_Q.
Defined.

Lemma factor_demand_neutral_and_limit_sample :
  time_interval_days Modes.self <> 0%Z
  /\ exists c c',
       factor_demand_fee_rate Modes.self 500000 = Ok c
       /\ factor_demand_base_fee Modes.self 30 = Ok c'
       /\ c == 1 /\ c' == 2.
Proof.
  split; [compute_Q |].
  destruct (factor_demand_neutral_and_limit Modes.self 500000 30)
    as (c & c' & Hc & Hc' & [_ H1] & _ & _ & [_ H2]); [compute_Q |].
  exists c, c'. repeat split; try assumption.
  - apply H1. compute_Q.
  - apply H2. compute_Q.
Defined.

Lemma weighted_change_range_sample :
  ((0 < time_interval_days Modes.self)%Z
   /\ channel_fee_policies Modes.self
        !! Channel.channel_point Modes.rebalanced = Some Modes.open
   /\ 0 <= Stats.total_forwarding_in
             (Spec.ingest Modes.channels_forwarding_stats 2)
   /\ 0 <= Stats.total_forwarding_out
             (Spec.ingest Modes.channels_forwarding_stats 2))
  /\ exists policy line,
       new_fee_policy_channel Modes.self Modes.channels_forwarding_stats
         2 Modes.rebalanced
       = Ok (policy, line)
       /\ 71 # 116 <= StatsLine.weighted_change line <= 50 # 29.
Proof.
  split; [repeat split; compute_Q |].
  apply (weighted_change_range Modes.self Modes.channels_forwarding_stats
           2 Modes.rebalanced Modes.open); compute_Q.
Defined.

Lemma open_mode_entered_sample :
  (init Modes.self = false
   /\ time_interval_days Modes.self <> 0%Z
   /\ channel_fee_policies Modes.self
        !! Channel.channel_point Modes.depleted = Some Modes.low
   /\ Policy.fee_rate Modes.low <= min_fee_rate Modes.self
   /\ ~ Policy.fee_rate Modes.low == FEE_LOCK_RATE
   /\ Channel.unbalancedness Modes.depleted < -0.5
   /\ Stats.total_forwarding_out
        (Spec.ingest Modes.channels_forwarding_stats 1) == 0)
  /\ exists policy line,
       new_fee_policy_channel Modes.self Modes.channels_forwarding_stats
         1 Modes.depleted
       = Ok (policy, line)
       /\ Policy.fee_rate policy = 0.
Proof.
  split; [repeat split; compute_Q |].
  apply (open_mode_entered Modes.self Modes.channels_forwarding_stats
           1 Modes.depleted Modes.low); compute_Q.
Defined.

Lemma open_mode_left_sample :
  (init Modes.self = false
   /\ time_interval_days Modes.self <> 0%Z
   /\ channel_fee_policies Modes.self
        !! Channel.channel_point Modes.rebalanced = Some Modes.open
   /\ Policy.fee_rate Modes.open == 0
   /\ 0 < Stats.total_forwarding_out
            (Spec.ingest Modes.channels_forwarding_stats 2)
   /\ -0.5 < Channel.unbalancedness Modes.rebalanced)
  /\ exists policy line,
       new_fee_policy_channel Modes.self Modes.channels_forwarding_stats
         2 Modes.rebalanced
       = Ok (policy, line)
       /\ Policy.fee_rate policy = min_fee_rate Modes.self.
Proof.
  split; [repeat split; compute_Q |].
  apply (open_mode_left Modes.self Modes.channels_forwarding_stats
           2 Modes.rebalanced Modes.open); compute_Q.
Defined.

Lemma locked_mode_left_sample :
  (init Modes.self = false
   /\ time_interval_days Modes.self <> 0%Z
   /\ channel_fee_policies Modes.self
        !! Channel.channel_point Modes.released = Some Modes.locked
   /\ Policy.fee_rate Modes.locked == FEE_LOCK_RATE
   /\ Channel.unbalancedness Modes.released < 0.95)
  /\ exists policy line,
       new_fee_policy_channel Modes.self Modes.channels_forwarding_stats
         3 Modes.released
       = Ok (policy, line)
       /\ Policy.fee_rate policy = max_fee_rate Modes.self / 2.
Proof.
  split; [repeat split; compute_Q |].
  apply (locked_mode_left Modes.self Modes.channels_forwarding_stats
           3 Modes.released Modes.locked); compute_Q.
Defined.

Lemma fee_rate_millionths_sample :
  (init Modes.self = false
   /\ time_interval_days Modes.self <> 0%Z
   /\ channel_fee_policies Modes.self
        !! Channel.channel_point Modes.depleted = Some Modes.low)
  /\ exists policy line,
       new_fee_policy_channel Modes.self Modes.channels_forwarding_stats
         1 Modes.depleted
       = Ok (policy, line)
       /\ (Policy.fee_rate policy = min_fee_rate Modes.self
           \/ Policy.fee_rate policy = max_fee_rate Modes.self
           \/ Policy.fee_rate policy = max_fee_rate Modes.self / 2
           \/ exists n : Z, Policy.fee_rate policy == inject_Z n / 1000000).
Proof.
  split; [repeat split; compute_Q |].
  apply (fee_rate_millionths Modes.self Modes.channels_forwarding_stats
           1 Modes.depleted Modes.low); compute_Q.
Defined.

Lemma base_fee_step_sample :
  (init Modes.self = false
   /\ (0 < time_interval_days Modes.self)%Z
   /\ channel_fee_policies Modes.self
        !! Channel.channel_point Modes.rebalanced = Some Modes.open
   /\ (0 <= Policy.base_fee_msat Modes.open)%Z
   /\ (0 <= Stats.number_forwardings_out
              (Spec.ingest Modes.channels_forwarding_stats 2))%Z)
  /\ exists policy line,
       new_fee_policy_channel Modes.self Modes.channels_forwarding_stats
         2 Modes.rebalanced
       = Ok (policy, line)
       /\ (min_base_fee_msat Modes.self <= Policy.base_fee_msat policy)%Z
       /\ (3 * Policy.base_fee_msat Modes.open / 4
           <= Policy.base_fee_msat policy)%Z
       /\ (Policy.base_fee_msat policy
           <= Z.max (min_base_fee_msat Modes.self)
                (2 * Policy.base_fee_msat Modes.open))%Z.
Proof.
  split; [repeat split; compute_Q |].
  apply (base_fee_step Modes.self Modes.channels_forwarding_stats
           2 Modes.rebalanced Modes.open); compute_Q.
Defined.

Lemma base_fee_doubles_sample :
  (init Modes.self = false
   /\ (0 < time_interval_days Modes.self)%Z
   /\ channel_fee_policies Modes.self
        !! Channel.channel_point Modes.rebalanced = Some Modes.open
   /\ (25 * time_interval_days Modes.self
       <= 7 * Stats.number_forwardings_out
                (Spec.ingest Modes.channels_forwarding_stats' 99))%Z)
  /\ exists policy line,
       new_fee_policy_channel Modes.self Modes.channels_forwarding_stats'
         99 Modes.rebalanced
       = Ok (policy, line)
       /\ Policy.base_fee_msat policy
          = Z.max (min_base_fee_msat Modes.self)
              (2 * Policy.base_fee_msat Modes.open).
Proof.
  split; [repeat split; compute_Q |].
  apply (base_fee_doubles Modes.self Modes.channels_forwarding_stats'
           99 Modes.rebalanced Modes.open); compute_Q.
Defined.

Lemma new_fee_policy_KeyError_sample :
  (time_interval_days Modes.self <> 0%Z
   /\ (forall i c, (i, c) ∈ [(1%Z, Modes.depleted)] ->
                   is_Some (channel_fee_policies Modes.self
                              !! Channel.channel_point c))
   /\ channel_fee_policies Modes.self !! Channel.channel_point Modes.unknown
      = None)
  /\ new_fee_policy Modes.self
       ([(1%Z, Modes.depleted)] ++ (7%Z, Modes.unknown)
                                :: [(3%Z, Modes.released)])
       Modes.channels_forwarding_stats
     = Raise (KeyError "unknown:0").
Proof.
  assert (forall i c, (i, c) ∈ [(1%Z, Modes.depleted)] ->
                      is_Some (channel_fee_policies Modes.self
                                 !! Channel.channel_point c)) as Hpre.
  { intros i c H. each_channel H. by eexists. }
  split; [repeat split; try assumption; compute_Q |].
  apply (new_fee_policy_KeyError Modes.self Modes.channels_forwarding_stats
           [(1%Z, Modes.depleted)] [(3%Z, Modes.released)] 7 Modes.unknown);
    try assumption; compute_Q.
Defined.

Lemma new_fee_policy_zero_window_sample :
  time_interval_days Modes.self_zero_window = 0%Z
  /\ new_fee_policy Modes.self_zero_window
       ((1%Z, Modes.depleted) :: [(7%Z, Modes.unknown)])
       Modes.channels_forwarding_stats
     = Raise ZeroDivisionError.
Proof.
  split; [reflexivity |].
  exact (new_fee_policy_zero_window Modes.self_zero_window
           Modes.channels_forwarding_stats 1 Modes.depleted
           [(7%Z, Modes.unknown)] eq_refl).
Defined.

Lemma new_fee_policy_last_write_wins_sample :
  (new_fee_policy Modes.self
     ([(1%Z, Modes.depleted)] ++ (2%Z, Modes.rebalanced)
                              :: [(3%Z, Modes.released)])
     Modes.channels_forwarding_stats
   = Ok (Modes.run.1, Modes.run.2)
   /\ Channel.channel_point Modes.rebalanced
      ∉ channel_points [(3%Z, Modes.released)])
  /\ exists policy line,
       new_fee_policy_channel Modes.self Modes.channels_forwarding_stats
         2 Modes.rebalanced
       = Ok (policy, line)
       /\ Modes.run.1 !! Channel.channel_point Modes.rebalanced = Some policy.
Proof.
  assert (Channel.channel_point Modes.rebalanced
          ∉ channel_points [(3%Z, Modes.released)]) as Hlast.
  { intros H. unfold channel_points in H. simpl in H.
    rewrite elem_of_cons, elem_of_nil in H. destruct H as [H | []].
    discriminate H. }
  split; [split; [compute_Q | exact Hlast] |].
  apply (new_fee_policy_last_write_wins Modes.self
           Modes.channels_forwarding_stats
           [(1%Z, Modes.depleted)] [(3%Z, Modes.released)]
           2 Modes.rebalanced Modes.run.1 Modes.run.2);
    [compute_Q | exact Hlast].
Defined.

Lemma new_fee_policy_size_sample :
  new_fee_policy Modes.self Modes.channels Modes.channels_forwarding_stats
  = Ok (Modes.run.1, Modes.run.2)
  /\ (forall channel_point : string,
         is_Some (Modes.run.1 !! channel_point)
         <-> channel_point ∈ channel_points Modes.channels)
  /\ size Modes.run.1 = length (remove_dups (channel_points Modes.channels))
  /\ (size Modes.run.1 <= length Modes.channels)%nat.
Proof.
  split; [compute_Q |].
  apply (new_fee_policy_size Modes.self Modes.channels_forwarding_stats
           Modes.channels Modes.run.1 Modes.run.2). compute_Q.
Defined.

Lemma new_fee_policy_log_sample :
  new_fee_policy Modes.self Modes.channels Modes.channels_forwarding_stats
  = Ok (Modes.run.1, Modes.run.2)
  /\ length Modes.run.2 = length Modes.channels
  /\ StatsLine.channel_id <$> Modes.run.2 = fst <$> Modes.channels.
Proof.
  split; [compute_Q |].
  destruct (new_fee_policy_log Modes.self Modes.channels_forwarding_stats
              Modes.channels Modes.run.1 Modes.run.2) as (Hlen & Hids & _);
    [compute_Q |].
  by split.
Defined.

Lemma new_fee_policy_frame_sample :
  (forall channel_id channel_data,
      (channel_id, channel_data) ∈ Modes.channels ->
      Modes.channels_forwarding_stats' !! channel_id
      = Modes.channels_forwarding_stats !! channel_id
      /\ Modes.channel_fee_policies' !! Channel.channel_point channel_data
         = channel_fee_policies Modes.self
             !! Channel.channel_point channel_data)
  /\ new_fee_policy
       (with_channel_fee_policies Modes.self Modes.channel_fee_policies')
       Modes.channels Modes.channels_forwarding_stats'
     = new_fee_policy Modes.self Modes.channels
         Modes.channels_forwarding_stats.
Proof.
  assert (forall channel_id channel_data,
             (channel_id, channel_data) ∈ Modes.channels ->
             Modes.channels_forwarding_stats' !! channel_id
             = Modes.channels_forwarding_stats !! channel_id
             /\ Modes.channel_fee_policies'
                  !! Channel.channel_point channel_data
                = channel_fee_policies Modes.self
                    !! Channel.channel_point channel_data) as H.
  { intros i c H. each_channel H; split; compute_Q. }
  split; [exact H |].
  exact (new_fee_policy_frame Modes.self Modes.channel_fee_policies'
           Modes.channels_forwarding_stats Modes.channels_forwarding_stats'
           Modes.channels H).
Defined.

Lemma new_fee_policy_missing_stats_are_zero_sample :
  Modes.channels_forwarding_stats !! 1%Z = None
  /\ fst <$> new_fee_policy Modes.self Modes.channels
               (<[1%Z := Spec.no_activity]> Modes.channels_forwarding_stats)
     = fst <$> new_fee_policy Modes.self Modes.channels
                 Modes.channels_forwarding_stats.
Proof.
  split; [reflexivity |].
  exact (new_fee_policy_missing_stats_are_zero Modes.self
           Modes.channels_forwarding_stats 1 Modes.channels eq_refl).
Defined.

Lemma new_fee_policy_init_ignores_current_values_sample :
  (init Modes.self_init = true
   /\ forall channel_id channel_data,
        (channel_id, channel_data) ∈ Modes.channels ->
        is_Some (Modes.channel_fee_policies''
                   !! Channel.channel_point channel_data)
        <-> is_Some (channel_fee_policies Modes.self_init
                       !! Channel.channel_point channel_data))
  /\ fst <$> new_fee_policy
               (with_channel_fee_policies Modes.self_init
                  Modes.channel_fee_policies'')
               Modes.channels Modes.channels_forwarding_stats
     = fst <$> new_fee_policy Modes.self_init Modes.channels
                 Modes.channels_forwarding_stats.
Proof.
  assert (forall channel_id channel_data,
             (channel_id, channel_data) ∈ Modes.channels ->
             is_Some (Modes.channel_fee_policies''
                        !! Channel.channel_point channel_data)
             <-> is_Some (channel_fee_policies Modes.self_init
                            !! Channel.channel_point channel_data)) as H.
  { intros i c H. each_channel H; split; intros _; by eexists. }
  split; [by split |].
  exact (new_fee_policy_init_ignores_current_values Modes.self_init
           Modes.channel_fee_policies'' Modes.channels_forwarding_stats
           Modes.channels eq_refl H).
Defined.

Lemma new_fee_policy_ignores_max_base_fee_sample :
  init Modes.self = false
  /\ new_fee_policy (with_max_base_fee_msat Modes.self 100000)
       Modes.channels Modes.channels_forwarding_stats
     = new_fee_policy Modes.self Modes.channels
         Modes.channels_forwarding_stats.
Proof.
  split; [reflexivity |].
  exact (new_fee_policy_ignores_max_base_fee Modes.self 100000
           Modes.channels_forwarding_stats Modes.channels eq_refl).
Defined.

Lemma new_fee_policy_order_insensitive_sample :
  (Modes.channels ≡ₚ Modes.channels'
   /\ NoDup (channel_points Modes.channels)
   /\ new_fee_policy Modes.self Modes.channels
        Modes.channels_forwarding_stats
      = Ok (Modes.run.1, Modes.run.2))
  /\ exists log',
       new_fee_policy Modes.self Modes.channels'
         Modes.channels_forwarding_stats
       = Ok (Modes.run.1, log').
Proof.
  assert (Modes.channels ≡ₚ Modes.channels') as Hperm.
  { unfold Modes.channels, Modes.channels'.
    etrans; [| apply Permutation_swap]. apply Permutation_skip.
    apply Permutation_swap. }
  assert (NoDup (channel_points Modes.channels)) as Hnd.
  { apply (bool_decide_unpack (NoDup (channel_points Modes.channels))).
    vm_compute. exact I. }
  split; [repeat split; try assumption; compute_Q |].
  apply (new_fee_policy_order_insensitive Modes.self
           Modes.channels_forwarding_stats Modes.channels Modes.channels'
           Modes.run.1 Modes.run.2 Hperm Hnd). compute_Q.
Defined.

Lemma set_fees_writes_within_bounds_sample :
  (Call.set_channel_fee_policies Modes.run.1
   ∈ Outcome.calls (set_fees Modes.self Args.default Session.world)
   /\ Modes.run.1 !! "low:0"%string
      = Some {| Policy.base_fee_msat := 750; Policy.fee_rate := 0;
                Policy.cltv := 14 |})
  /\ Policy.cltv {| Policy.base_fee_msat := 750; Policy.fee_rate := 0;
                    Policy.cltv := 14 |}
     = Args.cltv Args.default.
Proof.
  assert (Call.set_channel_fee_policies Modes.run.1
          ∈ Outcome.calls (set_fees Modes.self Args.default Session.world))
    as Hcall.
  { apply list_elem_of_lookup. exists 4%nat. compute_Q. }
  split; [split; [exact Hcall | compute_Q] |].
  destruct (set_fees_writes_within_bounds Modes.self Args.default
              Session.world Modes.run.1 "low:0"%string
              {| Policy.base_fee_msat := 750; Policy.fee_rate := 0;
                 Policy.cltv := 14 |} Hcall) as [H _]; [compute_Q |].
  exact H.
Defined.

(** * The rounded fee rate and the truncated base fee, over binary64 *)

Local Open Scope float_scope.

(** ** The order of the floats *)

Section FloatOrder.

Lemma SFcompare_antisym (x y : spec_float) :
  SFcompare y x = CompOpp <$> SFcompare x y.
Proof.
  destruct x as [[] | [] | | [] m1 e1], y as [[] | [] | | [] m2 e2];
    try reflexivity; simpl;
    rewrite (Z.compare_antisym e1 e2); destruct (e1 ?= e2)%Z;
    try reflexivity; simpl;
    change (Pos.compare_cont Eq m2 m1) with (m2 ?= m1)%positive;
    change (Pos.compare_cont Eq m1 m2) with (m1 ?= m2)%positive;
    rewrite (Pos.compare_antisym m1 m2);
    destruct (m1 ?= m2)%positive; reflexivity.
Qed.

Lemma SFcompare_refl (x y : spec_float) :
  SFcompare x y <> None -> SFcompare x x = Some Eq.
Proof.
  destruct x as [[] | [] | | [] m e], y as [? | ? | | ? ? ?];
    intros H; simpl in *; try reflexivity; try congruence;
    rewrite Z.compare_refl;
    change (Pos.compare_cont Eq m m) with (m ?= m)%positive;
    rewrite Pos.compare_refl; reflexivity.
Qed.

(** [a < b] gives [a <= b]. *)
Lemma Float_lt_le (a b : float) :
  Binary64.Float.lt a b = true -> Binary64.Float.le a b = true.
Proof.
  unfold Binary64.Float.lt, Binary64.Float.le.
  rewrite ltb_spec, leb_spec. unfold SFltb, SFleb.
  by destruct (SFcompare (Prim2SF a) (Prim2SF b)) as [[] |].
Qed.

(** Only a number, not a NaN, compares, and a number is at most
    itself. *)
Lemma Float_lt_le_refl (a b : float) :
  Binary64.Float.lt a b = true ->
  Binary64.Float.le a a = true /\ Binary64.Float.le b b = true.
Proof.
  unfold Binary64.Float.lt, Binary64.Float.le.
  rewrite ltb_spec, !leb_spec. unfold SFltb, SFleb. intros H.
  assert (SFcompare (Prim2SF a) (Prim2SF b) <> None) as Hab
    by (intros E; by rewrite E in H).
  assert (SFcompare (Prim2SF b) (Prim2SF a) <> None) as Hba.
  { rewrite SFcompare_antisym.
    by destruct (SFcompare (Prim2SF a) (Prim2SF b)). }
  by rewrite (SFcompare_refl _ _ Hab), (SFcompare_refl _ _ Hba).
Qed.

Lemma Float_le_le_refl (a b : float) :
  Binary64.Float.le a b = true ->
  Binary64.Float.le a a = true /\ Binary64.Float.le b b = true.
Proof.
  unfold Binary64.Float.le.
  rewrite !leb_spec. unfold SFleb. intros H.
  assert (SFcompare (Prim2SF a) (Prim2SF b) <> None) as Hab
    by (intros E; by rewrite E in H).
  assert (SFcompare (Prim2SF b) (Prim2SF a) <> None) as Hba.
  { rewrite SFcompare_antisym.
    by destruct (SFcompare (Prim2SF a) (Prim2SF b)). }
  by rewrite (SFcompare_refl _ _ Hab), (SFcompare_refl _ _ Hba).
Qed.

(** Two numbers are comparable. *)
Lemma SFcompare_numbers (x y : spec_float) :
  SFcompare x x = Some Eq -> SFcompare y y = Some Eq ->
  SFcompare x y <> None.
Proof.
  by destruct x as [[] | [] | | [] m1 e1], y as [[] | [] | | [] m2 e2].
Qed.

(** The order of the numbers is total. *)
Lemma Float_not_lt_le (a b : float) :
  Binary64.Float.le a a = true -> Binary64.Float.le b b = true ->
  Binary64.Float.lt b a = false -> Binary64.Float.le a b = true.
Proof.
  unfold Binary64.Float.lt, Binary64.Float.le.
  rewrite ltb_spec, !leb_spec. unfold SFltb, SFleb. intros Ha Hb.
  assert (SFcompare (Prim2SF a) (Prim2SF a) = Some Eq) as Ha'.
  { apply (SFcompare_refl _ (Prim2SF a)). intros E. by rewrite E in Ha. }
  assert (SFcompare (Prim2SF b) (Prim2SF b) = Some Eq) as Hb'.
  { apply (SFcompare_refl _ (Prim2SF b)). intros E. by rewrite E in Hb. }
  pose proof (SFcompare_numbers _ _ Ha' Hb') as Hab.
  rewrite (SFcompare_antisym (Prim2SF a) (Prim2SF b)).
  by destruct (SFcompare (Prim2SF a) (Prim2SF b)) as [[] |].
Qed.

Lemma Float_not_le_lt (a b : float) :
  Binary64.Float.le a a = true -> Binary64.Float.le b b = true ->
  Binary64.Float.le b a = false -> Binary64.Float.lt a b = true.
Proof.
  unfold Binary64.Float.lt, Binary64.Float.le.
  rewrite ltb_spec, !leb_spec. unfold SFltb, SFleb. intros Ha Hb.
  assert (SFcompare (Prim2SF a) (Prim2SF a) = Some Eq) as Ha'.
  { apply (SFcompare_refl _ (Prim2SF a)). intros E. by rewrite E in Ha. }
  assert (SFcompare (Prim2SF b) (Prim2SF b) = Some Eq) as Hb'.
  { apply (SFcompare_refl _ (Prim2SF b)). intros E. by rewrite E in Hb. }
  pose proof (SFcompare_numbers _ _ Ha' Hb') as Hab.
  rewrite (SFcompare_antisym (Prim2SF a) (Prim2SF b)).
  by destruct (SFcompare (Prim2SF a) (Prim2SF b)) as [[] |].
Qed.

(** The order is antisymmetric. *)
Lemma Float_le_not_lt (a b : float) :
  Binary64.Float.le a b = true -> Binary64.Float.lt b a = false.
Proof.
  unfold Binary64.Float.lt, Binary64.Float.le.
  rewrite ltb_spec, leb_spec. unfold SFltb, SFleb.
  rewrite (SFcompare_antisym (Prim2SF a) (Prim2SF b)).
  by destruct (SFcompare (Prim2SF a) (Prim2SF b)) as [[] |].
Qed.

(** [min(max(lo, x), hi)] is the clamp of a number [x] to a band
    [lo <= hi]. *)
Lemma Float_min_max_clamp (lo hi x : float) :
  Binary64.Float.le lo hi = true ->
  Binary64.Float.le x x = true ->
  Binary64.Float.min (Binary64.Float.max lo x) hi
  = Binary64.Spec.clamp lo hi x.
Proof.
  intros Hband Hx. destruct (Float_le_le_refl _ _ Hband) as [Hlo Hhi].
  unfold Binary64.Float.min, Binary64.Float.max, Binary64.Float.gt,
    Binary64.Spec.clamp.
  destruct (Binary64.Float.le x lo) eqn:H1.
  - rewrite (Float_le_not_lt _ _ H1). by rewrite (Float_le_not_lt _ _ Hband).
  - by rewrite (Float_not_le_lt _ _ Hlo Hx H1).
Qed.

(** [min(max(lo, x), hi)] lies in the band [lo <= hi], whatever [x]
    is. *)
Lemma Float_min_max_band (lo hi x : float) :
  Binary64.Float.le lo hi = true ->
  let r := Binary64.Float.min (Binary64.Float.max lo x) hi in
  Binary64.Float.le lo r = true /\ Binary64.Float.le r hi = true.
Proof.
  intros Hband. destruct (Float_le_le_refl _ _ Hband) as [Hlo Hhi].
  unfold Binary64.Float.min, Binary64.Float.max, Binary64.Float.gt. simpl.
  destruct (Binary64.Float.lt lo x) eqn:H1.
  - destruct (Float_lt_le_refl _ _ H1) as [_ Hx].
    destruct (Binary64.Float.lt hi x) eqn:H2; [by split |].
    split; [by apply Float_lt_le | by apply Float_not_lt_le].
  - by destruct (Binary64.Float.lt hi lo).
Qed.

End FloatOrder.

(** ** Rounding to 6 decimal places *)

Section FloatRounding.

Lemma Py_round_half_even_tie (q : Q) :
  Qabs (inject_Z (Py.round_half_even q) - q) == 1 # 2 ->
  Z.even (Py.round_half_even q) = true.
Proof.
  unfold Py.round_half_even.
  pose proof (Qfloor_le q) as Hlo. pose proof (Qlt_floor q) as Hhi.
  rewrite inject_Z_plus in Hhi.
  assert (inject_Z 1 == 1) as E1 by reflexivity.
  destruct (Qcompare_spec (q - inject_Z (Qfloor q)) (1 # 2)) as [H | H | H].
  - intros _. destruct (Z.even (Qfloor q)) eqn:He; [exact He |].
    rewrite Z.add_1_r, Z.even_succ, <- Z.negb_even, He. reflexivity.
  - intros E. rewrite Qabs_neg in E by lra. lra.
  - rewrite inject_Z_plus. intros E. rewrite Qabs_pos in E by lra. lra.
Qed.

Lemma Py_round_half_even_nonneg (q : Q) :
  0 <= q -> (0 <= Py.round_half_even q)%Z.
Proof.
  intros Hq. unfold Py.round_half_even.
  assert (0 <= Qfloor q)%Z as Hf.
  { apply Qfloor_resp_le in Hq. exact Hq. }
  destruct (Qcompare _ _); [destruct (Z.even _) | |]; lia.
Qed.

(** [round(x, 6)] is [x] rounded to 6 decimal places. *)
Lemma Float_round_6_rounded (x : float) :
  Binary64.Spec.rounded_6 x (Binary64.Float.round_6 x).
Proof.
  unfold Binary64.Spec.rounded_6, Binary64.Float.round_6.
  destruct (Binary64.Float.is_finite x); [| reflexivity].
  exists (Py.round_half_even (Qabs (Binary64.Float.to_Q x) * 1000000)).
  split; [| split].
  - apply Py_round_half_even_nonneg.
    pose proof (Qabs_nonneg (Binary64.Float.to_Q x)). nra.
  - split; [apply Py_round_half_even_near | apply Py_round_half_even_tie].
  - reflexivity.
Qed.

End FloatRounding.

(** ** One channel *)

Section FloatChannel.

Import Binary64.
Import Binary64.FeeSetter.

Variable self : FeeSetter.t.
Variable channels_forwarding_stats : gmap Z Stats.t.
Variable channel_id : Z.
Variable channel_data : Channel.t.

Let s := Spec.ingest channels_forwarding_stats channel_id.
Let ub := Channel.unbalancedness channel_data.
Let out := Stats.total_forwarding_out s.

(** What a returning body has computed. *)
Lemma new_fee_policy_channel_binary64_inv
    (policy : Policy.t) (line : StatsLine.t) :
  new_fee_policy_channel self channels_forwarding_stats
    channel_id channel_data
  = Ok (policy, line) ->
  exists current,
    channel_fee_policies self !! Channel.channel_point channel_data
    = Some current
    /\ factor_demand_fee_rate self out = Ok (StatsLine.factor_demand line)
    /\ StatsLine.weighted_change line
       = weighted_change (StatsLine.factor_demand line)
           (factor_unbalancedness ub)
           (factor_flow (Stats.flow_direction s))
           (Stats.total_forwarding_in s + out)%float
    /\ factor_demand_base_fee self (Stats.number_forwardings_out s)
       = Ok (StatsLine.factor_base_fee line)
    /\ Policy.fee_rate policy
       = fee_rate_new self (Policy.fee_rate current) ub out
           (StatsLine.weighted_change line)
    /\ base_fee_msat_new self (Policy.base_fee_msat current)
         (StatsLine.factor_base_fee line)
       = Ok (Policy.base_fee_msat policy).
Proof.
  unfold new_fee_policy_channel, out, ub, s, Spec.ingest.
  destruct (channels_forwarding_stats !! channel_id) as [st |]; simpl;
    (destruct (channel_fee_policies self !! _) as [current |];
       [| discriminate]);
    (destruct (factor_demand_fee_rate self _) as [fd |] eqn:Hfd;
       [| discriminate]); simpl;
    (destruct (factor_demand_base_fee self _) as [fb |] eqn:Hfb;
       [| discriminate]); simpl;
    (destruct (base_fee_msat_new self _ fb) as [b |] eqn:Hb;
       [| discriminate]); simpl;
    intros [= <- <-]; exists current; simpl; by repeat split.
Qed.

(** The fee rate of a run after the first, when no mode rule fires. *)
Lemma fee_rate_new_binary64_no_rule (fee_rate weighted_change : float) :
  init self = false ->
  Spec.enter_open_mode (min_fee_rate self) fee_rate ub out = false ->
  Spec.leave_open_mode fee_rate ub out = false ->
  Spec.enter_locked_mode ub out = false ->
  Spec.leave_locked_mode fee_rate ub = false ->
  fee_rate_new self fee_rate ub out weighted_change
  = Float.min
      (Float.max (min_fee_rate self)
         (Float.round_6 (fee_rate * weighted_change)%float))
      (max_fee_rate self).
Proof.
  unfold Spec.enter_open_mode, Spec.leave_open_mode, Spec.enter_locked_mode,
    Spec.leave_locked_mode, fee_rate_new, Float.gt.
  intros -> -> -> -> ->. reflexivity.
Qed.

(** [int(max(m, x))] for an [int] [m >= 0] and a float [x]. *)
Lemma Float_int_max (m b : Z) (x : float) :
  (if Float.gt_int x m then Float.int x else Ok m) = Ok b ->
  (0 <= m)%Z ->
  (m <= b)%Z
  /\ (Float.is_finite x = true -> b = Z.max m (Spec.round_down x))
  /\ (Float.is_finite x = false -> b = m).
Proof.
  intros H Hm.
  assert (forall q : Q,
             (if Py.lt (inject_Z m) q then Ok (Py.int q) else Ok m) = Ok b ->
             b = Z.max m (Qfloor q)) as Hq.
  { intros q E. rewrite <- int_max_floor by exact Hm.
    unfold Py.max, Py.gt.
    destruct (Py.lt (inject_Z m) q); injection E as <-;
      [reflexivity | by rewrite Py_int_Z]. }
  revert H.
  unfold Float.gt_int, Float.int, Float.is_finite, Spec.round_down.
  destruct (Prim2SF x) as [sg | [] | | sg mx ex]; simpl; intros H.
  - apply Hq in H. split; [lia | by split].
  - injection H as <-. split; [lia | by split].
  - discriminate.
  - injection H as <-. split; [lia | by split].
  - apply Hq in H. split; [lia | by split].
Qed.

(** C2. In a run with [init = False], for every channel for which no
    threshold-mode rule fires, the new fee rate is the current fee rate
    times the weighted change (the float product), rounded to 6 decimal
    places, then clamped: it is [min(max(min_fee_rate, r), max_fee_rate)]
    for the rounded product [r].  Whenever
    [min_fee_rate <= max_fee_rate], that is the clamp of [r] to the band
    (when [r] is a number), and the new fee rate lies in
    [[min_fee_rate, max_fee_rate]]. *)
Theorem steady_state_fee_rate
    (current policy : Policy.t) (line : StatsLine.t) :
  init self = false ->
  channel_fee_policies self !! Channel.channel_point channel_data
  = Some current ->
  new_fee_policy_channel self channels_forwarding_stats
    channel_id channel_data
  = Ok (policy, line) ->
  Spec.enter_open_mode (min_fee_rate self) (Policy.fee_rate current) ub out
  = false ->
  Spec.leave_open_mode (Policy.fee_rate current) ub out = false ->
  Spec.enter_locked_mode ub out = false ->
  Spec.leave_locked_mode (Policy.fee_rate current) ub = false ->
  let product :=
    (Policy.fee_rate current * StatsLine.weighted_change line)%float in
  let rounded := Float.round_6 product in
  Spec.rounded_6 product rounded
  /\ Policy.fee_rate policy
     = Float.min (Float.max (min_fee_rate self) rounded) (max_fee_rate self)
  /\ (Float.le (min_fee_rate self) (max_fee_rate self) = true ->
      (Float.le rounded rounded = true ->
       Policy.fee_rate policy
       = Spec.clamp (min_fee_rate self) (max_fee_rate self) rounded)
      /\ Float.le (min_fee_rate self) (Policy.fee_rate policy) = true
      /\ Float.le (Policy.fee_rate policy) (max_fee_rate self) = true).
Proof.
  intros Hi Hcur Hbody H1 H2 H3 H4 product rounded.
  destruct (new_fee_policy_channel_binary64_inv _ _ Hbody)
    as (current' & Hcur' & _ & _ & _ & Hfee & _).
  rewrite Hcur in Hcur'. injection Hcur' as <-.
  rewrite fee_rate_new_binary64_no_rule in Hfee by assumption.
  fold product in Hfee. fold rounded in Hfee.
  split; [apply Float_round_6_rounded |].
  split; [exact Hfee |].
  intros Hband. rewrite Hfee. split.
  - intros Hr. by apply Float_min_max_clamp.
  - by apply Float_min_max_band.
Qed.

(** C5. In a run with [init = False], for every channel and every
    [min_base_fee >= 0], the new base fee is
    [max(min_base_fee, round_down(current_base_fee * factor_base_fee))]
    for the float product, hence at least [min_base_fee] (and it is
    [min_base_fee] should the product not be a finite number); in a run
    with [init = True] it is [min_base_fee] when [factor_base_fee < 1] and
    [max_base_fee] otherwise. *)
Theorem base_fee_decision
    (current policy : Policy.t) (line : StatsLine.t) :
  channel_fee_policies self !! Channel.channel_point channel_data
  = Some current ->
  new_fee_policy_channel self channels_forwarding_stats
    channel_id channel_data
  = Ok (policy, line) ->
  let factor_base_fee := StatsLine.factor_base_fee line in
  let product :=
    (Float.of_Z (Policy.base_fee_msat current) * factor_base_fee)%float in
  factor_demand_base_fee self (Stats.number_forwardings_out s)
  = Ok factor_base_fee
  /\ (init self = false -> (0 <= min_base_fee_msat self)%Z ->
      (Float.is_finite product = true ->
       Policy.base_fee_msat policy
       = Z.max (min_base_fee_msat self) (Spec.round_down product))
      /\ (Float.is_finite product = false ->
          Policy.base_fee_msat policy = min_base_fee_msat self)
      /\ (min_base_fee_msat self <= Policy.base_fee_msat policy)%Z)
  /\ (init self = true ->
      Policy.base_fee_msat policy
      = if Float.lt factor_base_fee 1 then min_base_fee_msat self
        else max_base_fee_msat self).
Proof.
  intros Hcur Hbody factor_base_fee product.
  destruct (new_fee_policy_channel_binary64_inv _ _ Hbody)
    as (current' & Hcur' & _ & _ & Hfb & _ & Hbase).
  rewrite Hcur in Hcur'. injection Hcur' as <-.
  split; [exact Hfb |].
  fold factor_base_fee in Hbase. revert Hbase.
  unfold base_fee_msat_new, Float.of_int.
  destruct (Float.is_finite (Float.of_Z (Policy.base_fee_msat current)));
    [| discriminate].
  simpl. fold product. intros Hbase. split.
  - intros Hi Hm. rewrite Hi in Hbase.
    destruct (Float_int_max _ _ _ Hbase Hm) as (Hle & Hfin & Hnot).
    by repeat split.
  - intros Hi. rewrite Hi in Hbase. by injection Hbase as <-.
Qed.

End FloatChannel.

(** ** The theorems at the run where the rounding decides *)

Local Ltac compute_float := vm_compute; first [reflexivity | discriminate].

(** The float product [0.000006 * 0.7500000000000001] is above the middle
    of 4 and 5 millionths, which the exact product [0.000006 * 0.75] would
    hit: the fee rate written is [0.000005]. *)
Lemma steady_state_fee_rate_sample :
  (Binary64.FeeSetter.init Binary64.Sample.self = false
   /\ Binary64.FeeSetter.channel_fee_policies Binary64.Sample.self
        !! Binary64.Channel.channel_point Binary64.Sample.channel1
      = Some Binary64.Sample.current1
   /\ Binary64.FeeSetter.new_fee_policy_channel Binary64.Sample.self
        Binary64.Sample.channels_forwarding_stats 1 Binary64.Sample.channel1
      = Binary64.Ok (Binary64.Sample.policy1, Binary64.Sample.line1)
   /\ Binary64.Spec.enter_open_mode 0.000004 0.000006 (-0.5) 0 = false
   /\ Binary64.Spec.leave_open_mode 0.000006 (-0.5) 0 = false
   /\ Binary64.Spec.enter_locked_mode (-0.5) 0 = false
   /\ Binary64.Spec.leave_locked_mode 0.000006 (-0.5) = false)
  /\ Binary64.Spec.rounded_6 (0.000006 * 0.7500000000000001) 0.000005
  /\ Binary64.Policy.fee_rate Binary64.Sample.policy1
     = Binary64.Float.min (Binary64.Float.max 0.000004 0.000005) 0.000100
  /\ (Binary64.Float.le 0.000004 0.000100 = true ->
      (Binary64.Float.le 0.000005 0.000005 = true ->
       Binary64.Policy.fee_rate Binary64.Sample.policy1
       = Binary64.Spec.clamp 0.000004 0.000100 0.000005)
      /\ Binary64.Float.le 0.000004
           (Binary64.Policy.fee_rate Binary64.Sample.policy1) = true
      /\ Binary64.Float.le
           (Binary64.Policy.fee_rate Binary64.Sample.policy1) 0.000100
         = true).
Proof.
  split; [repeat split; compute_float |].
  apply (steady_state_fee_rate Binary64.Sample.self
           Binary64.Sample.channels_forwarding_stats 1
           Binary64.Sample.channel1 Binary64.Sample.current1
           Binary64.Sample.policy1 Binary64.Sample.line1); compute_float.
Defined.

(** The float product [100 * 1.15] is [114.99999999999999], below the
    exact product 115: the base fee written is 114. *)
Lemma base_fee_decision_sample :
  (Binary64.FeeSetter.channel_fee_policies Binary64.Sample.self
     !! Binary64.Channel.channel_point Binary64.Sample.channel2
   = Some Binary64.Sample.current2
   /\ Binary64.FeeSetter.new_fee_policy_channel Binary64.Sample.self
        Binary64.Sample.channels_forwarding_stats 2 Binary64.Sample.channel2
      = Binary64.Ok (Binary64.Sample.policy2, Binary64.Sample.line2)
   /\ Binary64.FeeSetter.init Binary64.Sample.self = false
   /\ (0 <= 20)%Z
   /\ Binary64.Float.is_finite (Binary64.Float.of_Z 100 * 1.15) = true)
  /\ Binary64.Policy.base_fee_msat Binary64.Sample.policy2
     = Z.max 20 (Binary64.Spec.round_down (Binary64.Float.of_Z 100 * 1.15))
  /\ Binary64.Spec.round_down (Binary64.Float.of_Z 100 * 1.15) = 114%Z.
Proof.
  split; [repeat split; compute_float |].
  split; [| compute_float].
  apply (base_fee_decision Binary64.Sample.self
           Binary64.Sample.channels_forwarding_stats 2
           Binary64.Sample.channel2 Binary64.Sample.current2
           Binary64.Sample.policy2 Binary64.Sample.line2); compute_float.
Defined.

(** The first run of the narrow band writes [0.00005], below
    [min_fee_rate = 0.00008], over floats as well. *)
Example narrow_band_fee_rate_outside_binary64 :
  Binary64.FeeSetter.new_fee_policy_channel Binary64.NarrowBand.self ∅ 1
    Binary64.NarrowBand.channel
  = Binary64.Ok (Binary64.NarrowBand.policy,
      {| Binary64.StatsLine.channel_id := 1;
         Binary64.StatsLine.total_forwarding_in := 0;
         Binary64.StatsLine.total_forwarding_out := 0;
         Binary64.StatsLine.ub := 0.8;
         Binary64.StatsLine.flow := 0;
         Binary64.StatsLine.fees_sat := 0;
         Binary64.StatsLine.capacity := 1000000;
         Binary64.StatsLine.factor_demand := 0.75;
         Binary64.StatsLine.factor_unbalancedness := 1.4;
         Binary64.StatsLine.factor_flow := 1;
         Binary64.StatsLine.weighted_change := 1.032608695652174;
         Binary64.StatsLine.fee_rate := 0.000050;
         Binary64.StatsLine.fee_rate_new := 0.000050;
         Binary64.StatsLine.number_forwardings := 0;
         Binary64.StatsLine.number_forwardings_out := 0;
         Binary64.StatsLine.factor_base_fee := 0.75;
         Binary64.StatsLine.base_fee_msat := 1000;
         Binary64.StatsLine.base_fee_msat_new := 20 |})
  /\ Binary64.Float.lt
       (Binary64.Policy.fee_rate Binary64.NarrowBand.policy)
       (Binary64.FeeSetter.min_fee_rate Binary64.NarrowBand.self)
     = true
  /\ Binary64.Float.eq
       (Binary64.Policy.fee_rate Binary64.NarrowBand.policy) 0 = false
  /\ Binary64.Float.eq
       (Binary64.Policy.fee_rate Binary64.NarrowBand.policy)
       Binary64.FEE_LOCK_RATE = false.
Proof. repeat split; compute_float. Qed.
